(** * CARDAMOMlib: radiocarbon companion systems and the Delta14C diagnostic

    A shallow embedding of [bgc_md2/models/CARDAMOM/CARDAMOMlib.py].

    - Python floats and numpy [float64] entries are IEEE-754 binary64 values,
      modelled by [spec_float] with precision 53 and maximal exponent 1024;
      the arithmetic is the standard library's executable specification
      (round to nearest, ties to even), so every expression below can be
      evaluated on concrete inputs.
    - Exceptions are values of [exn]; a computation either returns or raises.
    - The caller's dataset is a mutable object: the top-level function runs in
      a small state monad over that object and a trace of the calls made to
      the external collaborators (model reconstruction, linear solver,
      forcing table, model runs).
    - The figure of [plot_Delta_14C_in_time] is the list of the panels it
      draws. *)

From Stdlib Require Import ZArith String List Bool Lia SpecFloat.
Import ListNotations.
Open Scope string_scope.
Open Scope Z_scope.

Set Implicit Arguments.

(* ===================================================================== *)
(** ** Binary64 arithmetic *)
(* ===================================================================== *)

Module F64.

Definition prec : Z := 53.
Definition emax : Z := 1024.

Definition float := spec_float.

Definition add : float -> float -> float := SFadd prec emax.
Definition sub : float -> float -> float := SFsub prec emax.
Definition mul : float -> float -> float := SFmul prec emax.
Definition div : float -> float -> float := SFdiv prec emax.
Definition opp : float -> float := SFopp.

(** An integer literal, or an [int] promoted to [float]. *)
Definition of_Z (z : Z) : float := binary_normalize prec emax z 0 false.

(** The decimal literal [m * 10^-k], for [m] and [10^k] below [2^53]: both
    are exact binary64 values and their quotient is rounded once, which is
    the correctly rounded value a Python literal denotes. *)
Definition dec (m : Z) (k : nat) : float := div (of_Z m) (of_Z (10 ^ Z.of_nat k)).

Definition nan : float := S754_nan.
Definition pinf : float := S754_infinity false.
Definition ninf : float := S754_infinity true.

Definition is_nan (x : float) : bool :=
  match x with S754_nan => true | _ => false end.
Definition is_zero (x : float) : bool :=
  match x with S754_zero _ => true | _ => false end.
Definition is_inf (x : float) : bool :=
  match x with S754_infinity _ => true | _ => false end.
Definition is_posinf (x : float) : bool :=
  match x with S754_infinity false => true | _ => false end.
Definition is_neginf (x : float) : bool :=
  match x with S754_infinity true => true | _ => false end.
Definition is_finite (x : float) : bool :=
  match x with S754_zero _ | S754_finite _ _ _ => true | _ => false end.

(** [x > y] as numpy compares: false as soon as one side is NaN. *)
Definition gtb (x y : float) : bool :=
  match SFcompare x y with Some Gt => true | _ => false end.

(** [x == y] as numpy compares: zeros of either sign are equal, NaN equals
    nothing. *)
Definition eqb (x y : float) : bool := SFeqb x y.

(** The largest finite binary64 value, [sys.float_info.max]. *)
Definition max_float : float := S754_finite false (2 ^ 53 - 1) (emax - prec).
Definition min_float : float := opp max_float.

End F64.

Abbreviation float := F64.float.

Declare Scope f64_scope.
Delimit Scope f64_scope with f64.
Infix "+" := F64.add : f64_scope.
Infix "-" := F64.sub : f64_scope.
Infix "*" := F64.mul : f64_scope.
Infix "/" := F64.div : f64_scope.
Notation "- x" := (F64.opp x) : f64_scope.
Notation "'fl' z" := (F64.of_Z z) (at level 1, z at level 0, format "'fl'  z").

(* ===================================================================== *)
(** ** Constants of the module *)
(* ===================================================================== *)

(** [alpha = 1.18e-12], the 14C/12C ratio of the reference standard. *)
Definition alpha : float := F64.dec 118 14.

(** [lamda = 0.0001209681], the decay constant. *)
Definition lamda : float := F64.dec 1209681 10.

(** The literal [365.25]. *)
Definition lit_365_25 : float := F64.dec 36525 2.

(** [days_per_month = 365.25/12.0] in [load_mdo]. *)
Definition days_per_month : float := (lit_365_25 / fl 12)%f64.

(** [t_conv = lambda t: 2001 + (15+t)/365.25] *)
Definition t_conv (t : float) : float := (fl 2001 + (fl 15 + t) / lit_365_25)%f64.

(** [F_Delta_14C = lambda C12, C14: (C14/C12/alpha - 1) * 1000], on one entry. *)
Definition F_Delta_14C (C12 C14 : float) : float :=
  ((C14 / C12 / alpha - fl 1) * fl 1000)%f64.

(* ===================================================================== *)
(** ** Exceptions and fallible results *)
(* ===================================================================== *)

(** The exception classes that occur. [LinAlgError] is numpy's, [DMRError]
    is the discrete model run's; neither derives from the other.  The
    messages of library exceptions are abridged. *)
Inductive exn : Type :=
| ValueError (msg : string)
| TypeError (msg : string)
| IndexError (msg : string)
| KeyError (msg : string)
| AttributeError (msg : string)
| OSError (msg : string)
| LinAlgError (msg : string)
| DMRError (msg : string).

(** [str(e)] *)
Definition str (e : exn) : string :=
  match e with
  | ValueError m | TypeError m | IndexError m | KeyError m
  | AttributeError m | OSError m | LinAlgError m | DMRError m => m
  end.

Inductive result (A : Type) : Type :=
| Ok (a : A)
| Raise (e : exn).
Arguments Ok {A} a.
Arguments Raise {A} e.

Definition rbind {A B} (r : result A) (k : A -> result B) : result B :=
  match r with
  | Ok a => k a
  | Raise e => Raise e
  end.

Declare Scope result_scope.
Delimit Scope result_scope with res.
Notation "x <- c ;; k" := (rbind c (fun x => k))
  (at level 100, c at next level, right associativity) : result_scope.

Fixpoint mapR {A B} (f : A -> result B) (l : list A) : result (list B) :=
  match l with
  | [] => Ok []
  | a :: l' =>
      (b <- f a ;; bs <- mapR f l' ;; Ok (b :: bs))%res
  end.

(* ===================================================================== *)
(** ** numpy arrays *)
(* ===================================================================== *)

(** One- and two-dimensional [float64] arrays are lists and lists of rows,
    three-dimensional ones lists of matrices along the first axis.  An array
    without rows stands for shape [(0, n)] whatever [n] is. *)
Definition vector := list float.
Definition matrix := list vector.

(** [l[:n]] for a Python integer [n]: a negative bound counts from the end. *)
Definition slice_to {A} (n : Z) (l : list A) : list A :=
  if 0 <=? n then firstn (Z.to_nat n) l
  else firstn (Z.to_nat (Z.of_nat (length l) + n)) l.

(** [len(l) - 1] *)
Definition len_minus_1 {A} (l : list A) : Z := Z.of_nat (length l) - 1.

(** Strict elementwise combination of two sequences of one length. *)
Fixpoint zipWithR {A B C} (f : A -> B -> result C) (xs : list A) (ys : list B)
  : result (list C) :=
  match xs, ys with
  | [], [] => Ok []
  | x :: xs', y :: ys' =>
      (c <- f x y ;; cs <- zipWithR f xs' ys' ;; Ok (c :: cs))%res
  | _, _ => Raise (ValueError "operands could not be broadcast together")
  end.

(** Broadcasting along one axis: equal lengths combine pointwise, a length-one
    operand is repeated, anything else is a shape error. *)
Definition broadcastR {A B C} (f : A -> B -> result C) (xs : list A) (ys : list B)
  : result (list C) :=
  if Nat.eqb (length xs) (length ys) then zipWithR f xs ys
  else
    match xs, ys with
    | [x], _ => mapR (f x) ys
    | _, [y] => mapR (fun x => f x y) xs
    | _, _ => Raise (ValueError "operands could not be broadcast together")
    end.

Definition vec_op (f : float -> float -> float) (u v : vector) : result vector :=
  broadcastR (fun x y => Ok (f x y)) u v.

Definition mat_op (f : float -> float -> float) (M N : matrix) : result matrix :=
  broadcastR (vec_op f) M N.

Definition scal_vec (c : float) (v : vector) : vector := map (F64.mul c) v.
Definition scal_mat (c : float) (M : matrix) : matrix := map (scal_vec c) M.
Definition neg_mat (M : matrix) : matrix := map (map F64.opp) M.

(** [M[:, j]] *)
Definition column (j : nat) (M : matrix) : result vector :=
  mapR (fun row =>
          match nth_error row j with
          | Some x => Ok x
          | None => Raise (IndexError "index is out of bounds for axis 1")
          end) M.

(** [T[:, i, j]] for a three-dimensional array *)
Definition column3 (i j : nat) (T : list matrix) : result vector :=
  mapR (fun M =>
          match nth_error M i with
          | Some row =>
              match nth_error row j with
              | Some x => Ok x
              | None => Raise (IndexError "index is out of bounds for axis 2")
              end
          | None => Raise (IndexError "index is out of bounds for axis 1")
          end) T.

(** [np.nan * np.ones((1, n))] and [np.nan * np.ones((1, n, n))] *)
Definition nan_row (n : nat) : vector := repeat F64.nan n.
Definition nan_mat (n : nat) : matrix := repeat (nan_row n) n.

(** [np.identity(n)], [np.eye(n)] *)
Definition identity (n : nat) : matrix :=
  map (fun i => map (fun j => if Nat.eqb i j then fl 1 else fl 0) (seq 0 n)) (seq 0 n).

(** The sum of a non-empty sequence, accumulated from its first term. *)
Definition sum_from (x : float) (xs : list float) : float := fold_left F64.add xs x.

(** [np.matmul(A, B)] with the terms of each entry added in index order. *)
Definition dot (u v : vector) : float :=
  match map (fun p => (fst p * snd p)%f64) (combine u v) with
  | [] => fl 0
  | p :: ps => sum_from p ps
  end.

Definition ncols (M : matrix) : nat := length (hd [] M).

(** The columns of [M], as rows. *)
Definition transpose (M : matrix) : matrix :=
  map (fun j => map (fun row => nth j row F64.nan) M) (seq 0 (ncols M)).

Definition matmul (A B : matrix) : result matrix :=
  if forallb (fun row => Nat.eqb (length row) (length B)) A
  then Ok (map (fun row => map (dot row) (transpose B)) A)
  else Raise (ValueError "matmul: Input operand 1 has a mismatch in its core dimension 0").

(** [np.mean(rows, axis=0)] for a sequence of vectors of one length: the rows
    are added in order and the sum is divided by their number.  The mean of no
    rows is NaN in every column; [n] is the width such an array has. *)
Fixpoint sum_rows (acc : vector) (rows : list vector) : result vector :=
  match rows with
  | [] => Ok acc
  | r :: rows' =>
      (acc' <- zipWithR (fun x y => Ok (x + y)%f64) acc r ;; sum_rows acc' rows')%res
  end.

Definition mean_axis0 (n : nat) (rows : list vector) : result vector :=
  match rows with
  | [] => Ok (nan_row n)
  | r :: rows' =>
      (s <- sum_rows r rows' ;;
       Ok (map (fun x => (x / fl (Z.of_nat (length rows)))%f64) s))%res
  end.

(** [np.mean(Ms, axis=0)] for a sequence of matrices of one shape. *)
Fixpoint sum_mats (acc : matrix) (Ms : list matrix) : result matrix :=
  match Ms with
  | [] => Ok acc
  | M :: Ms' =>
      (acc' <- zipWithR (zipWithR (fun x y => Ok (x + y)%f64)) acc M ;;
       sum_mats acc' Ms')%res
  end.

Definition mean_axis0_mat (n : nat) (Ms : list matrix) : result matrix :=
  match Ms with
  | [] => Ok (nan_mat n)
  | M :: Ms' =>
      (S <- sum_mats M Ms' ;;
       Ok (map (map (fun x => (x / fl (Z.of_nat (length Ms)))%f64)) S))%res
  end.

(** [np.nan_to_num(x, posinf=0)]: NaN becomes [0.0], positive infinity the
    given [0], and negative infinity, whose replacement is left at its
    default, the most negative finite value. *)
Definition nan_to_num_posinf0 (x : float) : float :=
  match x with
  | S754_nan => fl 0
  | S754_infinity false => fl 0
  | S754_infinity true => F64.min_float
  | _ => x
  end.

(** [np.max(a)] over all entries: NaN wins, an empty array is an error. *)
Definition np_max (xs : list float) : result float :=
  match xs with
  | [] => Raise (ValueError "zero-size array to reduction operation maximum which has no identity")
  | x :: xs' =>
      Ok (fold_left (fun m y =>
                       if F64.is_nan m then m
                       else if F64.is_nan y then y
                       else if F64.gtb y m then y else m) xs' x)
  end.

(* ===================================================================== *)
(** ** Ordered dictionaries *)
(* ===================================================================== *)

(** Python dictionaries keep insertion order; they are association lists in
    which assigning to a present key replaces its value in place. *)
Definition dict (V : Type) := list (string * V).

Definition keys {V} (d : dict V) : list string := map fst d.

Fixpoint lookup {V} (k : string) (d : dict V) : option V :=
  match d with
  | [] => None
  | (k', v) :: d' => if String.eqb k k' then Some v else lookup k d'
  end.

Fixpoint assign {V} (k : string) (v : V) (d : dict V) : dict V :=
  match d with
  | [] => [(k, v)]
  | (k', v') :: d' =>
      if String.eqb k k' then (k, v) :: d' else (k', v') :: assign k v d'
  end.

Definition mem (k : string) (ks : list string) : bool := existsb (String.eqb k) ks.

Definition subset (xs ys : list string) : bool := forallb (fun x => mem x ys) xs.

(* ===================================================================== *)
(** ** xarray: variables, data arrays, datasets *)
(* ===================================================================== *)

Definition attrs := dict string.

(** Array payloads by dtype: [float64] entries or strings, stored flat next
    to their shape. *)
Inductive ndarray : Type :=
| FloatArray (shp : list nat) (elems : list float)
| StrArray (shp : list nat) (elems : list string).

Definition shape (a : ndarray) : list nat :=
  match a with FloatArray s _ | StrArray s _ => s end.

(** A one-dimensional [float64] array. *)
Definition array1 (v : vector) : ndarray := FloatArray [length v] v.

(** A zero-dimensional array holding one float, one string. *)
Definition scalar_float (x : float) : ndarray := FloatArray [] [x].
Definition scalar_str (s : string) : ndarray := StrArray [] [s].

Record XVariable : Type := {
  x_dims : list string;
  x_data : ndarray;
  x_attrs : attrs
}.

Record DataArray : Type := {
  data : ndarray;
  coords : dict XVariable;
  dims : list string;
  da_attrs : attrs
}.

Record Dataset : Type := {
  variables : dict XVariable;
  coord_names : list string;
  ds_attrs : attrs
}.

Definition to_variable (da : DataArray) : XVariable :=
  {| x_dims := dims da; x_data := data da; x_attrs := da_attrs da |}.

Definition is_coord (ds : Dataset) (kv : string * XVariable) : bool :=
  mem (fst kv) (coord_names ds).

(** [ds.data_vars] and [ds.coords] *)
Definition data_vars_of (ds : Dataset) : dict XVariable :=
  filter (fun kv => negb (is_coord ds kv)) (variables ds).
Definition coords_of (ds : Dataset) : dict XVariable :=
  filter (is_coord ds) (variables ds).

(** Dimension names with their lengths, per variable and over a dictionary. *)
Definition var_sizes (v : XVariable) : list (string * nat) :=
  combine (x_dims v) (shape (x_data v)).
Definition sizes (vars : dict XVariable) : list (string * nat) :=
  flat_map (fun kv => var_sizes (snd kv)) vars.

(** Two size tables agree when no dimension has two lengths. *)
Definition agree (s1 s2 : list (string * nat)) : bool :=
  forallb (fun p =>
    forallb (fun q => negb (String.eqb (fst p) (fst q)) || Nat.eqb (snd p) (snd q)) s2)
    s1.

(** [ds[name]]: the variable with the coordinates that live on its dimensions. *)
Definition getitem (ds : Dataset) (name : string) : result DataArray :=
  match lookup name (variables ds) with
  | Some v =>
      Ok {| data := x_data v;
            coords := filter (fun kv => subset (x_dims (snd kv)) (x_dims v)) (coords_of ds);
            dims := x_dims v;
            da_attrs := x_attrs v |}
  | None => Raise (KeyError name)
  end.

(** [ds.name], attribute-style access to a variable. *)
Definition getattr (ds : Dataset) (name : string) : result DataArray :=
  match getitem ds name with
  | Ok da => Ok da
  | Raise _ => Raise (AttributeError name)
  end.

(** [len(da)] *)
Definition len (da : DataArray) : result nat :=
  match shape (data da) with
  | n :: _ => Ok n
  | [] => Raise (TypeError "len() of unsized object")
  end.

(** [ds[name] = v] for a value without coordinates of its own.  xarray merges
    the value into the dataset and refuses a dimension of two lengths. *)
Definition setitem (ds : Dataset) (name : string) (v : XVariable) : result Dataset :=
  if agree (var_sizes v) (sizes (variables ds))
  then Ok {| variables := assign name v (variables ds);
             coord_names := coord_names ds;
             ds_attrs := ds_attrs ds |}
  else Raise (ValueError "conflicting sizes for dimension").

(** [xr.DataArray(data=d, coords=cs, dims=ds, attrs=a)] *)
Definition new_DataArray (d : ndarray) (cs : dict XVariable) (dms : list string)
    (a : attrs) : result DataArray :=
  if negb (Nat.eqb (length (shape d)) (length dms)) then
    Raise (ValueError "different number of dimensions on data and dims")
  else if negb (forallb (fun kv => subset (x_dims (snd kv)) dms) cs) then
    Raise (ValueError "coordinate has dimensions that are not a subset of the DataArray dimensions")
  else if negb (agree (combine dms (shape d)) (sizes cs)) then
    Raise (ValueError "conflicting sizes for dimension")
  else Ok {| data := d; coords := cs; dims := dms; da_attrs := a |}.

(** [xr.Dataset(data_vars=dvs, coords=cs, attrs=a)] *)
Definition new_Dataset (dvs : dict DataArray) (cs : dict XVariable) (a : attrs)
  : result Dataset :=
  let vars := (map (fun kv => (fst kv, to_variable (snd kv))) dvs ++ cs)%list in
  if existsb (fun k => mem k (keys cs)) (keys dvs) then
    Raise (ValueError "variables are found in both data_vars and coords")
  else if negb (agree (sizes vars) (sizes vars)) then
    Raise (ValueError "conflicting sizes for dimension")
  else Ok {| variables := vars; coord_names := keys cs; ds_attrs := a |}.

(** [np.nan * val] for a data array: every entry becomes NaN, the attributes
    are dropped; a string array cannot be multiplied. *)
Definition nan_times (val : DataArray) : result DataArray :=
  match data val with
  | FloatArray s xs =>
      Ok {| data := FloatArray s (map (F64.mul F64.nan) xs);
            coords := coords val; dims := dims val; da_attrs := [] |}
  | StrArray _ _ =>
      Raise (TypeError "ufunc 'multiply' did not contain a loop with signature matching types")
  end.

(** [ds.copy(data=dat)]: a new dataset whose data variables carry the given
    data; the keys of [dat] must be exactly the data variables and each shape
    must be the original one. *)
Definition copy_with_data (ds : Dataset) (dat : dict DataArray) : result Dataset :=
  if negb (subset (keys dat) (keys (data_vars_of ds))) then
    Raise (ValueError "Data must only contain variables in original dataset")
  else if negb (subset (keys (data_vars_of ds)) (keys dat)) then
    Raise (ValueError "Data must contain all variables in original dataset")
  else
    (vars <- mapR (fun kv : string * XVariable =>
                     match lookup (fst kv) dat with
                     | Some da =>
                         if list_eq_dec Nat.eq_dec (shape (data da)) (shape (x_data (snd kv)))
                         then Ok (fst kv, {| x_dims := x_dims (snd kv);
                                             x_data := data da;
                                             x_attrs := x_attrs (snd kv) |})
                         else Raise (ValueError "Data shape must match shape of object")
                     | None => Ok kv
                     end) (variables ds) ;;
     Ok {| variables := vars; coord_names := coord_names ds; ds_attrs := ds_attrs ds |})%res.

(* ===================================================================== *)
(** ** Objects of the collaborating packages *)
(* ===================================================================== *)

(** [bgc_md2.Variable]: data with a unit. *)
Record BgcVariable (A : Type) : Type := {
  v_data : A;
  v_unit : string
}.

(** The arguments [load_model_structure] hands to [ModelStructure]. *)
Record ModelStructure : Type := {
  pool_structure : list (string * string);
  external_input_structure : dict (list string);
  horizontal_structure : list ((string * string) * list string);
  vertical_structure : list ((string * string) * list string);
  external_output_structure : dict (list string)
}.

(** Modelled from the spec: the class [ModelStructure] is not among the
    sources.  Pools are identified by name and ordered, with a fixed index,
    so [pool_names] lists the [pool_name] entries of the pool structure in
    their order. *)
Definition pool_names (ms : ModelStructure) : list string :=
  map fst (pool_structure ms).

(** [ModelDataObject], as [load_mdo] constructs it. *)
Record ModelDataObject : Type := {
  model_structure : ModelStructure;
  dataset : Dataset;
  stock_unit : string;
  time : BgcVariable vector
}.

Inductive run_kind : Type := Discrete | Smooth.

(** What a model run of either kind exposes to this module: its time axis,
    the realised flux arrays, and the solution [solve()] returns (for a smooth
    run, the first component of the pair). *)
Record ModelRun : Type := {
  kind : run_kind;
  times : vector;
  nr_pools : nat;
  external_input_vector : matrix;
  internal_flux_matrix : list matrix;
  external_output_vector : matrix;
  solve : result matrix
}.

Record DiscreteModelRun : Type := {
  dmr_run :> ModelRun;
  Bs : list matrix
}.

Record SmoothModelRun : Type := {
  smr_run :> ModelRun;
  B_func : float -> matrix;
  external_input_vector_func : float -> vector
}.

(* ===================================================================== *)
(** ** The caller's object, the call trace, and the monad *)
(* ===================================================================== *)

(** Calls that leave this module. *)
Inductive call : Type :=
| CallCreateDiscreteModelRun
| CallCreateModelRun
| CallLoadAtmCurve
| CallLinalgSolve (A : matrix) (b : vector)
| CallTo14COnly (start_values : vector)
| CallSolve12C
| CallSolve14C.

Record World : Type := {
  input : Dataset;
  trace : list call
}.

Definition M (A : Type) : Type := World -> World * result A.

Definition ret {A} (a : A) : M A := fun w => (w, Ok a).
Definition raise {A} (e : exn) : M A := fun w => (w, Raise e).

Definition bind {A B} (c : M A) (k : A -> M B) : M B :=
  fun w =>
    match c w with
    | (w', Ok a) => k a w'
    | (w', Raise e) => (w', Raise e)
    end.

Declare Scope m_scope.
Delimit Scope m_scope with M.
Notation "x <- c ;; k" := (bind c (fun x => k))
  (at level 100, c at next level, right associativity) : m_scope.
Notation "c ;;; k" := (bind c (fun _ => k))
  (at level 100, right associativity) : m_scope.

(** A computation that touches neither the object nor the outside. *)
Definition lift {A} (r : result A) : M A := fun w => (w, r).

(** A call to a collaborator: recorded, then its outcome. *)
Definition ext {A} (c : call) (r : result A) : M A :=
  fun w => ({| input := input w; trace := (trace w ++ [c])%list |}, r).

(** Reading the caller's dataset, and [ds[name] = v] on it. *)
Definition get_input : M Dataset := fun w => (w, Ok (input w)).

Definition setitem_input (name : string) (v : XVariable) : M unit :=
  fun w =>
    match setitem (input w) name v with
    | Ok ds' => ({| input := ds'; trace := trace w |}, Ok tt)
    | Raise e => (w, Raise e)
    end.

(** [try: body  except DMRError as e: handler e]; every other exception
    passes through. *)
Definition try_except_DMRError {A} (body : M A) (handler : exn -> M A) : M A :=
  fun w =>
    match body w with
    | (w', Raise (DMRError msg)) => handler (DMRError msg) w'
    | other => other
    end.

Fixpoint foldM {S X} (f : S -> X -> M S) (l : list X) (s : S) : M S :=
  match l with
  | [] => ret s
  | x :: l' => (s' <- f s x ;; foldM f l' s')%M
  end.

(** [enumerate(l)] *)
Definition enumerate {A} (l : list A) : list (nat * A) :=
  combine (seq 0 (length l)) l.

(** The object a call returns: the caller's own dataset, or a new one. *)
Inductive returned : Type :=
| InputObject
| NewObject (d : Dataset).

(* ===================================================================== *)
(** ** The collaborators *)
(* ===================================================================== *)

(** The operations this module calls but does not define.  Each may raise.
    - [create_discrete_model_run], [create_model_run]: the reconstruction of
      the 12C system by the model data object, with its absolute and relative
      error;
    - [atm_curve]: reading [C14Atm_NH.csv] and interpolating it, with
      extrapolation;
    - [np_exp], [np_linalg_solve]: numpy;
    - [dmr_to_14C_only], [smr_to_14C_only]: the tracer-only companion of a
      run, from start values and the 14C input (a series, or the function
      that scales the 12C input). *)
Record Env : Type := {
  create_discrete_model_run :
    ModelDataObject -> result (DiscreteModelRun * BgcVariable matrix * BgcVariable matrix);
  create_model_run :
    ModelDataObject -> result (SmoothModelRun * BgcVariable matrix * BgcVariable matrix);
  atm_curve : result (float -> float);
  np_exp : float -> float;
  np_linalg_solve : matrix -> vector -> result vector;
  dmr_to_14C_only : DiscreteModelRun -> vector -> matrix -> result DiscreteModelRun;
  smr_to_14C_only : SmoothModelRun -> vector -> (float -> float) -> result SmoothModelRun
}.

(* ===================================================================== *)
(** ** [load_model_structure], [load_mdo] *)
(* ===================================================================== *)

Definition load_model_structure : ModelStructure :=
  {| pool_structure :=
       [("Labile", "Labile"); ("Leaf", "Leaf"); ("Root", "Root");
        ("Wood", "Wood"); ("Litter", "Litter"); ("Soil", "Soil")];
     external_input_structure :=
       [("Labile", ["NPP_to_Labile"]); ("Leaf", ["NPP_to_Leaf"]);
        ("Root", ["NPP_to_Root"]); ("Wood", ["NPP_to_Wood"])];
     horizontal_structure :=
       [(("Labile", "Leaf"), ["Labile_to_Leaf"]);
        (("Leaf", "Litter"), ["Leaf_to_Litter"]);
        (("Wood", "Soil"), ["Wood_to_Soil"]);
        (("Root", "Litter"), ["Root_to_Litter"]);
        (("Litter", "Soil"), ["Litter_to_Soil"])];
     vertical_structure := [];
     external_output_structure :=
       [("Litter", ["Litter_to_RH"]); ("Soil", ["Soil_to_RH"])] |}.

(** [np.arange(n) * days_per_month] *)
Definition arange_times (n : nat) : vector :=
  map (fun i => (fl (Z.of_nat i) * days_per_month)%f64) (seq 0 n).

Definition load_mdo (ds : Dataset) : result ModelDataObject :=
  let ms := load_model_structure in
  (ds_time <- getattr ds "time" ;;
   n <- len ds_time ;;
   let time := {| v_data := arange_times n; v_unit := "d" |} in
   Ok {| model_structure := ms;
         dataset := ds;
         stock_unit := "gC/m2";
         time := time |})%res.

(* ===================================================================== *)
(** ** [add_variable] *)
(* ===================================================================== *)

(** The dictionary [data_vars] is updated in place by the source; here the
    updated dictionary is the result.  [ds] is only read. *)
Definition add_variable (ds : Dataset) (data_vars : dict DataArray)
    (var_name_ds : string) (new_var : BgcVariable vector) : result (dict DataArray) :=
  if mem var_name_ds (keys (variables ds)) then
    (var_ds <- getitem ds var_name_ds ;;
     let attrs := assign "units" (v_unit new_var) (da_attrs var_ds) in
     var <- new_DataArray (array1 (v_data new_var)) (coords var_ds) (dims var_ds) attrs ;;
     Ok (assign var_name_ds var data_vars))%res
  else Ok data_vars.

(* ===================================================================== *)
(** ** [create_Delta_14C_dataset] *)
(* ===================================================================== *)

(** [F_Delta_14C] on two one-dimensional arrays. *)
Definition F_Delta_14C_arr (C12 C14 : vector) : result vector :=
  vec_op F_Delta_14C C12 C14.

(** The unit of the monthly flux series. *)
Definition unit_monthly : string := "g/(365.25/12 d)".

(** Modelled from the spec: [Variable.convert] belongs to [bgc_md2.Variable],
    which is not among the sources.  Monthly-aggregated flux magnitudes become
    daily rates by dividing by the step length in days, [365.25/12]; [over]
    applies the scaling to every entry of the data.  No other conversion is
    described. *)
Definition convert {A} (over : (float -> float) -> A -> A) (v : BgcVariable A)
    (tar_unit : string) : result (BgcVariable A) :=
  if String.eqb (v_unit v) unit_monthly && String.eqb tar_unit "g/d" then
    Ok {| v_data := over (fun x => (x / days_per_month)%f64) (v_data v);
          v_unit := tar_unit |}
  else Raise (ValueError "Unable to convert between the units").

Definition over2 (f : float -> float) (M : matrix) : matrix := map (map f) M.
Definition over3 (f : float -> float) (T : list matrix) : list matrix := map (over2 f) T.

(** [np.concatenate([np.nan * np.ones((1, n)), rows], axis=0)] *)
Definition nan_first (n : nat) (rows : matrix) : result matrix :=
  if forallb (fun r => Nat.eqb (length r) n) rows
  then Ok (nan_row n :: rows)
  else Raise (ValueError "all the input array dimensions except for the concatenation axis must match exactly").

(** [np.concatenate([np.nan * np.ones((1, n, n)), mats], axis=0)] *)
Definition nan_first3 (n : nat) (mats : list matrix) : result (list matrix) :=
  if forallb (fun m => Nat.eqb (length m) n && forallb (fun r => Nat.eqb (length r) n) m) mats
  then Ok (nan_mat n :: mats)
  else Raise (ValueError "all the input array dimensions except for the concatenation axis must match exactly").

Section CreateDataset.

Variables (mdo : ModelDataObject) (ds : Dataset) (mr mr_14C : ModelRun).

Let ms := model_structure mdo.

(** [mr.solve()] and [mr_14C.solve()]; a smooth run returns a pair whose
    second component is dropped. *)
Definition solve_both : M (matrix * matrix) :=
  match kind mr with
  | Smooth | Discrete =>
      (soln <- ext CallSolve12C (solve mr) ;;
       soln_14C <- ext CallSolve14C (solve mr_14C) ;;
       ret (soln, soln_14C))%M
  end.

Definition save_stock (data_vars : dict DataArray) (p : nat * string)
  : M (dict DataArray) :=
  let '(pool_nr, pool_name) := p in
  let var_name_ds := pool_name in
  (ss <- solve_both ;;
   lift (C12 <- column pool_nr (fst ss) ;;
         C14 <- column pool_nr (snd ss) ;;
         D <- F_Delta_14C_arr C12 C14 ;;
         add_variable ds data_vars var_name_ds
           {| v_data := D; v_unit := stock_unit mdo |})%res)%M.

(** The monthly flux series with NaN inserted at time [t0]. *)
Definition monthly2 (flux : ModelRun -> matrix) (r : ModelRun)
  : result (BgcVariable matrix) :=
  (d <- nan_first (length (pool_names ms)) (slice_to (len_minus_1 (times mr)) (flux r)) ;;
   Ok {| v_data := d; v_unit := unit_monthly |})%res.

Definition monthly3 (r : ModelRun) : result (BgcVariable (list matrix)) :=
  (d <- nan_first3 (length (pool_names ms))
          (slice_to (len_minus_1 (times mr)) (internal_flux_matrix r)) ;;
   Ok {| v_data := d; v_unit := unit_monthly |})%res.

(** The daily flux rates of both runs, for a vector-valued flux. *)
Definition daily2 (flux : ModelRun -> matrix)
  : result (BgcVariable matrix * BgcVariable matrix) :=
  (xs_monthly <- monthly2 flux mr ;;
   xs_monthly_14C <- monthly2 flux mr_14C ;;
   xs <- convert over2 xs_monthly "g/d" ;;
   xs_14C <- convert over2 xs_monthly_14C "g/d" ;;
   Ok (xs, xs_14C))%res.

Definition daily3 : result (BgcVariable (list matrix) * BgcVariable (list matrix)) :=
  (Fs_monthly <- monthly3 mr ;;
   Fs_monthly_14C <- monthly3 mr_14C ;;
   Fs <- convert over3 Fs_monthly "g/d" ;;
   Fs_14C <- convert over3 Fs_monthly_14C "g/d" ;;
   Ok (Fs, Fs_14C))%res.

Definition save_flux2 (name : string -> string)
    (xs xs_14C : BgcVariable matrix)
    (data_vars : dict DataArray) (p : nat * string) : M (dict DataArray) :=
  let '(pool_nr, pool_name) := p in
  let var_name_ds := name pool_name in
  lift (C12 <- column pool_nr (v_data xs) ;;
        C14 <- column pool_nr (v_data xs_14C) ;;
        D <- F_Delta_14C_arr C12 C14 ;;
        add_variable ds data_vars var_name_ds
          {| v_data := D; v_unit := v_unit xs |})%res.

Definition save_internal (Fs Fs_14C : BgcVariable (list matrix))
    (data_vars : dict DataArray) (pf : nat * string) : M (dict DataArray) :=
  let '(pnr_from, pn_from) := pf in
  foldM (fun data_vars (pt : nat * string) =>
           let '(pnr_to, pn_to) := pt in
           let var_name_ds := pn_from ++ "_to_" ++ pn_to in
           lift (C12 <- column3 pnr_to pnr_from (v_data Fs) ;;
                 C14 <- column3 pnr_to pnr_from (v_data Fs_14C) ;;
                 D <- F_Delta_14C_arr C12 C14 ;;
                 add_variable ds data_vars var_name_ds
                   {| v_data := D; v_unit := v_unit Fs |})%res)
        (enumerate (pool_names ms)) data_vars.

Definition create_Delta_14C_dataset : M Dataset :=
  (let data_vars : dict DataArray := [] in
   (* save stocks *)
   data_vars <- foldM save_stock (enumerate (pool_names ms)) data_vars ;;
   (* save external input fluxes *)
   us <- lift (daily2 external_input_vector) ;;
   data_vars <- foldM (save_flux2 (fun pool_name => "NPP_to_" ++ pool_name) (fst us) (snd us))
                  (enumerate (pool_names ms)) data_vars ;;
   (* save internal fluxes *)
   Fs <- lift daily3 ;;
   data_vars <- foldM (save_internal (fst Fs) (snd Fs))
                  (enumerate (pool_names ms)) data_vars ;;
   (* save external output fluxes *)
   rs <- lift (daily2 external_output_vector) ;;
   data_vars <- foldM (save_flux2 (fun pool_name => pool_name ++ "_to_RH") (fst rs) (snd rs))
                  (enumerate (pool_names ms)) data_vars ;;
   lift (new_Dataset data_vars (coords_of ds) (ds_attrs ds)))%M.

End CreateDataset.

(* ===================================================================== *)
(** ** [plot_Delta_14C_in_time] *)
(* ===================================================================== *)

(** The function defines [alpha], [t_conv] and [F_Delta_14C] anew, with the
    value and the formulas of [create_Delta_14C_dataset].  What it draws is
    recorded as a list of panels; [plt.show()] and [plt.close(fig)] follow the
    loop and run only when the loop has ended normally. *)

(** What one axis of the figure shows once [ax.plot(x, y)] and
    [ax.set_title(title)] have run on it. *)
Record Panel : Type := {
  p_axis : nat;
  p_x : vector;
  p_y : vector;
  p_title : string
}.

(** [plt.subplots(nrows = 2, ncols = 3)]: the flattened array of axes has six
    entries. *)
Definition nr_axes : nat := 6.

(** [ax.plot(x, y)]: series of different lengths are refused. *)
Definition ax_plot (x y : vector) : result unit :=
  if Nat.eqb (length x) (length y) then Ok tt
  else Raise (ValueError "x and y must have same first dimension").

(** [t_conv(np.arange(n))] *)
Definition t_conv_steps (n : nat) : vector :=
  map (fun k => t_conv (fl (Z.of_nat k))) (seq 0 n).

(** One pass of the loop body: the panel drawn for pool [nr]. *)
Definition plot_pool (soln soln_14C : matrix) (times : vector) (p : nat * string)
  : result Panel :=
  let '(nr, pool_name) := p in
  if Nat.leb nr_axes nr then
    Raise (IndexError "index is out of bounds for axis 0 with size 6")
  else
    (C12 <- column nr soln ;;
     C14 <- column nr soln_14C ;;
     Delta_14C <- F_Delta_14C_arr C12 C14 ;;
     _ <- ax_plot times Delta_14C ;;
     Ok {| p_axis := nr; p_x := times; p_y := Delta_14C; p_title := pool_name |})%res.

(** The loop over the pools: the panels drawn so far, and how the loop ended. *)
Fixpoint plot_pools (soln soln_14C : matrix) (times : vector)
    (items : list (nat * string)) (drawn : list Panel) : list Panel * result unit :=
  match items with
  | [] => (drawn, Ok tt)
  | p :: items' =>
      match plot_pool soln soln_14C times p with
      | Ok panel => plot_pools soln soln_14C times items' (drawn ++ [panel])%list
      | Raise e => (drawn, Raise e)
      end
  end.

(** The panels drawn, and the way the call ends. *)
Definition plot_Delta_14C_in_time (ms : ModelStructure) (soln soln_14C : matrix)
  : list Panel * result unit :=
  let times := t_conv_steps (length soln) in
  plot_pools soln soln_14C times (enumerate (pool_names ms)) [].

(* ===================================================================== *)
(** ** [load_dmr_14C], [load_smr_14C] *)
(* ===================================================================== *)

(** [-lamda*365.25/12] *)
Definition decay_exponent : float := (- lamda * lit_365_25 / fl 12)%f64.

(** [1/1000] *)
Definition one_per_mille : float := (fl 1 / fl 1000)%f64.

Section TracerCompanion.

Variable env : Env.

(** The 14C external input of the discrete run, before the clean-up:
    [alpha * us_12C * (1 + 1/1000 * F_atm_delta_14C(times[:-1]).reshape(-1,1))]
    with the rows of [us_12C] broadcast against the column of factors. *)
Definition us_14C_raw (F_atm_delta_14C : float -> float) (dmr : DiscreteModelRun)
  : result matrix :=
  let us_12C := external_input_vector dmr in
  let factors :=
    map (fun t => (fl 1 + one_per_mille * F_atm_delta_14C t)%f64)
        (slice_to (-1) (times dmr)) in
  broadcastR (fun row c => Ok (map (fun x => (x * c)%f64) row))
             (scal_mat alpha us_12C) factors.

(** [np.nan_to_num(us_14C, posinf=0, copy=False)] *)
Definition clean (us : matrix) : matrix := map (map nan_to_num_posinf0) us.

(** V3: mean of the 14C [Bs]. *)
Definition B0_14C_discrete (dmr : DiscreteModelRun) : result matrix :=
  (Ms <- mapR (fun B_k =>
                 matmul B_k (scal_mat (np_exp env decay_exponent)
                                      (identity (nr_pools dmr))))
              (Bs dmr) ;;
   mean_axis0_mat (nr_pools dmr) Ms)%res.

Definition load_dmr_14C (dmr : DiscreteModelRun) : M DiscreteModelRun :=
  (_F_atm_delta_14C <- ext CallLoadAtmCurve (atm_curve env) ;;
   let F_atm_delta_14C := fun t => _F_atm_delta_14C (t_conv t) in
   us_14C <- lift (us_14C_raw F_atm_delta_14C dmr) ;;
   let us_14C := clean us_14C in
   B0_14C <- lift (B0_14C_discrete dmr) ;;
   A <- lift (mat_op F64.sub (identity (nr_pools dmr)) B0_14C) ;;
   b <- lift (mean_axis0 (nr_pools dmr) us_14C) ;;
   start_values_14C <- ext (CallLinalgSolve A b) (np_linalg_solve env A b) ;;
   ext (CallTo14COnly start_values_14C)
       (dmr_to_14C_only env dmr start_values_14C us_14C))%M.

(** [Fa_func = lambda t: alpha * (F_atm_delta_14C(t)/1000+1)] *)
Definition Fa_func (F_atm_delta_14C : float -> float) (t : float) : float :=
  (alpha * (F_atm_delta_14C t / fl 1000 + fl 1))%f64.

(** V3 for the smooth run: the mean over [times[:-1]] of
    [B_func(t) + (-lamda*365.25/12) * np.identity(nr_pools)]. *)
Definition B0_14C_continuous (smr : SmoothModelRun) : result matrix :=
  (Ms <- mapR (fun t =>
                 mat_op F64.add (B_func smr t)
                        (scal_mat decay_exponent (identity (nr_pools smr))))
              (slice_to (-1) (times smr)) ;;
   mean_axis0_mat (nr_pools smr) Ms)%res.

Definition u0_14C_continuous (Fa : float -> float) (smr : SmoothModelRun)
  : result vector :=
  mean_axis0 (nr_pools smr)
    (map (fun t => map (fun x => (x * Fa t)%f64) (external_input_vector_func smr t))
         (slice_to (-1) (times smr))).

Definition load_smr_14C (smr : SmoothModelRun) : M SmoothModelRun :=
  (_F_atm_delta_14C <- ext CallLoadAtmCurve (atm_curve env) ;;
   let F_atm_delta_14C := fun t => _F_atm_delta_14C (t_conv t) in
   let Fa := Fa_func F_atm_delta_14C in
   B0_14C <- lift (B0_14C_continuous smr) ;;
   u0_14C <- lift (u0_14C_continuous Fa smr) ;;
   start_values_14C <- ext (CallLinalgSolve (neg_mat B0_14C) u0_14C)
                           (np_linalg_solve env (neg_mat B0_14C) u0_14C) ;;
   ext (CallTo14COnly start_values_14C)
       (smr_to_14C_only env smr start_values_14C Fa))%M.

End TracerCompanion.

(* ===================================================================== *)
(** ** [load_Delta_14C_dataset] *)
(* ===================================================================== *)

Section LoadDataset.

Variable env : Env.

(** The two arrays of the fake, empty return structure. *)
Definition empty_var : XVariable :=
  {| x_dims := ["ens"; "lat"; "lon"]; x_data := FloatArray [0; 0; 0]%nat []; x_attrs := [] |}.
Definition empty_log : XVariable :=
  {| x_dims := ["ens"; "lat"; "lon"]; x_data := StrArray [0; 0; 0]%nat []; x_attrs := [] |}.

(** A zero-dimensional variable from a Python scalar. *)
Definition scalar_var (d : ndarray) (a : attrs) : XVariable :=
  {| x_dims := []; x_data := d; x_attrs := a |}.

(** The reconstruction error as a data array: [np.max(err.data)] with its
    unit and long name. *)
Definition err_var (err : BgcVariable matrix) (long_name : string) : result XVariable :=
  (m <- np_max (concat (v_data err)) ;;
   Ok (scalar_var (scalar_float m)
         [("units", v_unit err); ("long_name", long_name)]))%res.

(** The body of the [try] block. *)
Definition try_body (ds : Dataset) (method : string) : M Dataset :=
  (mdo <- lift (load_mdo ds) ;;
   runs <-
     (if String.eqb method "discrete" then
        r <- ext CallCreateDiscreteModelRun (create_discrete_model_run env mdo) ;;
        let '(mr, abs_err, rel_err) := r in
        mr_14C <- load_dmr_14C env mr ;;
        soln <- ext CallSolve12C (solve mr) ;;
        soln_14C <- ext CallSolve14C (solve mr_14C) ;;
        ret (dmr_run mr, dmr_run mr_14C, abs_err, rel_err)
      else
        r <- ext CallCreateModelRun (create_model_run env mdo) ;;
        let '(mr, abs_err, rel_err) := r in
        mr_14C <- load_smr_14C env mr ;;
        soln <- ext CallSolve12C (solve mr) ;;
        soln_14C <- ext CallSolve14C (solve mr_14C) ;;
        ret (smr_run mr, smr_run mr_14C, abs_err, rel_err)) ;;
   let '(mr, mr_14C, abs_err, rel_err) := runs in
   ds_Delta_14C <- create_Delta_14C_dataset mdo ds mr mr_14C ;;
   (* add reconstruction error *)
   var_abs_err <- lift (err_var abs_err "max. abs. error on reconstructed stock sizes") ;;
   ds_Delta_14C <- lift (setitem ds_Delta_14C "max_abs_err" var_abs_err) ;;
   var_rel_err <- lift (err_var rel_err "max. rel. error on reconstructed stock sizes") ;;
   lift (setitem ds_Delta_14C "max_rel_err" var_rel_err))%M.

(** The loop of the handler: [np.nan * val] for every data variable but
    [time]. *)
Fixpoint nan_data_vars (ds : Dataset) (items : dict XVariable)
    (data_vars : dict DataArray) : result (dict DataArray) :=
  match items with
  | [] => Ok data_vars
  | (key, _) :: items' =>
      if negb (String.eqb key "time") then
        (val <- getitem ds key ;;
         nv <- nan_times val ;;
         nan_data_vars ds items' (assign key nv data_vars))%res
      else nan_data_vars ds items' data_vars
  end.

(** The body of [except DMRError as e]. *)
Definition handler (ds : Dataset) : result Dataset :=
  (data_vars <- nan_data_vars ds (data_vars_of ds) [] ;;
   ds_Delta_14C <- copy_with_data ds data_vars ;;
   ds_Delta_14C <- setitem ds_Delta_14C "max_abs_err" (scalar_var (scalar_float F64.nan) []) ;;
   setitem ds_Delta_14C "max_rel_err" (scalar_var (scalar_float F64.nan) []))%res.

Definition load_Delta_14C_dataset (method : string) : M returned :=
  (ds <- get_input ;;
   if negb (mem method ["discrete"; "continuous"]) then
     raise (ValueError "method must be either 'discrete' or 'continuous'")
   else
     ens <- lift (getattr ds "ens") ;;
     (* fake return data structure on first call (with empty data) *)
     if list_eq_dec Nat.eq_dec (shape (data ens)) [0%nat] then
       setitem_input "max_abs_err" empty_var ;;;
       setitem_input "max_rel_err" empty_var ;;;
       setitem_input "log" empty_log ;;;
       ret InputObject
     else
       let log := "" in
       r <- try_except_DMRError
              (ds_Delta_14C <- try_body ds method ;; ret (ds_Delta_14C, log))
              (fun e =>
                 let log := str e in
                 ds_Delta_14C <- lift (handler ds) ;; ret (ds_Delta_14C, log)) ;;
       let '(ds_Delta_14C, log) := r in
       ds_Delta_14C <- lift (setitem ds_Delta_14C "log" (scalar_var (scalar_str log) [])) ;;
       ret (NewObject ds_Delta_14C))%M.

End LoadDataset.

(** Running a call on a caller's dataset, from an empty trace. *)
Definition run {A} (c : M A) (ds : Dataset) : World * result A :=
  c {| input := ds; trace := [] |}.

(* ===================================================================== *)
(** ** Vocabulary of the statements *)
(* ===================================================================== *)

(** The entry [M[t, p]] and the entry [T[t, i, j]], when in range. *)
Definition entry2 (M : matrix) (t p : nat) : option float :=
  match nth_error M t with
  | Some row => nth_error row p
  | None => None
  end.

Definition entry3 (T : list matrix) (t i j : nat) : option float :=
  match nth_error T t with
  | Some M => entry2 M i j
  | None => None
  end.


(** The names under which [create_Delta_14C_dataset] offers a variable:
    pool stocks, external inputs, internal transfers, external outputs. *)
Definition candidate_names (pools : list string) : list string :=
  (pools
   ++ map (fun p => ("NPP_to_" ++ p)%string) pools
   ++ flat_map (fun pf => map (fun pt => (pf ++ "_to_" ++ pt)%string) pools) pools
   ++ map (fun p => (p ++ "_to_RH")%string) pools)%list.


(** The zero-dimensional NaN assigned to both error metrics on failure. *)
Definition nan_scalar : XVariable :=
  {| x_dims := []; x_data := FloatArray [] [F64.nan]; x_attrs := [] |}.

(** A computation that leaves the caller's dataset as it found it, however
    it ends. *)
Definition preserves_input {A} (c : M A) : Prop :=
  forall w w' r, c w = (w', r) -> input w' = input w.



(* ===================================================================== *)
(** ** Sample inputs *)
(* ===================================================================== *)

(** Collaborators that are not available: each call raises [OSError]. *)
Definition env_offline : Env :=
  {| create_discrete_model_run := fun _ => Raise (OSError "not available");
     create_model_run := fun _ => Raise (OSError "not available");
     atm_curve := Raise (OSError "C14Atm_NH.csv not found.");
     np_exp := fun x => x;
     np_linalg_solve := fun _ _ => Raise (OSError "not available");
     dmr_to_14C_only := fun _ _ _ => Raise (OSError "not available");
     smr_to_14C_only := fun _ _ _ => Raise (OSError "not available") |}.

Definition xvar (dms : list string) (shp : list nat) (elems : list float) : XVariable :=
  {| x_dims := dms; x_data := FloatArray shp elems; x_attrs := [] |}.

(** A dataset with no ensemble member, no grid cell and no time step, as a
    template call passes it. *)
Definition ds_template : Dataset :=
  {| variables :=
       [("ens", xvar ["ens"] [0%nat] []);
        ("lat", xvar ["lat"] [0%nat] []);
        ("lon", xvar ["lon"] [0%nat] []);
        ("time", xvar ["time"] [0%nat] []);
        ("Leaf", xvar ["ens"; "lat"; "lon"; "time"] [0; 0; 0; 0]%nat [])];
     coord_names := ["ens"; "lat"; "lon"; "time"];
     ds_attrs := [] |}.


(** A site: one ensemble member and grid cell selected, three monthly time
    steps, some of the model's stock and flux variables and one variable the
    model does not know. *)
Definition series (x : Z) : XVariable :=
  {| x_dims := ["time"];
     x_data := FloatArray [3%nat] [fl x; fl x; fl x];
     x_attrs := [("units", "gC/m2")] |}.

Definition ds_site : Dataset :=
  {| variables :=
       [("ens", xvar [] [] [fl 1]);
        ("lat", xvar [] [] [fl 50]);
        ("lon", xvar [] [] [fl 11]);
        ("time", xvar ["time"] [3%nat] [fl 0; fl 31; fl 59]);
        ("Leaf", series 10);
        ("Soil", series 500);
        ("NPP_to_Leaf", series 2);
        ("Leaf_to_Litter", series 1);
        ("Soil_to_RH", series 3);
        ("GPP", series 7)];
     coord_names := ["ens"; "lat"; "lon"; "time"];
     ds_attrs := [("title", "CARDAMOM")] |}.

Definition const_row (n : nat) (x : float) : vector := repeat x n.
Definition const_mat (r c : nat) (x : float) : matrix := repeat (const_row c x) r.
Definition diag_mat (n : nat) (x : float) : matrix := scal_mat x (identity n).

(** A six-pool run over three time points with constant fluxes and stocks. *)
Definition run_const (k : run_kind) (u F r x : float) : ModelRun :=
  {| kind := k;
     times := arange_times 3;
     nr_pools := 6;
     external_input_vector := const_mat 2 6 u;
     internal_flux_matrix := repeat (const_mat 6 6 F) 2;
     external_output_vector := const_mat 2 6 r;
     solve := Ok (const_mat 3 6 x) |}.

Definition dmr_sample : DiscreteModelRun :=
  {| dmr_run := run_const Discrete (fl 2) (fl 1) (fl 3) (fl 10);
     Bs := repeat (diag_mat 6 (F64.dec 5 1)) 2 |}.

Definition smr_sample : SmoothModelRun :=
  {| smr_run := run_const Smooth (fl 2) (fl 1) (fl 3) (fl 10);
     B_func := fun _ => diag_mat 6 (- fl 1)%f64;
     external_input_vector_func := fun _ => const_row 6 (fl 2) |}.


Definition err_sample (unit : string) : BgcVariable matrix :=
  {| v_data := const_mat 3 6 (fl 0); v_unit := unit |}.

(** [exp(-lamda*365.25/12) = 0.9963248035833886], and a stand-in for
    [np.exp] that knows this one argument. *)
Definition exp_decay : float := S754_finite false 8974096028316263 (-53).
Definition exp_sample (x : float) : float :=
  if F64.eqb x decay_exponent then exp_decay else F64.nan.

(** A stand-in for [np.linalg.solve] on diagonal systems: a zero on the
    diagonal is a singular matrix. *)
Definition diagonal (A : matrix) : vector :=
  map (fun p => nth (fst p) (snd p) F64.nan) (enumerate A).
Definition solve_diagonal (A : matrix) (b : vector) : result vector :=
  if existsb (fun a => F64.eqb a (fl 0)) (diagonal A)
  then Raise (LinAlgError "Singular matrix")
  else zipWithR (fun a x => Ok (x / a)%f64) (diagonal A) b.

(** Stand-ins for the tracer-only companions: the given start values, held
    constant, and the given input. *)
Definition run_14C (r : ModelRun) (x0 : vector) (us : matrix) : ModelRun :=
  {| kind := kind r;
     times := times r;
     nr_pools := nr_pools r;
     external_input_vector := us;
     internal_flux_matrix := map (scal_mat alpha) (internal_flux_matrix r);
     external_output_vector := scal_mat alpha (external_output_vector r);
     solve := Ok (repeat x0 (length (times r))) |}.

Definition env_sample (smr : SmoothModelRun) : Env :=
  {| create_discrete_model_run := fun _ =>
       Ok (dmr_sample, err_sample "gC/m2", err_sample "%");
     create_model_run := fun _ =>
       Ok (smr, err_sample "gC/m2", err_sample "%");
     atm_curve := Ok (fun _ => fl 40);
     np_exp := exp_sample;
     np_linalg_solve := solve_diagonal;
     dmr_to_14C_only := fun dmr x0 us =>
       Ok {| dmr_run := run_14C dmr x0 us;
             Bs := map (scal_mat exp_decay) (Bs dmr) |};
     smr_to_14C_only := fun smr x0 Fa =>
       Ok {| smr_run := run_14C smr x0
                          (map (fun t => map (fun x => (x * Fa t)%f64)
                                            (external_input_vector_func smr t))
                               (slice_to (-1) (times smr)));
             B_func := B_func smr;
             external_input_vector_func := fun t =>
               map (fun x => (x * Fa t)%f64) (external_input_vector_func smr t) |} |}.

(** The reconstruction fails: a [DMRError] from the discrete model run. *)
Definition env_dmr_error : Env :=
  {| create_discrete_model_run := fun _ =>
       Raise (DMRError "Diagonal value of B greater than 1, pool content increases");
     create_model_run := fun _ => Raise (OSError "not available");
     atm_curve := Ok (fun _ => fl 40);
     np_exp := exp_sample;
     np_linalg_solve := solve_diagonal;
     dmr_to_14C_only := fun _ _ _ => Raise (OSError "not available");
     smr_to_14C_only := fun _ _ _ => Raise (OSError "not available") |}.

(** The sample discrete run with an input that is infinite or missing in
    three pools at the first step. *)
Definition dmr_inf : DiscreteModelRun :=
  {| dmr_run :=
       {| kind := Discrete;
          times := arange_times 3;
          nr_pools := 6;
          external_input_vector :=
            [[F64.ninf; F64.nan; F64.pinf; fl 2; fl 2; fl 2]; const_row 6 (fl 2)];
          internal_flux_matrix := repeat (const_mat 6 6 (fl 1)) 2;
          external_output_vector := const_mat 2 6 (fl 3);
          solve := Ok (const_mat 3 6 (fl 10)) |};
     Bs := repeat (diag_mat 6 (F64.dec 5 1)) 2 |}.

Definition world0 : World := {| input := ds_site; trace := [] |}.


(* ===================================================================== *)
(** ** More vocabulary *)
(* ===================================================================== *)

(** The flux names among the names [create_Delta_14C_dataset] offers. *)
Definition flux_names (pools : list string) : list string :=
  (map (fun p => ("NPP_to_" ++ p)%string) pools
   ++ flat_map (fun pf => map (fun pt => (pf ++ "_to_" ++ pt)%string) pools) pools
   ++ map (fun p => (p ++ "_to_RH")%string) pools)%list.

(** A computation whose calls to collaborators all satisfy [P], however it
    ends. *)
Definition emits (P : call -> Prop) {A} (c : M A) : Prop :=
  forall w w' r, c w = (w', r) ->
                 exists new, trace w' = (trace w ++ new)%list /\ Forall P new.

(** A flux variable of the result: a series with the unit [g/d] and a missing
    value at the first time step. *)
Definition flux_like (v : XVariable) : Prop :=
  lookup "units" (x_attrs v) = Some "g/d" /\
  exists rest, x_data v = array1 (F64.nan :: rest).

(** A stock variable of the result under the name of a pool: the diagnostic
    of that pool's column in the two solutions, on the dimensions of the
    dataset's variable, with the stock unit of the model data object. *)
Definition stock_like (mdo : ModelDataObject) (ds : Dataset) (mr mr_14C : ModelRun)
    (name : string) (v' : XVariable) : Prop :=
  exists nr soln soln_14C C12 C14 D v,
    nth_error (pool_names (model_structure mdo)) nr = Some name /\
    solve mr = Ok soln /\ solve mr_14C = Ok soln_14C /\
    column nr soln = Ok C12 /\ column nr soln_14C = Ok C14 /\
    F_Delta_14C_arr C12 C14 = Ok D /\
    lookup name (variables ds) = Some v /\
    x_data v' = array1 D /\ x_dims v' = x_dims v /\
    lookup "units" (x_attrs v') = Some (stock_unit mdo).

(** The variables the model structure names: stocks and fluxes. *)
Definition structure_variables (ms : ModelStructure) : list string :=
  (map snd (pool_structure ms)
   ++ flat_map snd (external_input_structure ms)
   ++ flat_map snd (horizontal_structure ms)
   ++ flat_map snd (vertical_structure ms)
   ++ flat_map snd (external_output_structure ms))%list.

(* ===================================================================== *)
(** ** More sample inputs *)
(* ===================================================================== *)


(** A site that carries a string variable among its data variables. *)
Definition ds_with_string : Dataset :=
  {| variables :=
       [("ens", xvar [] [] [fl 1]);
        ("lat", xvar [] [] [fl 50]);
        ("lon", xvar [] [] [fl 11]);
        ("time", xvar ["time"] [3%nat] [fl 0; fl 31; fl 59]);
        ("Leaf", series 10);
        ("log", scalar_var (scalar_str "") [])];
     coord_names := ["ens"; "lat"; "lon"; "time"];
     ds_attrs := [] |}.

(** A model structure with seven pools and no fluxes. *)
Definition ms_seven_pools : ModelStructure :=
  {| pool_structure :=
       [("Labile", "Labile"); ("Leaf", "Leaf"); ("Root", "Root"); ("Wood", "Wood");
        ("Litter", "Litter"); ("Soil", "Soil"); ("Deep", "Deep")];
     external_input_structure := [];
     horizontal_structure := [];
     vertical_structure := [];
     external_output_structure := [] |}.

(** The reconstruction succeeds but the tracer companion of the discrete run
    fails, with the message the reconstruction fails with in
    [env_dmr_error]. *)
Definition env_dmr_error_late : Env :=
  {| create_discrete_model_run := fun _ =>
       Ok (dmr_sample, err_sample "gC/m2", err_sample "%");
     create_model_run := fun _ => Raise (OSError "not available");
     atm_curve := Ok (fun _ => fl 40);
     np_exp := exp_sample;
     np_linalg_solve := solve_diagonal;
     dmr_to_14C_only := fun _ _ _ =>
       Raise (DMRError "Diagonal value of B greater than 1, pool content increases");
     smr_to_14C_only := fun _ _ _ => Raise (OSError "not available") |}.

(* ===================================================================== *)
(** * Properties *)
(* ===================================================================== *)

Unset Implicit Arguments.

(** ** The definitions on small inputs *)

Example days_per_month_value : days_per_month = F64.dec 304375 4.
Proof. vm_compute. reflexivity. Qed.

Example slice_to_examples :
  slice_to (-1) [1; 2; 3] = [1; 2] /\
  slice_to (len_minus_1 [1; 2; 3]) [7; 8; 9; 10] = [7; 8] /\
  slice_to (-1) (@nil Z) = [].
Proof. repeat split. Qed.

Example nan_to_num_examples :
  map nan_to_num_posinf0 [F64.nan; F64.pinf; F64.ninf; fl 3]
  = [fl 0; fl 0; F64.min_float; fl 3].
Proof. vm_compute. reflexivity. Qed.

Example mean_axis0_example :
  mean_axis0 2 [[fl 1; fl 2]; [fl 3; fl 4]] = Ok [fl 2; fl 3] /\
  mean_axis0 2 [] = Ok [F64.nan; F64.nan].
Proof. split; vm_compute; reflexivity. Qed.

Example matmul_scaled_identity :
  matmul [[fl 1; fl 2]; [fl 3; fl 4]] (scal_mat (fl 2) (identity 2))
  = Ok [[fl 2; fl 4]; [fl 6; fl 8]].
Proof. vm_compute. reflexivity. Qed.

Example broadcast_examples :
  vec_op F64.add [fl 1; fl 2] [fl 10] = Ok [fl 11; fl 12] /\
  vec_op F64.add [fl 1; fl 2] [fl 10; fl 20; fl 30]
  = Raise (ValueError "operands could not be broadcast together").
Proof. split; vm_compute; reflexivity. Qed.

Example np_max_examples :
  np_max [fl 1; fl 5; fl 3] = Ok (fl 5) /\
  np_max [fl 1; F64.nan; fl 3] = Ok F64.nan.
Proof. split; vm_compute; reflexivity. Qed.

Example F_Delta_14C_examples :
  F_Delta_14C (fl 2) (alpha * fl 2)%f64 = fl 0 /\
  F_Delta_14C (fl 2) (fl 0) = (- fl 1000)%f64 /\
  F_Delta_14C F64.nan (fl 1) = F64.nan.
Proof. repeat split; vm_compute; reflexivity. Qed.

(** ** Generic facts about the combinators *)

Lemma zipWithR_pure_nth {A B C} (f : A -> B -> C) :
  forall (xs : list A) (ys : list B) (zs : list C) (i : nat) (x : A) (y : B),
    zipWithR (fun a b => Ok (f a b)) xs ys = Ok zs ->
    nth_error xs i = Some x ->
    nth_error ys i = Some y ->
    nth_error zs i = Some (f x y).
Proof.
  induction xs as [|a xs IH]; intros ys zs i x y Hz Hx Hy.
  - destruct i; discriminate.
  - destruct ys as [|b ys]; [discriminate|].
    simpl in Hz.
    destruct (zipWithR (fun a0 b0 => Ok (f a0 b0)) xs ys) as [cs|e] eqn:E;
      simpl in Hz; [|discriminate].
    injection Hz as <-.
    destruct i as [|i]; simpl in *.
    + injection Hx as <-. injection Hy as <-. reflexivity.
    + eapply IH; eauto.
Qed.

Lemma broadcastR_same_length {A B C} (f : A -> B -> result C) xs ys :
  length xs = length ys -> broadcastR f xs ys = zipWithR f xs ys.
Proof.
  intros H. unfold broadcastR. rewrite H, Nat.eqb_refl. reflexivity.
Qed.

(** ** The Delta14C diagnostic *)

Lemma F_Delta_14C_nan_C12 (C12 C14 : float) :
  F64.is_nan C12 = true -> F_Delta_14C C12 C14 = F64.nan.
Proof.
  destruct C12; try discriminate. intros _.
  destruct C14; reflexivity.
Qed.

Lemma F_Delta_14C_zero_zero (C12 C14 : float) :
  F64.is_zero C12 = true ->
  F64.is_zero C14 = true \/ F64.is_nan C14 = true ->
  F_Delta_14C C12 C14 = F64.nan.
Proof.
  destruct C12; try discriminate. intros _ [H|H];
    destruct C14; try discriminate; reflexivity.
Qed.

Lemma F_Delta_14C_zero_nonzero (C12 C14 : float) :
  F64.is_zero C12 = true ->
  F64.is_zero C14 = false -> F64.is_nan C14 = false ->
  F64.is_inf (F_Delta_14C C12 C14) = true.
Proof.
  destruct C12 as [s| | |]; try discriminate. intros _.
  destruct C14 as [s'|s'| |s' m e]; try discriminate; intros _ _;
    destruct s, s'; reflexivity.
Qed.

Lemma zipWithR_pure_total {A B C} (f : A -> B -> C) :
  forall (xs : list A) (ys : list B),
    length xs = length ys ->
    zipWithR (fun a b => Ok (f a b)) xs ys
    = Ok (map (fun p => f (fst p) (snd p)) (combine xs ys)).
Proof.
  induction xs as [|a xs IH]; intros [|b ys] H; try discriminate; simpl.
  - reflexivity.
  - rewrite IH by (simpl in H; congruence). reflexivity.
Qed.

Lemma F_Delta_14C_arr_total (C12 C14 : vector) :
  length C12 = length C14 ->
  exists D, F_Delta_14C_arr C12 C14 = Ok D /\ length D = length C12.
Proof.
  intros H. unfold F_Delta_14C_arr, vec_op.
  rewrite broadcastR_same_length by exact H.
  rewrite zipWithR_pure_total by exact H.
  eexists. split; [reflexivity|].
  rewrite length_map, length_combine, <- H. apply Nat.min_id.
Qed.

Lemma F_Delta_14C_arr_nth (C12 C14 D : vector) (i : nat) (c12 c14 : float) :
  length C12 = length C14 ->
  F_Delta_14C_arr C12 C14 = Ok D ->
  nth_error C12 i = Some c12 ->
  nth_error C14 i = Some c14 ->
  nth_error D i = Some (F_Delta_14C c12 c14).
Proof.
  intros H HD H12 H14. unfold F_Delta_14C_arr, vec_op in HD.
  rewrite broadcastR_same_length in HD by exact H.
  eapply zipWithR_pure_nth; eauto.
Qed.

(** C7, as the code has it.  On two series of one length the diagnostic
    returns a series of that length whose every entry is
    [(C14/C12/alpha - 1) * 1000]; that entry is NaN where C12 is missing, and
    where C12 is zero while C14 is zero or missing; where C12 is zero and C14
    is neither zero nor missing the entry is an infinity, not NaN. *)
Theorem C7_Delta_14C_entries (C12 C14 : vector) :
  length C12 = length C14 ->
  exists D,
    F_Delta_14C_arr C12 C14 = Ok D /\
    length D = length C12 /\
    forall i c12 c14,
      nth_error C12 i = Some c12 ->
      nth_error C14 i = Some c14 ->
      exists d,
        nth_error D i = Some d /\
        d = ((c14 / c12 / alpha - fl 1) * fl 1000)%f64 /\
        (F64.is_nan c12 = true -> F64.is_nan d = true) /\
        (F64.is_zero c12 = true ->
         F64.is_zero c14 = true \/ F64.is_nan c14 = true ->
         F64.is_nan d = true) /\
        (F64.is_zero c12 = true ->
         F64.is_zero c14 = false -> F64.is_nan c14 = false ->
         F64.is_inf d = true /\ F64.is_nan d = false).
Proof.
  intros H.
  destruct (F_Delta_14C_arr_total C12 C14 H) as [D [HD HL]].
  exists D. split; [exact HD|]. split; [exact HL|].
  intros i c12 c14 H12 H14.
  exists (F_Delta_14C c12 c14).
  split; [exact (@F_Delta_14C_arr_nth C12 C14 D i c12 c14 H HD H12 H14)|].
  split; [reflexivity|].
  split; [|split].
  - intros Hn. rewrite F_Delta_14C_nan_C12 by exact Hn. reflexivity.
  - intros Hz Hc. rewrite F_Delta_14C_zero_zero by assumption. reflexivity.
  - intros Hz Hc Hn.
    pose proof (F_Delta_14C_zero_nonzero c12 c14 Hz Hc Hn) as Hi.
    split; [exact Hi|].
    destruct (F_Delta_14C c12 c14); try discriminate; reflexivity.
Qed.

(** A stock of zero 12C with one unit of 14C: the entry is [+inf]. *)
Lemma C7_Delta_14C_entries_witness :
  exists D,
    F_Delta_14C_arr [fl 0; fl 2] [fl 1; alpha] = Ok D /\
    length D = 2%nat /\
    forall i c12 c14,
      nth_error [fl 0; fl 2] i = Some c12 ->
      nth_error [fl 1; alpha] i = Some c14 ->
      exists d,
        nth_error D i = Some d /\
        d = ((c14 / c12 / alpha - fl 1) * fl 1000)%f64 /\
        (F64.is_nan c12 = true -> F64.is_nan d = true) /\
        (F64.is_zero c12 = true ->
         F64.is_zero c14 = true \/ F64.is_nan c14 = true ->
         F64.is_nan d = true) /\
        (F64.is_zero c12 = true ->
         F64.is_zero c14 = false -> F64.is_nan c14 = false ->
         F64.is_inf d = true /\ F64.is_nan d = false).
Proof.
  apply (C7_Delta_14C_entries [fl 0; fl 2] [fl 1; alpha]). reflexivity.
Defined.

(** C7 as stated fails: C12 is zero at the entry, yet the diagnostic is
    [+inf] there and not NaN. *)
Lemma C7_counterexample :
  F64.is_zero (fl 0) = true /\
  F_Delta_14C_arr [fl 0] [fl 1] = Ok [F64.pinf] /\
  F64.is_nan F64.pinf = false.
Proof. split; [|split]; vm_compute; reflexivity. Qed.

(** The binary64 value of the literal [1.18e-12]. *)
Lemma alpha_value : alpha = S754_finite false 5843076985426995 (-92).
Proof. vm_compute. reflexivity. Qed.




(** ** Dictionaries *)

Lemma lookup_assign_same {V} (k : string) (v : V) (d : dict V) :
  lookup k (assign k v d) = Some v.
Proof.
  induction d as [|[k' v'] d IH]; simpl.
  - rewrite String.eqb_refl. reflexivity.
  - destruct (String.eqb k k') eqn:E; simpl.
    + rewrite String.eqb_refl. reflexivity.
    + rewrite E. exact IH.
Qed.

Lemma lookup_assign_other {V} (k k' : string) (v : V) (d : dict V) :
  k <> k' -> lookup k (assign k' v d) = lookup k d.
Proof.
  intros Hne. induction d as [|[k0 v0] d IH]; simpl.
  - apply String.eqb_neq in Hne. rewrite Hne. reflexivity.
  - destruct (String.eqb k' k0) eqn:E; simpl.
    + apply String.eqb_eq in E. subst k0.
      apply String.eqb_neq in Hne. rewrite Hne. reflexivity.
    + destruct (String.eqb k k0); [reflexivity | exact IH].
Qed.

Lemma mem_In (k : string) (ks : list string) : mem k ks = true <-> In k ks.
Proof.
  unfold mem. rewrite existsb_exists. split.
  - intros [x [Hx E]]. apply String.eqb_eq in E. subst. exact Hx.
  - intros H. exists k. split; [exact H | apply String.eqb_refl].
Qed.

Lemma mem_false_In (k : string) (ks : list string) : mem k ks = false <-> ~ In k ks.
Proof.
  rewrite <- mem_In. destruct (mem k ks); split; intros H; congruence.
Qed.

Lemma keys_assign {V} (k : string) (v : V) (d : dict V) (x : string) :
  In x (keys (assign k v d)) <-> x = k \/ In x (keys d).
Proof.
  induction d as [|[k' v'] d IH]; simpl.
  - intuition congruence.
  - destruct (String.eqb k k') eqn:E; simpl.
    + apply String.eqb_eq in E. subst k'. intuition congruence.
    + rewrite IH. intuition congruence.
Qed.

Lemma lookup_In_keys {V} (k : string) (d : dict V) :
  In k (keys d) <-> exists v, lookup k d = Some v.
Proof.
  induction d as [|[k' v'] d IH]; simpl.
  - split; [tauto | intros [v H]; discriminate].
  - destruct (String.eqb k k') eqn:E.
    + apply String.eqb_eq in E. subst. split; eauto.
    + apply String.eqb_neq in E. rewrite IH. split.
      * intros [H|H]; [congruence | exact H].
      * auto.
Qed.

(** ** Dimension tables *)

Lemma agree_spec (s1 s2 : list (string * nat)) :
  agree s1 s2 = true <->
  forall d n m, In (d, n) s1 -> In (d, m) s2 -> n = m.
Proof.
  unfold agree. rewrite forallb_forall. split.
  - intros H d n m H1 H2. specialize (H _ H1).
    rewrite forallb_forall in H. specialize (H _ H2). simpl in H.
    rewrite String.eqb_refl in H. simpl in H. apply Nat.eqb_eq in H. exact H.
  - intros H [d n] H1. rewrite forallb_forall. intros [d' m] H2. simpl.
    destruct (String.eqb d d') eqn:E; [|reflexivity]. simpl.
    apply String.eqb_eq in E. subst d'. apply Nat.eqb_eq. eauto.
Qed.


(** ** Invalid mode *)

(** C4.  A mode other than ['discrete'] and ['continuous'] raises
    [ValueError] to the caller; no collaborator has been called and the
    dataset is as it was, whatever the collaborators would have done. *)
Theorem C4_invalid_method_raises (env : Env) (ds : Dataset) (method : string) :
  method <> "discrete" -> method <> "continuous" ->
  run (load_Delta_14C_dataset env method) ds
  = ({| input := ds; trace := [] |},
     Raise (ValueError "method must be either 'discrete' or 'continuous'")).
Proof.
  intros Hd Hc. unfold run, load_Delta_14C_dataset, bind, get_input. simpl.
  apply String.eqb_neq in Hd, Hc. rewrite Hd, Hc. reflexivity.
Qed.

Lemma C4_invalid_method_raises_witness :
  run (load_Delta_14C_dataset env_offline "monthly") ds_template
  = ({| input := ds_template; trace := [] |},
     Raise (ValueError "method must be either 'discrete' or 'continuous'")).
Proof.
  apply (C4_invalid_method_raises env_offline ds_template "monthly");
    discriminate.
Defined.

(** ** The empty batch *)






(** C2 at the empty batch: the caller's dataset itself is returned, and it
    has gained three variables. *)
Theorem C2_empty_batch_mutates_input :
  exists ds',
    run (load_Delta_14C_dataset env_offline "discrete") ds_template
    = ({| input := ds'; trace := [] |}, Ok InputObject) /\
    keys (variables ds_template) = ["ens"; "lat"; "lon"; "time"; "Leaf"] /\
    keys (variables ds')
    = ["ens"; "lat"; "lon"; "time"; "Leaf"; "max_abs_err"; "max_rel_err"; "log"] /\
    ds' <> ds_template.
Proof.
  eexists. split; [vm_compute; reflexivity|].
  split; [reflexivity|]. split; [reflexivity|].
  intros H. apply (f_equal (fun d => length (variables d))) in H.
  vm_compute in H. discriminate.
Qed.

(** ** Monthly fluxes as daily rates *)

Lemma entry2_over2 (f : float -> float) (M : matrix) (t p : nat) (m : float) :
  entry2 M t p = Some m -> entry2 (over2 f M) t p = Some (f m).
Proof.
  unfold entry2, over2. intros H.
  destruct (nth_error M t) as [row|] eqn:E; [|discriminate].
  erewrite map_nth_error by exact E.
  apply map_nth_error. exact H.
Qed.

Lemma entry3_over3 (f : float -> float) (T : list matrix) (t i j : nat) (m : float) :
  entry3 T t i j = Some m -> entry3 (over3 f T) t i j = Some (f m).
Proof.
  unfold entry3, over3. intros H.
  destruct (nth_error T t) as [M|] eqn:E; [|discriminate].
  erewrite map_nth_error by exact E.
  apply entry2_over2. exact H.
Qed.

(** C9.  For a vector-valued flux (external input, external output) and for
    the internal flux matrix, and for runs of either kind: once the monthly
    series of the 12C and the 14C run are built, the daily series are
    obtained, carry the unit [g/d], and every entry is the monthly entry
    divided by the step length [365.25/12]. *)
Theorem C9_monthly_fluxes_to_daily_rates (mdo : ModelDataObject)
    (mr mr_14C : ModelRun) (flux : ModelRun -> matrix)
    (xs_monthly xs_monthly_14C : BgcVariable matrix)
    (Fs_monthly Fs_monthly_14C : BgcVariable (list matrix)) :
  monthly2 mdo mr flux mr = Ok xs_monthly ->
  monthly2 mdo mr flux mr_14C = Ok xs_monthly_14C ->
  monthly3 mdo mr mr = Ok Fs_monthly ->
  monthly3 mdo mr mr_14C = Ok Fs_monthly_14C ->
  exists xs xs_14C Fs Fs_14C,
    daily2 mdo mr mr_14C flux = Ok (xs, xs_14C) /\
    daily3 mdo mr mr_14C = Ok (Fs, Fs_14C) /\
    v_unit xs = "g/d" /\ v_unit xs_14C = "g/d" /\
    v_unit Fs = "g/d" /\ v_unit Fs_14C = "g/d" /\
    (forall t p m,
        entry2 (v_data xs_monthly) t p = Some m ->
        entry2 (v_data xs) t p = Some (m / days_per_month)%f64) /\
    (forall t p m,
        entry2 (v_data xs_monthly_14C) t p = Some m ->
        entry2 (v_data xs_14C) t p = Some (m / days_per_month)%f64) /\
    (forall t i j m,
        entry3 (v_data Fs_monthly) t i j = Some m ->
        entry3 (v_data Fs) t i j = Some (m / days_per_month)%f64) /\
    (forall t i j m,
        entry3 (v_data Fs_monthly_14C) t i j = Some m ->
        entry3 (v_data Fs_14C) t i j = Some (m / days_per_month)%f64).
Proof.
  intros H1 H2 H3 H4.
  assert (U1 : v_unit xs_monthly = unit_monthly).
  { unfold monthly2 in H1. destruct (nan_first _ _); simpl in H1; [|discriminate].
    injection H1 as <-. reflexivity. }
  assert (U2 : v_unit xs_monthly_14C = unit_monthly).
  { unfold monthly2 in H2. destruct (nan_first _ _); simpl in H2; [|discriminate].
    injection H2 as <-. reflexivity. }
  assert (U3 : v_unit Fs_monthly = unit_monthly).
  { unfold monthly3 in H3. destruct (nan_first3 _ _); simpl in H3; [|discriminate].
    injection H3 as <-. reflexivity. }
  assert (U4 : v_unit Fs_monthly_14C = unit_monthly).
  { unfold monthly3 in H4. destruct (nan_first3 _ _); simpl in H4; [|discriminate].
    injection H4 as <-. reflexivity. }
  do 4 eexists.
  split.
  { unfold daily2. rewrite H1. cbn [rbind]. rewrite H2. cbn [rbind].
    unfold convert. rewrite U1, U2. reflexivity. }
  split.
  { unfold daily3. rewrite H3. cbn [rbind]. rewrite H4. cbn [rbind].
    unfold convert. rewrite U3, U4. reflexivity. }
  simpl. repeat (split; [reflexivity|]).
  split; [|split; [|split]]; intros;
    first [ apply (entry2_over2 (fun x => (x / days_per_month)%f64))
          | apply (entry3_over3 (fun x => (x / days_per_month)%f64)) ];
    assumption.
Qed.

Lemma C9_monthly_fluxes_to_daily_rates_witness :
  let mdo := {| model_structure := load_model_structure; dataset := ds_site;
                stock_unit := "gC/m2";
                time := {| v_data := arange_times 3; v_unit := "d" |} |} in
  let mr := dmr_run dmr_sample in
  let mr_14C := run_14C mr (const_row 6 alpha) (const_mat 2 6 alpha) in
  let m2 (r : ModelRun) := {| v_data := nan_row 6 :: external_input_vector r;
                              v_unit := unit_monthly |} in
  let m3 (r : ModelRun) := {| v_data := nan_mat 6 :: internal_flux_matrix r;
                              v_unit := unit_monthly |} in
  exists xs xs_14C Fs Fs_14C,
    daily2 mdo mr mr_14C external_input_vector = Ok (xs, xs_14C) /\
    daily3 mdo mr mr_14C = Ok (Fs, Fs_14C) /\
    v_unit xs = "g/d" /\ v_unit xs_14C = "g/d" /\
    v_unit Fs = "g/d" /\ v_unit Fs_14C = "g/d" /\
    (forall t p m,
        entry2 (v_data (m2 mr)) t p = Some m ->
        entry2 (v_data xs) t p = Some (m / days_per_month)%f64) /\
    (forall t p m,
        entry2 (v_data (m2 mr_14C)) t p = Some m ->
        entry2 (v_data xs_14C) t p = Some (m / days_per_month)%f64) /\
    (forall t i j m,
        entry3 (v_data (m3 mr)) t i j = Some m ->
        entry3 (v_data Fs) t i j = Some (m / days_per_month)%f64) /\
    (forall t i j m,
        entry3 (v_data (m3 mr_14C)) t i j = Some m ->
        entry3 (v_data Fs_14C) t i j = Some (m / days_per_month)%f64).
Proof.
  intros mdo mr mr_14C m2 m3.
  apply (C9_monthly_fluxes_to_daily_rates mdo mr mr_14C external_input_vector
           (m2 mr) (m2 mr_14C) (m3 mr) (m3 mr_14C));
    vm_compute; reflexivity.
Defined.

(** ** The tracer companion of a discrete run *)

Lemma load_dmr_14C_inv (env : Env) (dmr r : DiscreteModelRun) (w w' : World) :
  load_dmr_14C env dmr w = (w', Ok r) ->
  exists F raw B0 A b x0,
    atm_curve env = Ok F /\
    us_14C_raw (fun t => F (t_conv t)) dmr = Ok raw /\
    B0_14C_discrete env dmr = Ok B0 /\
    mat_op F64.sub (identity (nr_pools dmr)) B0 = Ok A /\
    mean_axis0 (nr_pools dmr) (clean raw) = Ok b /\
    np_linalg_solve env A b = Ok x0 /\
    dmr_to_14C_only env dmr x0 (clean raw) = Ok r /\
    trace w' = (trace w ++ [CallLoadAtmCurve; CallLinalgSolve A b; CallTo14COnly x0])%list /\
    input w' = input w.
Proof.
  unfold load_dmr_14C.
  cbv beta iota delta [bind ext lift input trace].
  destruct (atm_curve env) as [F|e] eqn:E1; [|discriminate].
  destruct (us_14C_raw (fun t => F (t_conv t)) dmr) as [raw|e] eqn:E2; [|discriminate].
  destruct (B0_14C_discrete env dmr) as [B0|e] eqn:E3; [|discriminate].
  destruct (mat_op F64.sub (identity (nr_pools dmr)) B0) as [A|e] eqn:E4; [|discriminate].
  destruct (mean_axis0 (nr_pools dmr) (clean raw)) as [b|e] eqn:E5; [|discriminate].
  destruct (np_linalg_solve env A b) as [x0|e] eqn:E6; [|discriminate].
  destruct (dmr_to_14C_only env dmr x0 (clean raw)) as [r'|e] eqn:E7; [|discriminate].
  intros H. injection H as <- <-.
  exists F, raw, B0, A, b, x0.
  repeat (split; [first [assumption | reflexivity]|]).
  split; [|reflexivity].
  rewrite <- !app_assoc. reflexivity.
Qed.

Lemma entry2_nth (M : matrix) (t i : nat) (row : vector) :
  nth_error M t = Some row -> entry2 M t i = nth_error row i.
Proof. intros H. unfold entry2. rewrite H. reflexivity. Qed.

Lemma us_14C_raw_entry (F : float -> float) (dmr : DiscreteModelRun) (raw : matrix)
    (t i : nat) (row : vector) (u12 tm : float) :
  length (external_input_vector dmr) = length (slice_to (-1) (times dmr)) ->
  us_14C_raw F dmr = Ok raw ->
  nth_error (external_input_vector dmr) t = Some row ->
  nth_error row i = Some u12 ->
  nth_error (slice_to (-1) (times dmr)) t = Some tm ->
  entry2 raw t i = Some (alpha * u12 * (fl 1 + one_per_mille * F tm))%f64.
Proof.
  intros Hlen Hraw Hrow Hu Ht. unfold us_14C_raw in Hraw.
  rewrite broadcastR_same_length in Hraw
    by (unfold scal_mat; rewrite !length_map; exact Hlen).
  pose proof (zipWithR_pure_nth
                (fun (row : vector) (c : float) => map (fun x => (x * c)%f64) row)
                _ _ raw t (scal_vec alpha row)
                (fl 1 + one_per_mille * F tm)%f64 Hraw) as Hn.
  rewrite (entry2_nth raw t i _ (Hn (map_nth_error (scal_vec alpha) t _ Hrow)
                                   (map_nth_error _ t _ Ht))).
  unfold scal_vec. erewrite map_nth_error; [reflexivity|].
  erewrite map_nth_error; [reflexivity|exact Hu].
Qed.

Lemma us_14C_raw_total (F : float -> float) (dmr : DiscreteModelRun) :
  length (external_input_vector dmr) = length (slice_to (-1) (times dmr)) ->
  exists raw, us_14C_raw F dmr = Ok raw.
Proof.
  intros Hlen. unfold us_14C_raw.
  rewrite broadcastR_same_length
    by (unfold scal_mat; rewrite !length_map; exact Hlen).
  rewrite (zipWithR_pure_total
             (fun (row : vector) (c : float) => map (fun x => (x * c)%f64) row))
    by (unfold scal_mat; rewrite !length_map; exact Hlen).
  eexists. reflexivity.
Qed.

(** C5, as the code has it.  Given the forcing curve and a discrete run whose
    input series has one row per step, the 14C input series is built; it has,
    at every step [t] and pool [i], the value
    [v = alpha * u12 * (1 + 1/1000 * ForcingCurve(t_conv(times[t])))] if that
    is finite, and [0.0] if it is [+inf] or NaN, while a [-inf] becomes the
    most negative finite number; and it is this series that [load_dmr_14C]
    hands to the tracer-only companion. *)
Theorem C5_tracer_input_series (env : Env) (F : float -> float)
    (dmr : DiscreteModelRun) :
  atm_curve env = Ok F ->
  length (external_input_vector dmr) = length (slice_to (-1) (times dmr)) ->
  exists us_14C,
    (forall t i row u12 tm,
        nth_error (external_input_vector dmr) t = Some row ->
        nth_error row i = Some u12 ->
        nth_error (slice_to (-1) (times dmr)) t = Some tm ->
        let v := (alpha * u12 * (fl 1 + one_per_mille * F (t_conv tm)))%f64 in
        exists x,
          entry2 us_14C t i = Some x /\
          (F64.is_finite v = true -> x = v) /\
          (F64.is_posinf v = true -> x = fl 0) /\
          (F64.is_nan v = true -> x = fl 0) /\
          (F64.is_neginf v = true -> x = F64.min_float)) /\
    (forall w w' r,
        load_dmr_14C env dmr w = (w', Ok r) ->
        exists x0, dmr_to_14C_only env dmr x0 us_14C = Ok r).
Proof.
  intros HF Hlen.
  destruct (us_14C_raw_total (fun t => F (t_conv t)) dmr Hlen) as [raw Hraw].
  exists (clean raw). split.
  - intros t i row u12 tm Hrow Hu Ht v.
    exists (nan_to_num_posinf0 v).
    split.
    + unfold clean.
      apply (entry2_over2 nan_to_num_posinf0).
      exact (us_14C_raw_entry (fun t0 => F (t_conv t0)) dmr raw t i row u12 tm
               Hlen Hraw Hrow Hu Ht).
    + destruct v as [s|[|]| |s m e]; repeat split; intros; try discriminate; reflexivity.
  - intros w w' r Hload.
    destruct (load_dmr_14C_inv env dmr r w w' Hload)
      as (F' & raw' & B0 & A & b & x0 & HF' & Hraw' & _ & _ & _ & _ & Hto & _ & _).
    assert (F' = F) by congruence. subst F'.
    assert (raw' = raw) by congruence. subst raw'.
    exists x0. exact Hto.
Qed.

Lemma C5_tracer_input_series_witness :
  exists us_14C,
    (forall t i row u12 tm,
        nth_error (external_input_vector dmr_inf) t = Some row ->
        nth_error row i = Some u12 ->
        nth_error (slice_to (-1) (times dmr_inf)) t = Some tm ->
        let v := (alpha * u12 * (fl 1 + one_per_mille * fl 40))%f64 in
        exists x,
          entry2 us_14C t i = Some x /\
          (F64.is_finite v = true -> x = v) /\
          (F64.is_posinf v = true -> x = fl 0) /\
          (F64.is_nan v = true -> x = fl 0) /\
          (F64.is_neginf v = true -> x = F64.min_float)) /\
    (forall w w' r,
        load_dmr_14C (env_sample smr_sample) dmr_inf w = (w', Ok r) ->
        exists x0, dmr_to_14C_only (env_sample smr_sample) dmr_inf x0 us_14C = Ok r).
Proof.
  apply (C5_tracer_input_series (env_sample smr_sample) (fun _ => fl 40) dmr_inf).
  - reflexivity.
  - vm_compute. reflexivity.
Defined.

(** C5 as stated fails.  At the first step of this run the input of the first
    pool is [-inf] and that of the second is missing: the formula gives
    [-inf] and NaN; the series handed on holds the most negative finite
    number, not zero, and [0.0], not the formula's NaN. *)
Lemma C5_counterexample :
  exists r w',
    load_dmr_14C (env_sample smr_sample) dmr_inf world0 = (w', Ok r) /\
    entry2 (external_input_vector dmr_inf) 0 0 = Some F64.ninf /\
    (alpha * F64.ninf * (fl 1 + one_per_mille * fl 40))%f64 = F64.ninf /\
    entry2 (external_input_vector r) 0 0 = Some F64.min_float /\
    F64.eqb F64.min_float (fl 0) = false /\
    entry2 (external_input_vector dmr_inf) 0 1 = Some F64.nan /\
    (alpha * F64.nan * (fl 1 + one_per_mille * fl 40))%f64 = F64.nan /\
    entry2 (external_input_vector r) 0 1 = Some (fl 0).
Proof.
  do 2 eexists. split; [vm_compute; reflexivity|].
  repeat split; vm_compute; reflexivity.
Qed.

(** ** The equilibrium start values *)





(** ** Which variables the result holds *)

Lemma add_variable_keys (ds : Dataset) (dv dv' : dict DataArray) (name : string)
    (nv : BgcVariable vector) :
  add_variable ds dv name nv = Ok dv' ->
  forall k, In k (keys dv') <->
            In k (keys dv) \/ (k = name /\ In name (keys (variables ds))).
Proof.
  unfold add_variable. intros H k.
  destruct (mem name (keys (variables ds))) eqn:Hm.
  - apply mem_In in Hm.
    destruct (getitem ds name) as [var_ds|e]; [|discriminate]. cbn [rbind] in H.
    destruct (new_DataArray _ _ _ _) as [var|e]; [|discriminate]. cbn [rbind] in H.
    injection H as <-. rewrite keys_assign. tauto.
  - apply mem_false_In in Hm. injection H as <-. tauto.
Qed.

(** A loop whose every step adds, of the names [nms x] it offers, those the
    dataset knows. *)
Lemma foldM_keys (ds : Dataset) {X} (f : dict DataArray -> X -> M (dict DataArray))
    (nms : X -> list string) :
  (forall s x w w' s',
      f s x w = (w', Ok s') ->
      forall k, In k (keys s') <->
                In k (keys s) \/ (In k (nms x) /\ In k (keys (variables ds)))) ->
  forall l s w w' s',
    foldM f l s w = (w', Ok s') ->
    forall k, In k (keys s') <->
              In k (keys s) \/
              ((exists x, In x l /\ In k (nms x)) /\ In k (keys (variables ds))).
Proof.
  intros Hf. induction l as [|x l IH]; intros s w w' s' H k.
  - injection H as _ <-. split; [auto|]. intros [H|[[x [[] _]] _]]. exact H.
  - cbn [foldM] in H. unfold bind in H.
    destruct (f s x w) as [w1 [s1|e]] eqn:E; [|discriminate].
    rewrite (IH _ _ _ _ H k), (Hf _ _ _ _ _ E k). split.
    + intros [[H1|[H1 H2]]|[[y [H1 H2]] H3]]; [auto | right | right].
      * split; [exists x; split; [left; reflexivity | exact H1] | exact H2].
      * split; [exists y; split; [right; exact H1 | exact H2] | exact H3].
    + intros [H1|[[y [[->|H1] H2]] H3]]; [auto | left; right; auto | right].
      split; [exists y; auto | exact H3].
Qed.

Lemma enumerate_In {A} (l : list A) (a : A) :
  In a l <-> exists i, In (i, a) (enumerate l).
Proof.
  unfold enumerate. generalize 0%nat.
  induction l as [|b l IH]; intros s; simpl.
  - split; [tauto | intros [i []]].
  - rewrite (IH (S s)). split.
    + intros [->|[i H]]; [exists s; left; reflexivity | exists i; right; exact H].
    + intros [i [H|H]]; [left; congruence | right; exists i; exact H].
Qed.

Section OutputNames.

Variables (mdo : ModelDataObject) (ds : Dataset) (mr mr_14C : ModelRun).

Let pools := pool_names (model_structure mdo).
Let known (k : string) := In k (keys (variables ds)).

Lemma save_stock_keys s x w w' s' :
  save_stock mdo ds mr mr_14C s x w = (w', Ok s') ->
  forall k, In k (keys s') <-> In k (keys s) \/ (In k [snd x] /\ known k).
Proof.
  destruct x as [pool_nr pool_name]. unfold save_stock, bind, lift.
  destruct (solve_both mr mr_14C w) as [w1 [ss|e]]; [|discriminate].
  destruct (column pool_nr (fst ss)) as [C12|e]; [|discriminate]. cbn [rbind].
  destruct (column pool_nr (snd ss)) as [C14|e]; [|discriminate]. cbn [rbind].
  destruct (F_Delta_14C_arr C12 C14) as [D|e]; [|discriminate]. cbn [rbind].
  destruct (add_variable _ _ _ _) as [dv|e] eqn:E; [|discriminate].
  intros H k. injection H as _ <-.
  rewrite (add_variable_keys _ _ _ _ _ E k). unfold known. simpl.
  split; (intros [H|H]; [left; exact H | right]).
  - destruct H as [-> H]. auto.
  - destruct H as [[<-|[]] H]. auto.
Qed.

Lemma save_flux2_keys (name : string -> string) xs xs_14C s x w w' s' :
  save_flux2 ds name xs xs_14C s x w = (w', Ok s') ->
  forall k, In k (keys s') <-> In k (keys s) \/ (In k [name (snd x)] /\ known k).
Proof.
  destruct x as [pool_nr pool_name]. unfold save_flux2, lift.
  destruct (column pool_nr (v_data xs)) as [C12|e]; [|discriminate]. cbn [rbind].
  destruct (column pool_nr (v_data xs_14C)) as [C14|e]; [|discriminate]. cbn [rbind].
  destruct (F_Delta_14C_arr C12 C14) as [D|e]; [|discriminate]. cbn [rbind].
  destruct (add_variable _ _ _ _) as [dv|e] eqn:E; [|discriminate].
  intros H k. injection H as _ <-.
  rewrite (add_variable_keys _ _ _ _ _ E k). unfold known. simpl.
  split; (intros [H|H]; [left; exact H | right]).
  - destruct H as [-> H]. auto.
  - destruct H as [[<-|[]] H]. auto.
Qed.

Lemma save_internal_keys Fs Fs_14C s x w w' s' :
  save_internal mdo ds Fs Fs_14C s x w = (w', Ok s') ->
  forall k, In k (keys s') <->
            In k (keys s) \/
            (In k (map (fun pt => snd x ++ "_to_" ++ pt) pools) /\ known k).
Proof.
  destruct x as [pnr_from pn_from]. unfold save_internal. intros H k.
  assert (Hstep :
    forall s0 (x : nat * string) w0 w0' s0',
      (let '(pnr_to, pn_to) := x in
       lift (C12 <- column3 pnr_to pnr_from (v_data Fs) ;;
             C14 <- column3 pnr_to pnr_from (v_data Fs_14C) ;;
             D <- F_Delta_14C_arr C12 C14 ;;
             add_variable ds s0 (pn_from ++ "_to_" ++ pn_to)
               {| v_data := D; v_unit := v_unit Fs |})%res) w0 = (w0', Ok s0') ->
      forall k, In k (keys s0') <->
                In k (keys s0) \/
                (In k [pn_from ++ "_to_" ++ snd x] /\ In k (keys (variables ds)))).
  { clear. intros s0 [pnr_to pn_to] w0 w0' s0'. unfold lift.
    destruct (column3 pnr_to pnr_from (v_data Fs)) as [C12|e]; [|discriminate].
    cbn [rbind].
    destruct (column3 pnr_to pnr_from (v_data Fs_14C)) as [C14|e]; [|discriminate].
    cbn [rbind].
    destruct (F_Delta_14C_arr C12 C14) as [D|e]; [|discriminate]. cbn [rbind].
    destruct (add_variable _ _ _ _) as [dv|e] eqn:E; [|discriminate].
    intros H k. injection H as _ <-.
    rewrite (add_variable_keys _ _ _ _ _ E k). simpl.
    split; (intros [H|H]; [left; exact H | right]).
    + destruct H as [-> H]. auto.
    + destruct H as [[<-|[]] H]. auto. }
  rewrite (foldM_keys ds _ (fun pt : nat * string => [pn_from ++ "_to_" ++ snd pt])
             Hstep _ _ _ _ _ H k).
  unfold known, pools. simpl.
  split; (intros [H1|[H1 H2]]; [left; exact H1 | right; split; [|exact H2]]).
  - destruct H1 as [[i pt] [Hin [<-|[]]]]. apply in_map_iff.
    exists pt. split; [reflexivity|]. apply enumerate_In. exists i. exact Hin.
  - apply in_map_iff in H1. destruct H1 as [pt [<- Hin]].
    apply enumerate_In in Hin. destruct Hin as [i Hin].
    exists (i, pt). split; [exact Hin | left; reflexivity].
Qed.

End OutputNames.

Lemma candidate_names_In (pools : list string) (k : string) :
  In k (candidate_names pools) <->
  (exists x, In x (enumerate pools) /\ In k [snd x]) \/
  (exists x, In x (enumerate pools) /\ In k ["NPP_to_" ++ snd x]) \/
  (exists x, In x (enumerate pools) /\
             In k (map (fun pt => snd x ++ "_to_" ++ pt) pools)) \/
  (exists x, In x (enumerate pools) /\ In k [snd x ++ "_to_RH"]).
Proof.
  assert (E : forall (g : string -> list string),
             (exists x, In x (enumerate pools) /\ In k (g (snd x))) <->
             (exists p, In p pools /\ In k (g p))).
  { intros g. split.
    - intros [[i p] [H1 H2]]. exists p. split; [|exact H2].
      apply enumerate_In. exists i. exact H1.
    - intros [p [H1 H2]]. apply enumerate_In in H1. destruct H1 as [i H1].
      exists (i, p). split; [exact H1 | exact H2]. }
  rewrite (E (fun p => [p])), (E (fun p => ["NPP_to_" ++ p])),
    (E (fun p => map (fun pt => p ++ "_to_" ++ pt) pools)),
    (E (fun p => [p ++ "_to_RH"])).
  unfold candidate_names. rewrite !in_app_iff, !in_map_iff, in_flat_map.
  simpl.
  split.
  - intros [H|[[p [<- H]]|[[p [H1 H2]]|[p [<- H]]]]].
    + left. exists k. auto.
    + right; left. exists p. auto.
    + right; right; left. exists p. auto.
    + right; right; right. exists p. auto.
  - intros [[p [H [<-|[]]]]|[[p [H [<-|[]]]]|[[p [H1 H2]]|[p [H [<-|[]]]]]]].
    + left. exact H.
    + right; left. exists p. auto.
    + right; right; left. exists p. auto.
    + right; right; right. exists p. auto.
Qed.

Lemma new_Dataset_keys (dvs : dict DataArray) (cs : dict XVariable) (a : attrs)
    (res : Dataset) :
  new_Dataset dvs cs a = Ok res ->
  forall k, In k (keys (variables res)) <-> In k (keys dvs) \/ In k (keys cs).
Proof.
  unfold new_Dataset. intros H k.
  destruct (existsb _ _); [discriminate|].
  destruct (negb _); [discriminate|].
  injection H as <-. cbn [variables]. unfold keys.
  rewrite map_app, in_app_iff, map_map. cbn [fst]. reflexivity.
Qed.

Lemma coords_of_keys (ds : Dataset) (k : string) :
  In k (keys (coords_of ds)) ->
  In k (keys (variables ds)) /\ In k (coord_names ds).
Proof.
  unfold coords_of, keys. rewrite !in_map_iff.
  intros [[k' v] [<- H]]. apply filter_In in H. destruct H as [H1 H2].
  split; [exists (k', v); auto | apply mem_In; exact H2].
Qed.

(** C10.  When [create_Delta_14C_dataset] returns, a name it offers (a pool
    stock, [NPP_to_<pool>], [<pool>_to_<pool>], [<pool>_to_RH]) names a
    variable of the result exactly if it names a variable of the given
    dataset; and the result holds nothing but offered names and the
    coordinates of the given dataset. *)
Theorem C10_output_variable_names (mdo : ModelDataObject) (ds : Dataset)
    (mr mr_14C : ModelRun) (w w' : World) (res : Dataset) :
  create_Delta_14C_dataset mdo ds mr mr_14C w = (w', Ok res) ->
  (forall name,
      In name (candidate_names (pool_names (model_structure mdo))) ->
      (In name (keys (variables res)) <-> In name (keys (variables ds)))) /\
  (forall name,
      In name (keys (variables res)) ->
      In name (keys (variables ds)) /\
      (In name (candidate_names (pool_names (model_structure mdo))) \/
       In name (coord_names ds))).
Proof.
  unfold create_Delta_14C_dataset, bind, lift. intros H.
  destruct (foldM (save_stock mdo ds mr mr_14C) _ _ w) as [w1 [dv1|e]] eqn:E1;
    [|discriminate].
  destruct (daily2 mdo mr mr_14C external_input_vector) as [us|e]; [|discriminate].
  destruct (foldM (save_flux2 ds _ (fst us) (snd us)) _ dv1 w1) as [w2 [dv2|e]] eqn:E2;
    [|discriminate].
  destruct (daily3 mdo mr mr_14C) as [Fs|e]; [|discriminate].
  destruct (foldM (save_internal mdo ds (fst Fs) (snd Fs)) _ dv2 w2)
    as [w3 [dv3|e]] eqn:E3; [|discriminate].
  destruct (daily2 mdo mr mr_14C external_output_vector) as [rs|e]; [|discriminate].
  destruct (foldM (save_flux2 ds _ (fst rs) (snd rs)) _ dv3 w3) as [w4 [dv4|e]] eqn:E4;
    [|discriminate].
  destruct (new_Dataset dv4 (coords_of ds) (ds_attrs ds)) as [res'|e] eqn:E5;
    [|discriminate].
  injection H as _ <-.
  pose proof (foldM_keys ds _ (fun x => [snd x])
                (save_stock_keys mdo ds mr mr_14C) _ _ _ _ _ E1) as K1.
  pose proof (foldM_keys ds _ (fun x => ["NPP_to_" ++ snd x])
                (save_flux2_keys ds _ (fst us) (snd us)) _ _ _ _ _ E2) as K2.
  pose proof (foldM_keys ds _
                (fun x => map (fun pt => snd x ++ "_to_" ++ pt)
                              (pool_names (model_structure mdo)))
                (save_internal_keys mdo ds (fst Fs) (snd Fs)) _ _ _ _ _ E3) as K3.
  pose proof (foldM_keys ds _ (fun x => [snd x ++ "_to_RH"])
                (save_flux2_keys ds _ (fst rs) (snd rs)) _ _ _ _ _ E4) as K4.
  pose proof (new_Dataset_keys _ _ _ _ E5) as K5.
  assert (K : forall k,
             In k (keys dv4) <->
             In k (candidate_names (pool_names (model_structure mdo))) /\
             In k (keys (variables ds))).
  { intros k. rewrite K4, K3, K2, K1, candidate_names_In. simpl (In k (keys [])).
    tauto. }
  split.
  - intros name Hc. rewrite K5, K. split.
    + intros [[_ Hk]|Hk]; [exact Hk | apply coords_of_keys in Hk; tauto].
    + intros Hk. left. auto.
  - intros name Hn. apply K5 in Hn. destruct Hn as [Hn|Hn].
    + apply K in Hn. tauto.
    + apply coords_of_keys in Hn. tauto.
Qed.

Lemma C10_output_variable_names_witness :
  let mdo := {| model_structure := load_model_structure; dataset := ds_site;
                stock_unit := "gC/m2";
                time := {| v_data := arange_times 3; v_unit := "d" |} |} in
  let mr := dmr_run dmr_sample in
  let mr_14C := run_14C mr (const_row 6 alpha) (const_mat 2 6 alpha) in
  exists w' res,
    create_Delta_14C_dataset mdo ds_site mr mr_14C world0 = (w', Ok res) /\
    keys (variables res)
    = ["Leaf"; "Soil"; "NPP_to_Leaf"; "Leaf_to_Litter"; "Soil_to_RH";
       "ens"; "lat"; "lon"; "time"] /\
    (forall name,
        In name (candidate_names (pool_names (model_structure mdo))) ->
        (In name (keys (variables res)) <-> In name (keys (variables ds_site)))) /\
    (forall name,
        In name (keys (variables res)) ->
        In name (keys (variables ds_site)) /\
        (In name (candidate_names (pool_names (model_structure mdo))) \/
         In name (coord_names ds_site))).
Proof.
  intros mdo mr mr_14C.
  destruct (create_Delta_14C_dataset mdo ds_site mr mr_14C world0)
    as [w' [res|e]] eqn:E; [|exfalso; vm_compute in E; discriminate].
  exists w', res. split; [reflexivity|].
  split.
  - vm_compute in E. injection E as _ <-. reflexivity.
  - exact (C10_output_variable_names mdo ds_site mr mr_14C world0 w' res E).
Defined.

(** ** The caller's dataset outside the empty batch *)

Lemma preserves_ret {A} (a : A) : preserves_input (ret a).
Proof. intros w w' r H. injection H as <- _. reflexivity. Qed.

Lemma preserves_raise {A} (e : exn) : preserves_input (@raise A e).
Proof. intros w w' r H. injection H as <- _. reflexivity. Qed.

Lemma preserves_lift {A} (x : result A) : preserves_input (lift x).
Proof. intros w w' r H. injection H as <- _. reflexivity. Qed.

Lemma preserves_ext {A} (c : call) (x : result A) : preserves_input (ext c x).
Proof. intros w w' r H. injection H as <- _. reflexivity. Qed.

Lemma preserves_bind {A B} (c : M A) (k : A -> M B) :
  preserves_input c -> (forall a, preserves_input (k a)) ->
  preserves_input (bind c k).
Proof.
  intros Hc Hk w w' r H. unfold bind in H.
  destruct (c w) as [w1 [a|e]] eqn:E.
  - rewrite (Hk a _ _ _ H). exact (Hc _ _ _ E).
  - injection H as <- _. exact (Hc _ _ _ E).
Qed.

Lemma preserves_foldM {S X} (f : S -> X -> M S) (l : list X) :
  (forall s x, preserves_input (f s x)) ->
  forall s, preserves_input (foldM f l s).
Proof.
  intros Hf. induction l as [|x l IH]; intros s; cbn [foldM].
  - apply preserves_ret.
  - apply preserves_bind; [apply Hf | exact IH].
Qed.

Lemma preserves_try {A} (body : M A) (h : exn -> M A) :
  preserves_input body -> (forall e, preserves_input (h e)) ->
  preserves_input (try_except_DMRError body h).
Proof.
  intros Hb Hh w w' r H. unfold try_except_DMRError in H.
  destruct (body w) as [w1 [a|e]] eqn:E.
  - injection H as <- _. exact (Hb _ _ _ E).
  - destruct e; try (injection H as <- _; exact (Hb _ _ _ E)).
    rewrite (Hh _ _ _ _ H). exact (Hb _ _ _ E).
Qed.

Lemma preserves_create_Delta_14C_dataset mdo ds mr mr_14C :
  preserves_input (create_Delta_14C_dataset mdo ds mr mr_14C).
Proof.
  assert (Hsolve : preserves_input (solve_both mr mr_14C)).
  { unfold solve_both. destruct (kind mr);
      (apply preserves_bind; [apply preserves_ext|]; intros;
       apply preserves_bind; [apply preserves_ext|]; intros; apply preserves_ret). }
  unfold create_Delta_14C_dataset.
  apply preserves_bind.
  { apply preserves_foldM. intros s [nr nm]. unfold save_stock.
    apply preserves_bind; [exact Hsolve | intros; apply preserves_lift]. }
  intros dv1. apply preserves_bind; [apply preserves_lift|]. intros us.
  apply preserves_bind.
  { apply preserves_foldM. intros s [nr nm]. apply preserves_lift. }
  intros dv2. apply preserves_bind; [apply preserves_lift|]. intros Fs.
  apply preserves_bind.
  { apply preserves_foldM. intros s [nr nm]. unfold save_internal.
    apply preserves_foldM. intros s' [nr' nm']. apply preserves_lift. }
  intros dv3. apply preserves_bind; [apply preserves_lift|]. intros rs.
  apply preserves_bind.
  { apply preserves_foldM. intros s [nr nm]. apply preserves_lift. }
  intros dv4. apply preserves_lift.
Qed.

Lemma preserves_load_dmr_14C env dmr : preserves_input (load_dmr_14C env dmr).
Proof.
  unfold load_dmr_14C.
  repeat (apply preserves_bind;
          [first [apply preserves_ext | apply preserves_lift] | intros]).
  apply preserves_ext.
Qed.

Lemma preserves_load_smr_14C env smr : preserves_input (load_smr_14C env smr).
Proof.
  unfold load_smr_14C.
  repeat (apply preserves_bind;
          [first [apply preserves_ext | apply preserves_lift] | intros]).
  apply preserves_ext.
Qed.

Lemma preserves_try_body env ds method : preserves_input (try_body env ds method).
Proof.
  unfold try_body.
  apply preserves_bind; [apply preserves_lift|]. intros mdo.
  apply preserves_bind.
  { destruct (String.eqb method "discrete").
    - apply preserves_bind; [apply preserves_ext|]. intros [[mr abs_err] rel_err].
      apply preserves_bind; [apply preserves_load_dmr_14C|]. intros mr_14C.
      apply preserves_bind; [apply preserves_ext|]. intros soln.
      apply preserves_bind; [apply preserves_ext|]. intros soln_14C.
      apply preserves_ret.
    - apply preserves_bind; [apply preserves_ext|]. intros [[mr abs_err] rel_err].
      apply preserves_bind; [apply preserves_load_smr_14C|]. intros mr_14C.
      apply preserves_bind; [apply preserves_ext|]. intros soln.
      apply preserves_bind; [apply preserves_ext|]. intros soln_14C.
      apply preserves_ret. }
  intros [[[mr mr_14C] abs_err] rel_err].
  apply preserves_bind; [apply preserves_create_Delta_14C_dataset|]. intros d.
  repeat (apply preserves_bind; [apply preserves_lift | intros]).
  apply preserves_lift.
Qed.

(** Outside the empty batch the caller's dataset is only read: on success, on
    a recovered failure and when an exception reaches the caller, it is what
    it was.  (The [create_Delta_14C_dataset] of the source is covered by
    [preserves_create_Delta_14C_dataset].) *)
Lemma nonempty_batch_leaves_input (env : Env) (ds : Dataset) (method : string)
    (w' : World) (r : result returned) :
  (forall ens, getattr ds "ens" = Ok ens -> shape (data ens) <> [0%nat]) ->
  run (load_Delta_14C_dataset env method) ds = (w', r) ->
  input w' = ds.
Proof.
  intros Hens H. unfold run, load_Delta_14C_dataset in H.
  unfold bind at 1 in H. unfold get_input in H. cbn [input] in H.
  destruct (negb (mem method ["discrete"; "continuous"])).
  { exact (preserves_raise _ _ _ _ H). }
  unfold bind at 1 in H. unfold lift at 1 in H.
  destruct (getattr ds "ens") as [ens|e] eqn:E.
  2:{ injection H as <- _. reflexivity. }
  destruct (list_eq_dec Nat.eq_dec (shape (data ens)) [0%nat]) as [He|_].
  { exfalso. exact (Hens ens eq_refl He). }
  refine (preserves_bind _ _ _ _ _ _ _ H).
  - apply preserves_try.
    + apply preserves_bind; [apply preserves_try_body | intros; apply preserves_ret].
    + intros e. apply preserves_bind; [apply preserves_lift | intros; apply preserves_ret].
  - intros [d log]. apply preserves_bind; [apply preserves_lift | intros; apply preserves_ret].
Qed.

(** ** The failure path *)

Lemma lookup_In {V} (k : string) (v : V) (d : dict V) :
  lookup k d = Some v -> In (k, v) d.
Proof.
  induction d as [|[k' v'] d IH]; simpl; [discriminate|].
  destruct (String.eqb k k') eqn:E.
  - apply String.eqb_eq in E. subst. intros H. injection H as <-. left. reflexivity.
  - intros H. right. exact (IH H).
Qed.

Lemma NoDup_lookup {V} (k : string) (v : V) (d : dict V) :
  NoDup (keys d) -> In (k, v) d -> lookup k d = Some v.
Proof.
  induction d as [|[k' v'] d IH]; simpl; [tauto|].
  intros Hnd [H|H].
  - injection H as -> ->. rewrite String.eqb_refl. reflexivity.
  - inversion Hnd as [|? ? Hnotin Hnd']; subst.
    destruct (String.eqb k k') eqn:E.
    + apply String.eqb_eq in E. subst k'. exfalso. apply Hnotin.
      unfold keys. apply in_map_iff. exists (k, v). auto.
    + exact (IH Hnd' H).
Qed.


Lemma subset_spec (xs ys : list string) :
  subset xs ys = true <-> (forall x, In x xs -> In x ys).
Proof.
  unfold subset. rewrite forallb_forall. split; intros H x Hx.
  - apply mem_In. exact (H x Hx).
  - apply mem_In. exact (H x Hx).
Qed.





Lemma data_vars_of_In (ds : Dataset) (k : string) (v : XVariable) :
  In (k, v) (data_vars_of ds) -> In (k, v) (variables ds).
Proof. unfold data_vars_of. intros H. apply filter_In in H. tauto. Qed.

Lemma setitem_scalar (ds : Dataset) (name : string) (d : ndarray) (a : attrs) :
  setitem ds name (scalar_var d a)
  = Ok {| variables := assign name (scalar_var d a) (variables ds);
          coord_names := coord_names ds;
          ds_attrs := ds_attrs ds |}.
Proof. reflexivity. Qed.







(* ===================================================================== *)
(** * Further properties of the module *)
(* ===================================================================== *)

(** ** The diagnostic without tracer *)

(** X1.  Carbon without any 14C has the diagnostic value [-1000] exactly:
    whenever C14 is zero and C12 is neither zero nor missing, whatever its
    size or sign, [F_Delta_14C] returns [-1000.0]. *)
Theorem F_Delta_14C_no_tracer (C12 C14 : float) :
  F64.is_zero C14 = true ->
  F64.is_zero C12 = false -> F64.is_nan C12 = false ->
  F_Delta_14C C12 C14 = fl (-1000).
Proof.
  destruct C14 as [s| | |]; try discriminate. intros _.
  unfold F_Delta_14C. rewrite alpha_value.
  destruct C12 as [s'|s'| |s' m e]; try discriminate; intros _ _;
    destruct s, s'; vm_compute; reflexivity.
Qed.

Lemma F_Delta_14C_no_tracer_witness :
  F_Delta_14C (F64.dec 25 1) (fl 0) = fl (-1000).
Proof.
  apply (F_Delta_14C_no_tracer (F64.dec 25 1) (fl 0)); vm_compute; reflexivity.
Defined.

(** ** The model data object *)

Lemma arange_times_nth (n k : nat) :
  (k < n)%nat ->
  nth_error (arange_times n) k = Some (fl (Z.of_nat k) * days_per_month)%f64.
Proof.
  intros H. unfold arange_times. rewrite nth_error_map, nth_error_seq.
  apply Nat.ltb_lt in H. rewrite H. reflexivity.
Qed.

(** X2.  [load_mdo] takes from the dataset's [time] variable only its length:
    when [time] has [n] entries along its first axis, the model data object
    is built around the very dataset given, and its time axis has [n] entries
    in days, the [k]-th being [k * 365.25/12], whatever the time stamps in the
    dataset are. *)
Theorem load_mdo_time_axis (ds : Dataset) (v : XVariable) (n : nat) (rest : list nat) :
  lookup "time" (variables ds) = Some v ->
  shape (x_data v) = n :: rest ->
  exists mdo,
    load_mdo ds = Ok mdo /\
    dataset mdo = ds /\
    model_structure mdo = load_model_structure /\
    v_unit (time mdo) = "d" /\
    length (v_data (time mdo)) = n /\
    forall k, (k < n)%nat ->
      nth_error (v_data (time mdo)) k = Some (fl (Z.of_nat k) * days_per_month)%f64.
Proof.
  intros Hl Hs. unfold load_mdo, getattr, getitem, len. rewrite Hl.
  cbn [rbind data]. rewrite Hs. cbn [rbind].
  eexists. split; [reflexivity|]. cbn [dataset model_structure time v_unit v_data].
  repeat (split; [reflexivity|]). split.
  - unfold arange_times. rewrite length_map, length_seq. reflexivity.
  - exact (arange_times_nth n).
Qed.

Lemma load_mdo_time_axis_witness :
  exists mdo,
    load_mdo ds_site = Ok mdo /\
    dataset mdo = ds_site /\
    model_structure mdo = load_model_structure /\
    v_unit (time mdo) = "d" /\
    length (v_data (time mdo)) = 3%nat /\
    forall k, (k < 3)%nat ->
      nth_error (v_data (time mdo)) k = Some (fl (Z.of_nat k) * days_per_month)%f64.
Proof.
  apply (load_mdo_time_axis ds_site (xvar ["time"] [3%nat] [fl 0; fl 31; fl 59]) 3 []);
    reflexivity.
Defined.


(** ** One variable of the output *)

(** X4.  When [add_variable] returns, no entry of [data_vars] under another
    name has changed.  If the dataset has no variable of the given name,
    nothing has been added at all; if it has one, the entry of that name now
    holds the new data on the dimensions of the dataset's variable, with the
    new unit under [units] and every other attribute as in the dataset. *)
Theorem add_variable_entry (ds : Dataset) (data_vars data_vars' : dict DataArray)
    (var_name_ds : string) (new_var : BgcVariable vector) :
  add_variable ds data_vars var_name_ds new_var = Ok data_vars' ->
  (forall k, k <> var_name_ds -> lookup k data_vars' = lookup k data_vars) /\
  match lookup var_name_ds (variables ds) with
  | None => data_vars' = data_vars
  | Some v =>
      exists var,
        lookup var_name_ds data_vars' = Some var /\
        data var = array1 (v_data new_var) /\
        dims var = x_dims v /\
        lookup "units" (da_attrs var) = Some (v_unit new_var) /\
        forall a, a <> "units" -> lookup a (da_attrs var) = lookup a (x_attrs v)
  end.
Proof.
  unfold add_variable. intros H.
  destruct (mem var_name_ds (keys (variables ds))) eqn:Hm.
  - apply mem_In, lookup_In_keys in Hm. destruct Hm as [v Hv].
    unfold getitem in H. rewrite Hv in H |- *. cbn [rbind da_attrs coords dims] in H.
    unfold new_DataArray in H.
    destruct (negb (Nat.eqb _ _)); [discriminate|].
    destruct (negb (forallb _ _)); [discriminate|].
    destruct (negb (agree _ _)); [discriminate|].
    cbn [rbind] in H. injection H as <-. split.
    + intros k Hk. apply lookup_assign_other. exact Hk.
    + eexists. split; [apply lookup_assign_same|]. cbn [data dims da_attrs].
      repeat (split; [reflexivity|]). split.
      * apply lookup_assign_same.
      * intros a Ha. apply lookup_assign_other. exact Ha.
  - apply mem_false_In in Hm. injection H as <-. split; [reflexivity|].
    destruct (lookup var_name_ds (variables ds)) as [v|] eqn:Hv; [|reflexivity].
    exfalso. apply Hm. apply lookup_In_keys. exists v. exact Hv.
Qed.

Lemma add_variable_entry_witness :
  exists data_vars',
    add_variable ds_site [] "Leaf" {| v_data := [fl 1; fl 2; fl 3]; v_unit := "gC/m2" |}
    = Ok data_vars' /\
    (forall k, k <> "Leaf" -> lookup k data_vars' = lookup k []) /\
    exists var,
      lookup "Leaf" data_vars' = Some var /\
      data var = array1 [fl 1; fl 2; fl 3] /\
      dims var = ["time"] /\
      lookup "units" (da_attrs var) = Some "gC/m2" /\
      forall a, a <> "units" -> lookup a (da_attrs var) = lookup a [("units", "gC/m2")].
Proof.
  destruct (add_variable ds_site [] "Leaf"
              {| v_data := [fl 1; fl 2; fl 3]; v_unit := "gC/m2" |})
    as [data_vars'|e] eqn:E; [|exfalso; vm_compute in E; discriminate].
  exists data_vars'. split; [reflexivity|].
  exact (add_variable_entry ds_site [] data_vars' "Leaf"
           {| v_data := [fl 1; fl 2; fl 3]; v_unit := "gC/m2" |} E).
Defined.

(** X5.  [add_variable] does not skip a variable it cannot shape: when the
    dataset's variable of the given name is not one-dimensional, as in a
    dataset that has not been reduced to one site, the call raises
    [ValueError], whatever the new data are. *)
Theorem add_variable_needs_one_dimension (ds : Dataset) (data_vars : dict DataArray)
    (var_name_ds : string) (new_var : BgcVariable vector) (v : XVariable) :
  lookup var_name_ds (variables ds) = Some v ->
  length (x_dims v) <> 1%nat ->
  add_variable ds data_vars var_name_ds new_var
  = Raise (ValueError "different number of dimensions on data and dims").
Proof.
  intros Hv Hd. unfold add_variable.
  replace (mem var_name_ds (keys (variables ds))) with true.
  2:{ symmetry. apply mem_In, lookup_In_keys. exists v. exact Hv. }
  unfold getitem. rewrite Hv. cbn [rbind da_attrs coords dims].
  unfold new_DataArray. cbn [array1 shape length].
  destruct (Nat.eqb 1 (length (x_dims v))) eqn:E.
  - apply Nat.eqb_eq in E. exfalso. apply Hd. symmetry. exact E.
  - reflexivity.
Qed.

Lemma add_variable_needs_one_dimension_witness :
  add_variable ds_template [] "Leaf" {| v_data := []; v_unit := "gC/m2" |}
  = Raise (ValueError "different number of dimensions on data and dims").
Proof.
  apply (add_variable_needs_one_dimension ds_template [] "Leaf"
           {| v_data := []; v_unit := "gC/m2" |}
           (xvar ["ens"; "lat"; "lon"; "time"] [0; 0; 0; 0]%nat []));
    [reflexivity | discriminate].
Defined.

(** ** What the tracer companions are built from *)

Lemma nan_to_num_posinf0_finite (x : float) :
  F64.is_finite (nan_to_num_posinf0 x) = true.
Proof. destruct x as [s|[|]| |s m e]; reflexivity. Qed.

Lemma entry2_map (f : float -> float) (M : matrix) (t i : nat) :
  entry2 (map (map f) M) t i = option_map f (entry2 M t i).
Proof.
  unfold entry2. revert t. induction M as [|row M IH]; intros [|t]; simpl.
  - reflexivity.
  - reflexivity.
  - apply nth_error_map.
  - apply IH.
Qed.

Lemma clean_entry (us : matrix) (t i : nat) (v : float) :
  entry2 (clean us) t i = Some v ->
  exists x, entry2 us t i = Some x /\ v = nan_to_num_posinf0 x.
Proof.
  unfold clean. rewrite entry2_map.
  destruct (entry2 us t i) as [x|]; cbn [option_map]; [|discriminate].
  intros H. injection H as <-. exists x. auto.
Qed.

(** X6.  The 14C input series that [load_dmr_14C] hands to the discrete
    companion has no missing and no infinite entry: whenever the call
    returns, the companion was built from start values and a series whose
    every entry is a finite number. *)
Theorem load_dmr_14C_series_is_finite (env : Env) (dmr r : DiscreteModelRun)
    (w w' : World) :
  load_dmr_14C env dmr w = (w', Ok r) ->
  exists x0 us,
    dmr_to_14C_only env dmr x0 us = Ok r /\
    forall t i v, entry2 us t i = Some v -> F64.is_finite v = true.
Proof.
  intros H.
  destruct (load_dmr_14C_inv env dmr r w w' H)
    as (F & raw & B0 & A & b & x0 & _ & _ & _ & _ & _ & _ & Hr & _).
  exists x0, (clean raw). split; [exact Hr|].
  intros t i v Hv. destruct (clean_entry raw t i v Hv) as [x [_ ->]].
  apply nan_to_num_posinf0_finite.
Qed.

Lemma load_dmr_14C_series_is_finite_witness :
  exists w' r x0 us,
    load_dmr_14C (env_sample smr_sample) dmr_inf world0 = (w', Ok r) /\
    dmr_to_14C_only (env_sample smr_sample) dmr_inf x0 us = Ok r /\
    forall t i v, entry2 us t i = Some v -> F64.is_finite v = true.
Proof.
  destruct (load_dmr_14C (env_sample smr_sample) dmr_inf world0)
    as [w' [r|e]] eqn:E; [|exfalso; vm_compute in E; discriminate].
  destruct (load_dmr_14C_series_is_finite (env_sample smr_sample) dmr_inf r world0 w' E)
    as [x0 [us H]].
  exists w', r, x0, us. split; [reflexivity | exact H].
Defined.

(** X7.  The calls [load_dmr_14C] makes, however it ends.  The forcing table
    is read first, also when the run is unusable; the linear system is solved
    at most once and only after that; and the companion is requested only
    from start values the solver has returned.  An error of the solver, such
    as a singular matrix, and an error of the companion reach the caller as
    they are.  The caller's dataset is not touched. *)
Theorem load_dmr_14C_calls (env : Env) (dmr : DiscreteModelRun) (w w' : World)
    (r : result DiscreteModelRun) :
  load_dmr_14C env dmr w = (w', r) ->
  input w' = input w /\
  ((trace w' = (trace w ++ [CallLoadAtmCurve])%list /\ exists e, r = Raise e) \/
   (exists A b e,
       trace w' = (trace w ++ [CallLoadAtmCurve; CallLinalgSolve A b])%list /\
       np_linalg_solve env A b = Raise e /\ r = Raise e) \/
   (exists A b x0 us,
       trace w' = (trace w ++ [CallLoadAtmCurve; CallLinalgSolve A b;
                               CallTo14COnly x0])%list /\
       np_linalg_solve env A b = Ok x0 /\
       r = dmr_to_14C_only env dmr x0 us)).
Proof.
  unfold load_dmr_14C.
  cbv beta iota delta [bind ext lift input trace].
  destruct (atm_curve env) as [F|e] eqn:E1.
  2:{ intros H. injection H as <- <-. split; [reflexivity|]. left. eauto. }
  destruct (us_14C_raw (fun t => F (t_conv t)) dmr) as [raw|e] eqn:E2.
  2:{ intros H. injection H as <- <-. split; [reflexivity|]. left. eauto. }
  destruct (B0_14C_discrete env dmr) as [B0|e] eqn:E3.
  2:{ intros H. injection H as <- <-. split; [reflexivity|]. left. eauto. }
  destruct (mat_op F64.sub (identity (nr_pools dmr)) B0) as [A|e] eqn:E4.
  2:{ intros H. injection H as <- <-. split; [reflexivity|]. left. eauto. }
  destruct (mean_axis0 (nr_pools dmr) (clean raw)) as [b|e] eqn:E5.
  2:{ intros H. injection H as <- <-. split; [reflexivity|]. left. eauto. }
  destruct (np_linalg_solve env A b) as [x0|e] eqn:E6.
  2:{ intros H. injection H as <- <-. split; [reflexivity|]. right. left.
      exists A, b, e. rewrite <- app_assoc. auto. }
  intros H. injection H as <- <-. split; [reflexivity|]. right. right.
  exists A, b, x0, (clean raw). rewrite <- !app_assoc. auto.
Qed.

Lemma load_dmr_14C_calls_witness :
  exists w' r,
    load_dmr_14C (env_sample smr_sample) dmr_sample world0 = (w', r) /\
    input w' = input world0 /\
    ((trace w' = (trace world0 ++ [CallLoadAtmCurve])%list /\ exists e, r = Raise e) \/
     (exists A b e,
         trace w' = (trace world0 ++ [CallLoadAtmCurve; CallLinalgSolve A b])%list /\
         np_linalg_solve (env_sample smr_sample) A b = Raise e /\ r = Raise e) \/
     (exists A b x0 us,
         trace w' = (trace world0 ++ [CallLoadAtmCurve; CallLinalgSolve A b;
                                      CallTo14COnly x0])%list /\
         np_linalg_solve (env_sample smr_sample) A b = Ok x0 /\
         r = dmr_to_14C_only (env_sample smr_sample) dmr_sample x0 us)).
Proof.
  destruct (load_dmr_14C (env_sample smr_sample) dmr_sample world0) as [w' r] eqn:E.
  exists w', r. split; [reflexivity|].
  exact (load_dmr_14C_calls (env_sample smr_sample) dmr_sample world0 w' r E).
Defined.



(** ** The steps of [create_Delta_14C_dataset] *)

Lemma create_Delta_14C_dataset_inv (mdo : ModelDataObject) (ds : Dataset)
    (mr mr_14C : ModelRun) (w w' : World) (res : Dataset) :
  create_Delta_14C_dataset mdo ds mr mr_14C w = (w', Ok res) ->
  exists w1 dv1 us w2 dv2 Fs w3 dv3 rs dv4,
    foldM (save_stock mdo ds mr mr_14C)
          (enumerate (pool_names (model_structure mdo))) [] w = (w1, Ok dv1) /\
    daily2 mdo mr mr_14C external_input_vector = Ok us /\
    foldM (save_flux2 ds (fun pool_name => "NPP_to_" ++ pool_name) (fst us) (snd us))
          (enumerate (pool_names (model_structure mdo))) dv1 w1 = (w2, Ok dv2) /\
    daily3 mdo mr mr_14C = Ok Fs /\
    foldM (save_internal mdo ds (fst Fs) (snd Fs))
          (enumerate (pool_names (model_structure mdo))) dv2 w2 = (w3, Ok dv3) /\
    daily2 mdo mr mr_14C external_output_vector = Ok rs /\
    foldM (save_flux2 ds (fun pool_name => pool_name ++ "_to_RH") (fst rs) (snd rs))
          (enumerate (pool_names (model_structure mdo))) dv3 w3 = (w', Ok dv4) /\
    new_Dataset dv4 (coords_of ds) (ds_attrs ds) = Ok res.
Proof.
  unfold create_Delta_14C_dataset, bind, lift. intros H.
  destruct (foldM (save_stock mdo ds mr mr_14C) _ _ w) as [w1 [dv1|e]] eqn:E1;
    [|discriminate].
  destruct (daily2 mdo mr mr_14C external_input_vector) as [us|e]; [|discriminate].
  destruct (foldM (save_flux2 ds _ (fst us) (snd us)) _ dv1 w1) as [w2 [dv2|e]] eqn:E2;
    [|discriminate].
  destruct (daily3 mdo mr mr_14C) as [Fs|e]; [|discriminate].
  destruct (foldM (save_internal mdo ds (fst Fs) (snd Fs)) _ dv2 w2)
    as [w3 [dv3|e]] eqn:E3; [|discriminate].
  destruct (daily2 mdo mr mr_14C external_output_vector) as [rs|e]; [|discriminate].
  destruct (foldM (save_flux2 ds _ (fst rs) (snd rs)) _ dv3 w3) as [w4 [dv4|e]] eqn:E4;
    [|discriminate].
  destruct (new_Dataset dv4 (coords_of ds) (ds_attrs ds)) as [res'|e] eqn:E5;
    [|discriminate].
  injection H as <- <-.
  exists w1, dv1, us, w2, dv2, Fs, w3, dv3, rs, dv4.
  repeat (split; [first [assumption | reflexivity]|]). exact E5.
Qed.

(** A loop whose every step makes the calls [g x]. *)
Lemma foldM_trace {S X} (f : S -> X -> M S) (g : X -> list call) :
  (forall s x w w' s', f s x w = (w', Ok s') -> trace w' = (trace w ++ g x)%list) ->
  forall l s w w' s',
    foldM f l s w = (w', Ok s') -> trace w' = (trace w ++ flat_map g l)%list.
Proof.
  intros Hf. induction l as [|x l IH]; intros s w w' s' H.
  - injection H as <- _. cbn [flat_map]. rewrite app_nil_r. reflexivity.
  - cbn [foldM] in H. unfold bind in H.
    destruct (f s x w) as [w1 [s1|e]] eqn:E; [|discriminate].
    rewrite (IH _ _ _ _ H), (Hf _ _ _ _ _ E). cbn [flat_map].
    rewrite app_assoc. reflexivity.
Qed.

Lemma flat_map_const {X Y} (c : list Y) (l : list X) :
  flat_map (fun _ => c) l = concat (repeat c (length l)).
Proof. induction l as [|x l IH]; simpl; [reflexivity | rewrite IH; reflexivity]. Qed.

Lemma flat_map_nil {X Y} (l : list X) : flat_map (fun _ => @nil Y) l = [].
Proof. induction l as [|x l IH]; [reflexivity | exact IH]. Qed.

Lemma length_enumerate {A} (l : list A) : length (enumerate l) = length l.
Proof.
  unfold enumerate. rewrite length_combine, length_seq. apply Nat.min_id.
Qed.

Lemma lift_world {A} (r : result A) (w w' : World) (r' : result A) :
  lift r w = (w', r') -> w' = w.
Proof. intros H. injection H as <- _. reflexivity. Qed.

Lemma solve_both_eq (mr mr_14C : ModelRun) :
  solve_both mr mr_14C
  = (soln <- ext CallSolve12C (solve mr) ;;
     soln_14C <- ext CallSolve14C (solve mr_14C) ;;
     ret (soln, soln_14C))%M.
Proof. unfold solve_both. destruct (kind mr); reflexivity. Qed.

Lemma save_stock_trace (mdo : ModelDataObject) (ds : Dataset) (mr mr_14C : ModelRun)
    s x w w' s' :
  save_stock mdo ds mr mr_14C s x w = (w', Ok s') ->
  trace w' = (trace w ++ [CallSolve12C; CallSolve14C])%list.
Proof.
  destruct x as [pool_nr pool_name]. unfold save_stock, solve_both.
  assert (E : (match kind mr with
               | Discrete | Smooth =>
                   (soln <- ext CallSolve12C (solve mr) ;;
                    soln_14C <- ext CallSolve14C (solve mr_14C) ;;
                    ret (soln, soln_14C))%M
               end)
              = (soln <- ext CallSolve12C (solve mr) ;;
                 soln_14C <- ext CallSolve14C (solve mr_14C) ;;
                 ret (soln, soln_14C))%M)
    by (destruct (kind mr); reflexivity).
  rewrite E. cbv beta iota delta [bind ext lift ret input trace].
  destruct (solve mr) as [soln|e]; [|discriminate].
  destruct (solve mr_14C) as [soln_14C|e]; [|discriminate].
  intros H. injection H as <- _. rewrite <- app_assoc. reflexivity.
Qed.

Lemma save_flux2_trace (ds : Dataset) (name : string -> string) xs xs_14C s x w w' s' :
  save_flux2 ds name xs xs_14C s x w = (w', Ok s') ->
  trace w' = (trace w ++ [])%list.
Proof.
  destruct x as [pool_nr pool_name]. unfold save_flux2. intros H.
  rewrite (lift_world _ _ _ _ H), app_nil_r. reflexivity.
Qed.

Lemma save_internal_trace (mdo : ModelDataObject) (ds : Dataset) Fs Fs_14C s x w w' s' :
  save_internal mdo ds Fs Fs_14C s x w = (w', Ok s') ->
  trace w' = (trace w ++ [])%list.
Proof.
  destruct x as [pnr_from pn_from]. unfold save_internal. intros H.
  assert (Hstep :
    forall s0 (x : nat * string) w0 w0' s0',
      (let '(pnr_to, pn_to) := x in
       lift (C12 <- column3 pnr_to pnr_from (v_data Fs) ;;
             C14 <- column3 pnr_to pnr_from (v_data Fs_14C) ;;
             D <- F_Delta_14C_arr C12 C14 ;;
             add_variable ds s0 (pn_from ++ "_to_" ++ pn_to)
               {| v_data := D; v_unit := v_unit Fs |})%res) w0 = (w0', Ok s0') ->
      trace w0' = (trace w0 ++ (fun _ : nat * string => @nil call) x)%list).
  { clear. intros s0 [pnr_to pn_to] w0 w0' s0' H0.
    rewrite (lift_world _ _ _ _ H0), app_nil_r. reflexivity. }
  rewrite (foldM_trace _ _ Hstep _ _ _ _ _ H), flat_map_nil. reflexivity.
Qed.

Lemma create_Delta_14C_dataset_trace (mdo : ModelDataObject)
    (ds : Dataset) (mr mr_14C : ModelRun) (w w' : World) (res : Dataset) :
  create_Delta_14C_dataset mdo ds mr mr_14C w = (w', Ok res) ->
  trace w'
  = (trace w ++ concat (repeat [CallSolve12C; CallSolve14C]
                               (length (pool_names (model_structure mdo)))))%list.
Proof.
  intros H.
  destruct (create_Delta_14C_dataset_inv _ _ _ _ _ _ _ H)
    as (w1 & dv1 & us & w2 & dv2 & Fs & w3 & dv3 & rs & dv4 &
        E1 & _ & E2 & _ & E3 & _ & E4 & _).
  rewrite (foldM_trace _ _ (save_flux2_trace ds _ (fst rs) (snd rs)) _ _ _ _ _ E4).
  rewrite (foldM_trace _ _ (save_internal_trace mdo ds (fst Fs) (snd Fs)) _ _ _ _ _ E3).
  rewrite (foldM_trace _ _ (save_flux2_trace ds _ (fst us) (snd us)) _ _ _ _ _ E2).
  rewrite (foldM_trace _ _ (save_stock_trace mdo ds mr mr_14C) _ _ _ _ _ E1).
  rewrite !flat_map_nil, !app_nil_r, flat_map_const, length_enumerate. reflexivity.
Qed.

(** A computation that makes no call and leaves the caller's dataset alone,
    however it ends. *)
Lemma lift_fst {A} (x : result A) (w : World) : fst (lift x w) = w.
Proof. reflexivity. Qed.

Lemma bind_fst {A B} (c : M A) (k : A -> M B) :
  (forall w, fst (c w) = w) -> (forall a w, fst (k a w) = w) ->
  forall w, fst (bind c k w) = w.
Proof.
  intros Hc Hk w. unfold bind. specialize (Hc w).
  destruct (c w) as [w1 [a|e]]; cbn [fst] in Hc; subst w1; [apply Hk | reflexivity].
Qed.

Lemma foldM_fst {S X} (f : S -> X -> M S) (l : list X) :
  (forall s x w, fst (f s x w) = w) -> forall s w, fst (foldM f l s w) = w.
Proof.
  intros Hf. induction l as [|x l IH]; intros s w; cbn [foldM]; [reflexivity|].
  apply bind_fst; [apply Hf | exact IH].
Qed.

Lemma save_flux2_fst (ds : Dataset) (name : string -> string) xs xs_14C s x w :
  fst (save_flux2 ds name xs xs_14C s x w) = w.
Proof. destruct x as [nr p]. reflexivity. Qed.

Lemma save_internal_fst (mdo : ModelDataObject) (ds : Dataset) Fs Fs_14C s x w :
  fst (save_internal mdo ds Fs Fs_14C s x w) = w.
Proof.
  destruct x as [pnr_from pn_from]. unfold save_internal.
  apply foldM_fst. intros s0 [pnr_to pn_to] w0. reflexivity.
Qed.

Lemma save_stock_calls (mdo : ModelDataObject) (ds : Dataset) (mr mr_14C : ModelRun)
    s x w w' r :
  save_stock mdo ds mr mr_14C s x w = (w', r) ->
  input w' = input w /\
  ((trace w' = (trace w ++ [CallSolve12C])%list /\ exists e, r = Raise e) \/
   trace w' = (trace w ++ [CallSolve12C; CallSolve14C])%list).
Proof.
  destruct x as [pool_nr pool_name]. unfold save_stock. rewrite solve_both_eq.
  cbv beta iota delta [bind ext lift ret input trace].
  destruct (solve mr) as [soln|e].
  2:{ intros H. injection H as <- <-. split; [reflexivity|]. left. eauto. }
  destruct (solve mr_14C) as [soln_14C|e]; intros H; injection H as <- _;
    (split; [reflexivity|]); right; rewrite <- app_assoc; reflexivity.
Qed.

Lemma save_stock_loop_calls (mdo : ModelDataObject) (ds : Dataset)
    (mr mr_14C : ModelRun) (l : list (nat * string)) :
  forall s w w' r,
    foldM (save_stock mdo ds mr mr_14C) l s w = (w', r) ->
    input w' = input w /\
    exists k tail,
      (k <= length l)%nat /\
      (tail = [] \/ tail = [CallSolve12C]) /\
      trace w' = (trace w ++ concat (repeat [CallSolve12C; CallSolve14C] k) ++ tail)%list /\
      (forall s', r = Ok s' -> k = length l /\ tail = []).
Proof.
  induction l as [|x l IH]; intros s w w' r H.
  - injection H as <- <-. split; [reflexivity|]. exists 0%nat, [].
    cbn. rewrite app_nil_r. auto.
  - cbn [foldM] in H. unfold bind in H.
    destruct (save_stock mdo ds mr mr_14C s x w) as [w1 [s1|e]] eqn:E.
    + destruct (save_stock_calls _ _ _ _ _ _ _ _ _ E) as [Hi [[_ [e He]]|T1]];
        [discriminate|].
      destruct (IH _ _ _ _ H) as [Hi' (k & tail & Hk & Htail & T2 & Hok)].
      split; [congruence|].
      exists (S k), tail. split; [cbn [length]; lia|]. split; [exact Htail|]. split.
      * rewrite T2, T1. cbn [repeat concat]. rewrite <- !app_assoc. reflexivity.
      * intros s' Hs'. destruct (Hok s' Hs') as [-> ->]. auto.
    + injection H as <- <-.
      destruct (save_stock_calls _ _ _ _ _ _ _ _ _ E) as [Hi [[T1 _]|T1]];
        (split; [exact Hi|]).
      * exists 0%nat, [CallSolve12C]. cbn [length repeat concat app].
        split; [lia|]. split; [auto|]. split; [exact T1 | discriminate].
      * exists 1%nat, []. cbn [length repeat concat app].
        split; [lia|]. split; [auto|]. split; [|discriminate].
        rewrite T1. reflexivity.
Qed.

(** X9.  The calls of [create_Delta_14C_dataset], however it ends: it asks
    the 12C run and then the 14C run for their solution, pool after pool, at
    most once for every pool, and makes no other call; when it returns, it
    has asked both runs exactly once for every pool.  The caller's dataset is
    not touched. *)
Theorem create_Delta_14C_dataset_solves_per_pool (mdo : ModelDataObject)
    (ds : Dataset) (mr mr_14C : ModelRun) (w w' : World) (r : result Dataset) :
  create_Delta_14C_dataset mdo ds mr mr_14C w = (w', r) ->
  input w' = input w /\
  exists k tail,
    (k <= length (pool_names (model_structure mdo)))%nat /\
    (tail = [] \/ tail = [CallSolve12C]) /\
    trace w' = (trace w ++ concat (repeat [CallSolve12C; CallSolve14C] k) ++ tail)%list /\
    (forall res, r = Ok res ->
                 k = length (pool_names (model_structure mdo)) /\ tail = []).
Proof.
  unfold create_Delta_14C_dataset. unfold bind at 1.
  destruct (foldM (save_stock mdo ds mr mr_14C) _ _ w) as [w1 [dv1|e]] eqn:E1.
  - destruct (save_stock_loop_calls _ _ _ _ _ _ _ _ _ E1)
      as [Hi (k & tail & Hk & Htail & T & Hok)].
    destruct (Hok dv1 eq_refl) as [-> ->]. rewrite length_enumerate in *.
    match goal with
    | |- ?c w1 = _ -> _ =>
        assert (Hp : fst (c w1) = w1);
        [|destruct (c w1) as [w2 r2]; cbn [fst] in Hp; subst w2;
          intros H; injection H as <- <-]
    end.
    { apply bind_fst; [apply lift_fst|]. intros us.
      apply bind_fst; [apply foldM_fst; intros; apply save_flux2_fst|]. intros dv2.
      apply bind_fst; [apply lift_fst|]. intros Fs.
      apply bind_fst; [apply foldM_fst; intros; apply save_internal_fst|]. intros dv3.
      apply bind_fst; [apply lift_fst|]. intros rs.
      apply bind_fst; [apply foldM_fst; intros; apply save_flux2_fst|]. intros dv4.
      apply lift_fst. }
    split; [exact Hi|].
    exists (length (pool_names (model_structure mdo))), []. auto.
  - intros H. injection H as <- <-.
    destruct (save_stock_loop_calls _ _ _ _ _ _ _ _ _ E1)
      as [Hi (k & tail & Hk & Htail & T & Hok)].
    rewrite length_enumerate in Hk.
    split; [exact Hi|]. exists k, tail.
    split; [exact Hk|]. split; [exact Htail|]. split; [exact T | discriminate].
Qed.

Lemma create_Delta_14C_dataset_solves_per_pool_witness :
  let mdo := {| model_structure := load_model_structure; dataset := ds_site;
                stock_unit := "gC/m2";
                time := {| v_data := arange_times 3; v_unit := "d" |} |} in
  let mr := dmr_run dmr_sample in
  let mr_14C := run_14C mr (const_row 6 alpha) (const_mat 2 6 alpha) in
  exists w' r,
    create_Delta_14C_dataset mdo ds_site mr mr_14C world0 = (w', r) /\
    input w' = input world0 /\
    exists k tail,
      (k <= length (pool_names (model_structure mdo)))%nat /\
      (tail = [] \/ tail = [CallSolve12C]) /\
      trace w'
      = (trace world0 ++ concat (repeat [CallSolve12C; CallSolve14C] k) ++ tail)%list /\
      (forall res, r = Ok res ->
                   k = length (pool_names (model_structure mdo)) /\ tail = []).
Proof.
  intros mdo mr mr_14C.
  destruct (create_Delta_14C_dataset mdo ds_site mr mr_14C world0) as [w' r] eqn:E.
  exists w', r. split; [reflexivity|].
  exact (create_Delta_14C_dataset_solves_per_pool mdo ds_site mr mr_14C world0 w' r E).
Defined.

(** ** Coordinates and attributes of the result *)

Lemma lookup_app {V} (k : string) (d1 d2 : dict V) :
  lookup k (d1 ++ d2)%list
  = match lookup k d1 with Some v => Some v | None => lookup k d2 end.
Proof.
  induction d1 as [|[k' v'] d1 IH]; simpl; [reflexivity|].
  destruct (String.eqb k k'); [reflexivity | exact IH].
Qed.

Lemma lookup_None_keys {V} (k : string) (d : dict V) :
  lookup k d = None <-> ~ In k (keys d).
Proof.
  rewrite lookup_In_keys. destruct (lookup k d) as [v|]; split.
  - discriminate.
  - intros H. exfalso. apply H. exists v. reflexivity.
  - intros _ [v H]. discriminate.
  - reflexivity.
Qed.

Lemma lookup_map_values {V W} (h : V -> W) (k : string) (d : dict V) :
  lookup k (map (fun kv => (fst kv, h (snd kv))) d) = option_map h (lookup k d).
Proof.
  induction d as [|[k' v'] d IH]; simpl; [reflexivity|].
  destruct (String.eqb k k'); [reflexivity | exact IH].
Qed.

Lemma new_Dataset_inv (dvs : dict DataArray) (cs : dict XVariable) (a : attrs)
    (res : Dataset) :
  new_Dataset dvs cs a = Ok res ->
  variables res = (map (fun kv => (fst kv, to_variable (snd kv))) dvs ++ cs)%list /\
  coord_names res = keys cs /\
  ds_attrs res = a /\
  forall k, In k (keys dvs) -> ~ In k (keys cs).
Proof.
  unfold new_Dataset. intros H.
  destruct (existsb _ _) eqn:E; [discriminate|].
  destruct (negb _); [discriminate|].
  injection H as <-. cbn [variables coord_names ds_attrs].
  repeat (split; [reflexivity|]).
  intros k Hk Hc.
  assert (existsb (fun k0 => mem k0 (keys cs)) (keys dvs) = true); [|congruence].
  apply existsb_exists. exists k. split; [exact Hk | apply mem_In; exact Hc].
Qed.

Lemma new_Dataset_data_var (dvs : dict DataArray) (cs : dict XVariable) (a : attrs)
    (res : Dataset) (k : string) (da : DataArray) :
  new_Dataset dvs cs a = Ok res ->
  lookup k dvs = Some da ->
  lookup k (variables res) = Some (to_variable da).
Proof.
  intros H Hl. destruct (new_Dataset_inv _ _ _ _ H) as [-> _].
  rewrite lookup_app.
  rewrite (lookup_map_values to_variable k dvs), Hl. reflexivity.
Qed.

Lemma new_Dataset_coord (dvs : dict DataArray) (cs : dict XVariable) (a : attrs)
    (res : Dataset) (k : string) (v : XVariable) :
  new_Dataset dvs cs a = Ok res ->
  lookup k cs = Some v ->
  lookup k (variables res) = Some v.
Proof.
  intros H Hl. destruct (new_Dataset_inv _ _ _ _ H) as [-> [_ [_ Hdis]]].
  rewrite lookup_app.
  replace (lookup k (map (fun kv => (fst kv, to_variable (snd kv))) dvs)) with (@None XVariable);
    [exact Hl|].
  symmetry. apply lookup_None_keys. unfold keys. rewrite map_map. cbn [fst].
  intros Hk. apply (Hdis k Hk). apply lookup_In_keys. exists v. exact Hl.
Qed.

(** X10.  The dataset [create_Delta_14C_dataset] returns has the attributes
    of the given dataset and exactly its coordinates: the coordinate names
    are those of the given dataset's coordinates, and under each of them the
    result holds the coordinate variable of the given dataset unchanged. *)
Theorem create_Delta_14C_dataset_keeps_coords (mdo : ModelDataObject)
    (ds : Dataset) (mr mr_14C : ModelRun) (w w' : World) (res : Dataset) :
  create_Delta_14C_dataset mdo ds mr mr_14C w = (w', Ok res) ->
  ds_attrs res = ds_attrs ds /\
  coord_names res = keys (coords_of ds) /\
  forall k v, lookup k (coords_of ds) = Some v -> lookup k (variables res) = Some v.
Proof.
  intros H.
  destruct (create_Delta_14C_dataset_inv _ _ _ _ _ _ _ H)
    as (w1 & dv1 & us & w2 & dv2 & Fs & w3 & dv3 & rs & dv4 &
        _ & _ & _ & _ & _ & _ & _ & E5).
  destruct (new_Dataset_inv _ _ _ _ E5) as [_ [Hc [Ha _]]].
  split; [exact Ha|]. split; [exact Hc|].
  intros k v Hl. exact (new_Dataset_coord _ _ _ _ k v E5 Hl).
Qed.

Lemma create_Delta_14C_dataset_keeps_coords_witness :
  let mdo := {| model_structure := load_model_structure; dataset := ds_site;
                stock_unit := "gC/m2";
                time := {| v_data := arange_times 3; v_unit := "d" |} |} in
  let mr := dmr_run dmr_sample in
  let mr_14C := run_14C mr (const_row 6 alpha) (const_mat 2 6 alpha) in
  exists w' res,
    create_Delta_14C_dataset mdo ds_site mr mr_14C world0 = (w', Ok res) /\
    ds_attrs res = [("title", "CARDAMOM")] /\
    coord_names res = ["ens"; "lat"; "lon"; "time"] /\
    forall k v, lookup k (coords_of ds_site) = Some v -> lookup k (variables res) = Some v.
Proof.
  intros mdo mr mr_14C.
  destruct (create_Delta_14C_dataset mdo ds_site mr mr_14C world0)
    as [w' [res|e]] eqn:E; [|exfalso; vm_compute in E; discriminate].
  exists w', res. split; [reflexivity|].
  exact (create_Delta_14C_dataset_keeps_coords mdo ds_site mr mr_14C world0 w' res E).
Defined.

(** ** The variables of the result *)

Lemma enumerate_nth {A} (l : list A) (i : nat) (a : A) :
  In (i, a) (enumerate l) -> nth_error l i = Some a.
Proof.
  unfold enumerate.
  assert (G : forall s, In (i, a) (combine (seq s (length l)) l) ->
                        (s <= i)%nat /\ nth_error l (i - s) = Some a).
  { induction l as [|b l IH]; intros s; simpl; [tauto|].
    intros [H|H].
    - injection H as <- <-. rewrite Nat.sub_diag. split; [lia | reflexivity].
    - destruct (IH (S s) H) as [H1 H2]. split; [lia|].
      replace (i - s)%nat with (S (i - S s)) by lia. exact H2. }
  intros H. destruct (G 0%nat H) as [_ H2]. rewrite Nat.sub_0_r in H2. exact H2.
Qed.

(** A property every step of a loop keeps is kept by the loop; a property
    one step establishes and every step keeps holds after the loop. *)
Lemma foldM_invariant {S X} (f : S -> X -> M S) (I : S -> Prop) (l : list X) :
  (forall s x w w' s', In x l -> f s x w = (w', Ok s') -> I s -> I s') ->
  forall s w w' s', foldM f l s w = (w', Ok s') -> I s -> I s'.
Proof.
  induction l as [|x l IH]; intros Hf s w w' s' H Hs.
  - injection H as _ <-. exact Hs.
  - cbn [foldM] in H. unfold bind in H.
    destruct (f s x w) as [w1 [s1|e]] eqn:E; [|discriminate].
    refine (IH _ _ _ _ _ H _).
    + intros s0 x0 w0 w0' s0' Hin. apply Hf. right. exact Hin.
    + exact (Hf _ _ _ _ _ (or_introl eq_refl) E Hs).
Qed.

Lemma foldM_establish {S X} (f : S -> X -> M S) (P : S -> Prop) (l : list X) (x0 : X) :
  In x0 l ->
  (forall s w w' s', f s x0 w = (w', Ok s') -> P s') ->
  (forall s x w w' s', In x l -> f s x w = (w', Ok s') -> P s -> P s') ->
  forall s w w' s', foldM f l s w = (w', Ok s') -> P s'.
Proof.
  induction l as [|x l IH]; intros Hin H0 Hf s w w' s' H; [contradiction|].
  cbn [foldM] in H. unfold bind in H.
  destruct (f s x w) as [w1 [s1|e]] eqn:E; [|discriminate].
  destruct Hin as [->|Hin].
  - refine (foldM_invariant f P l _ _ _ _ _ H (H0 _ _ _ _ E)).
    intros s0 x1 w0 w0' s0' Hin. apply Hf. right. exact Hin.
  - refine (IH Hin H0 _ _ _ _ _ H).
    intros s0 x1 w0 w0' s0' Hin'. apply Hf. right. exact Hin'.
Qed.

Lemma add_variable_inv (ds : Dataset) (dv dv' : dict DataArray) (name : string)
    (nv : BgcVariable vector) :
  add_variable ds dv name nv = Ok dv' ->
  (forall k, k <> name -> lookup k dv' = lookup k dv) /\
  (lookup name (variables ds) = None -> dv' = dv) /\
  (forall v, lookup name (variables ds) = Some v ->
             exists var,
               lookup name dv' = Some var /\
               data var = array1 (v_data nv) /\
               dims var = x_dims v /\
               lookup "units" (da_attrs var) = Some (v_unit nv)).
Proof.
  unfold add_variable. intros H.
  destruct (mem name (keys (variables ds))) eqn:Hm.
  - apply mem_In, lookup_In_keys in Hm. destruct Hm as [v Hv].
    unfold getitem in H. rewrite Hv in H |- *. cbn [rbind da_attrs coords dims] in H.
    unfold new_DataArray in H.
    destruct (negb (Nat.eqb _ _)); [discriminate|].
    destruct (negb (forallb _ _)); [discriminate|].
    destruct (negb (agree _ _)); [discriminate|].
    cbn [rbind] in H. injection H as <-. split; [|split].
    + intros k Hk. apply lookup_assign_other. exact Hk.
    + discriminate.
    + intros v' Hv'. injection Hv' as <-.
      eexists. split; [apply lookup_assign_same|]. cbn [data dims da_attrs].
      repeat (split; [reflexivity|]). apply lookup_assign_same.
  - apply mem_false_In in Hm. injection H as <-.
    split; [reflexivity|]. split; [reflexivity|].
    intros v Hv. exfalso. apply Hm. apply lookup_In_keys. exists v. exact Hv.
Qed.

Lemma save_stock_inv (mdo : ModelDataObject) (ds : Dataset) (mr mr_14C : ModelRun)
    (s s' : dict DataArray) (nr : nat) (name : string) (w w' : World) :
  save_stock mdo ds mr mr_14C s (nr, name) w = (w', Ok s') ->
  exists soln soln_14C C12 C14 D,
    solve mr = Ok soln /\ solve mr_14C = Ok soln_14C /\
    column nr soln = Ok C12 /\ column nr soln_14C = Ok C14 /\
    F_Delta_14C_arr C12 C14 = Ok D /\
    add_variable ds s name {| v_data := D; v_unit := stock_unit mdo |} = Ok s'.
Proof.
  unfold save_stock. rewrite solve_both_eq.
  cbv beta iota delta [bind ext lift ret input trace fst snd].
  destruct (solve mr) as [soln|e]; [|discriminate].
  destruct (solve mr_14C) as [soln_14C|e]; [|discriminate].
  destruct (column nr soln) as [C12|e] eqn:E1; [|discriminate]. cbn [rbind].
  destruct (column nr soln_14C) as [C14|e] eqn:E2; [|discriminate]. cbn [rbind].
  destruct (F_Delta_14C_arr C12 C14) as [D|e] eqn:E3; [|discriminate]. cbn [rbind].
  intros H. injection H as _ H.
  exists soln, soln_14C, C12, C14, D. auto 10.
Qed.

Lemma save_flux2_inv (ds : Dataset) (name : string -> string)
    (xs xs_14C : BgcVariable matrix) (s s' : dict DataArray) (nr : nat) (p : string)
    (w w' : World) :
  save_flux2 ds name xs xs_14C s (nr, p) w = (w', Ok s') ->
  exists C12 C14 D,
    column nr (v_data xs) = Ok C12 /\ column nr (v_data xs_14C) = Ok C14 /\
    F_Delta_14C_arr C12 C14 = Ok D /\
    add_variable ds s (name p) {| v_data := D; v_unit := v_unit xs |} = Ok s'.
Proof.
  unfold save_flux2, lift.
  destruct (column nr (v_data xs)) as [C12|e] eqn:E1; [|discriminate]. cbn [rbind].
  destruct (column nr (v_data xs_14C)) as [C14|e] eqn:E2; [|discriminate]. cbn [rbind].
  destruct (F_Delta_14C_arr C12 C14) as [D|e] eqn:E3; [|discriminate]. cbn [rbind].
  intros H. injection H as _ H.
  exists C12, C14, D. auto.
Qed.
Lemma flux_names_input (pools : list string) (p : string) :
  In p pools -> In ("NPP_to_" ++ p) (flux_names pools).
Proof.
  intros H. unfold flux_names. rewrite !in_app_iff. left.
  apply in_map_iff. exists p. auto.
Qed.

Lemma flux_names_internal (pools : list string) (pf pt : string) :
  In pf pools -> In pt pools -> In (pf ++ "_to_" ++ pt) (flux_names pools).
Proof.
  intros Hf Ht. unfold flux_names. rewrite !in_app_iff. right. left.
  apply in_flat_map. exists pf. split; [exact Hf|].
  apply in_map_iff. exists pt. auto.
Qed.

Lemma flux_names_output (pools : list string) (p : string) :
  In p pools -> In (p ++ "_to_RH") (flux_names pools).
Proof.
  intros H. unfold flux_names. rewrite !in_app_iff. right. right.
  apply in_map_iff. exists p. auto.
Qed.

Lemma enumerate_snd {A} (l : list A) (i : nat) (a : A) :
  In (i, a) (enumerate l) -> In a l.
Proof. intros H. apply enumerate_In. exists i. exact H. Qed.

Section ResultVariables.

Variables (mdo : ModelDataObject) (ds : Dataset) (mr mr_14C : ModelRun).

Let pools := pool_names (model_structure mdo).

Let has_stock (k : string) (dv : dict DataArray) : Prop :=
  exists da, lookup k dv = Some da /\ stock_like mdo ds mr mr_14C k (to_variable da).

Lemma save_stock_has_stock s x w w' s' (k : string) (v : XVariable) :
  In x (enumerate pools) ->
  lookup k (variables ds) = Some v ->
  save_stock mdo ds mr mr_14C s x w = (w', Ok s') ->
  (snd x = k \/ has_stock k s) -> has_stock k s'.
Proof.
  destruct x as [nr name]. cbn [snd]. intros Hin Hv H Hk.
  destruct (save_stock_inv _ _ _ _ _ _ _ _ _ _ H)
    as (soln & soln_14C & C12 & C14 & D & S1 & S2 & E1 & E2 & E3 & Ha).
  destruct (add_variable_inv _ _ _ _ _ Ha) as [Hother [_ Hnew]].
  destruct (string_dec name k) as [->|Hne].
  - destruct (Hnew v Hv) as [var [Hl [Hd [Hdim Hu]]]].
    exists var. split; [exact Hl|].
    exists nr, soln, soln_14C, C12, C14, D, v.
    split; [exact (enumerate_nth _ _ _ Hin)|].
    repeat (split; [assumption|]). cbn [to_variable x_data x_dims x_attrs].
    auto.
  - destruct Hk as [Hk|[da [Hl Hs]]]; [contradiction|].
    exists da. split; [|exact Hs]. rewrite Hother; [exact Hl|].
    intros ->. apply Hne. reflexivity.
Qed.

Lemma save_flux2_frame (name : string -> string) xs xs_14C s x w w' s' (k : string) :
  save_flux2 ds name xs xs_14C s x w = (w', Ok s') ->
  k <> name (snd x) -> lookup k s' = lookup k s.
Proof.
  destruct x as [nr p]. cbn [snd]. intros H Hk.
  destruct (save_flux2_inv _ _ _ _ _ _ _ _ _ _ H) as (C12 & C14 & D & _ & _ & _ & Ha).
  destruct (add_variable_inv _ _ _ _ _ Ha) as [Hother _]. exact (Hother k Hk).
Qed.

Lemma save_internal_frame Fs Fs_14C s x w w' s' (k : string) :
  save_internal mdo ds Fs Fs_14C s x w = (w', Ok s') ->
  (forall pt, In pt pools -> k <> snd x ++ "_to_" ++ pt) ->
  lookup k s' = lookup k s.
Proof.
  destruct x as [pnr_from pn_from]. cbn [snd]. unfold save_internal. intros H Hk.
  refine (foldM_invariant _ (fun s0 => lookup k s0 = lookup k s) _ _ _ _ _ _ H eq_refl).
  intros s0 [pnr_to pn_to] w0 w0' s0' Hin H0 Hs0. unfold lift in H0.
  destruct (column3 pnr_to pnr_from (v_data Fs)) as [C12|e]; [|discriminate].
  cbn [rbind] in H0.
  destruct (column3 pnr_to pnr_from (v_data Fs_14C)) as [C14|e]; [|discriminate].
  cbn [rbind] in H0.
  destruct (F_Delta_14C_arr C12 C14) as [D|e]; [|discriminate]. cbn [rbind] in H0.
  injection H0 as _ Ha.
  destruct (add_variable_inv _ _ _ _ _ Ha) as [Hother _].
  rewrite Hother; [exact Hs0|]. apply Hk. exact (enumerate_snd _ _ _ Hin).
Qed.

Lemma stock_after_stocks w w1 dv1 (name : string) (v : XVariable) :
  foldM (save_stock mdo ds mr mr_14C) (enumerate pools) [] w = (w1, Ok dv1) ->
  In name pools ->
  lookup name (variables ds) = Some v ->
  has_stock name dv1.
Proof.
  intros E1 Hin Hv. apply enumerate_In in Hin. destruct Hin as [i Hi].
  refine (foldM_establish _ (has_stock name) _ (i, name) Hi _ _ _ _ _ _ E1).
  - intros s w0 w0' s' H.
    exact (save_stock_has_stock _ _ _ _ _ name v Hi Hv H (or_introl eq_refl)).
  - intros s x w0 w0' s' Hx H Hs.
    exact (save_stock_has_stock _ _ _ _ _ name v Hx Hv H (or_intror Hs)).
Qed.

End ResultVariables.

(** X11.  The stock variables of the result.  When
    [create_Delta_14C_dataset] returns, every pool whose name is a variable
    of the given dataset, and is not also the name of a flux, names a
    variable of the result that holds the diagnostic [F_Delta_14C] of that
    pool's column in the solutions of the two runs, lies on the dimensions of
    the dataset's variable, and carries the stock unit of the model data
    object under [units]. *)
Theorem create_Delta_14C_dataset_stock_variables (mdo : ModelDataObject)
    (ds : Dataset) (mr mr_14C : ModelRun) (w w' : World) (res : Dataset)
    (name : string) (v : XVariable) :
  create_Delta_14C_dataset mdo ds mr mr_14C w = (w', Ok res) ->
  In name (pool_names (model_structure mdo)) ->
  ~ In name (flux_names (pool_names (model_structure mdo))) ->
  lookup name (variables ds) = Some v ->
  exists v',
    lookup name (variables res) = Some v' /\
    stock_like mdo ds mr mr_14C name v'.
Proof.
  intros H Hin Hnf Hv.
  destruct (create_Delta_14C_dataset_inv _ _ _ _ _ _ _ H)
    as (w1 & dv1 & us & w2 & dv2 & Fs & w3 & dv3 & rs & dv4 &
        E1 & _ & E2 & _ & E3 & _ & E4 & E5).
  destruct (stock_after_stocks mdo ds mr mr_14C _ _ _ name v E1 Hin Hv) as [da [Hl Hs]].
  exists (to_variable da). split; [|exact Hs].
  apply (new_Dataset_data_var _ _ _ _ name da E5).
  rewrite <- Hl.
  transitivity (lookup name dv3).
  { refine (foldM_invariant _ (fun s0 => lookup name s0 = lookup name dv3) _ _ _ _ _ _
              E4 eq_refl).
    intros s [nr p] w0 w0' s' Hx Hstep Hs0. rewrite <- Hs0.
    apply (save_flux2_frame ds _ _ _ _ _ _ _ _ name Hstep). cbn [snd].
    intros ->. apply Hnf. apply flux_names_output. exact (enumerate_snd _ _ _ Hx). }
  transitivity (lookup name dv2).
  { refine (foldM_invariant _ (fun s0 => lookup name s0 = lookup name dv2) _ _ _ _ _ _
              E3 eq_refl).
    intros s [nr p] w0 w0' s' Hx Hstep Hs0. rewrite <- Hs0.
    apply (save_internal_frame mdo ds _ _ _ _ _ _ _ name Hstep). cbn [snd].
    intros pt Hpt ->. apply Hnf.
    apply flux_names_internal; [exact (enumerate_snd _ _ _ Hx) | exact Hpt]. }
  refine (foldM_invariant _ (fun s0 => lookup name s0 = lookup name dv1) _ _ _ _ _ _
            E2 eq_refl).
  intros s [nr p] w0 w0' s' Hx Hstep Hs0. rewrite <- Hs0.
  apply (save_flux2_frame ds _ _ _ _ _ _ _ _ name Hstep). cbn [snd].
  intros ->. apply Hnf. apply flux_names_input. exact (enumerate_snd _ _ _ Hx).
Qed.

Lemma create_Delta_14C_dataset_stock_variables_witness :
  let mdo := {| model_structure := load_model_structure; dataset := ds_site;
                stock_unit := "gC/m2";
                time := {| v_data := arange_times 3; v_unit := "d" |} |} in
  let mr := dmr_run dmr_sample in
  let mr_14C := run_14C mr (const_row 6 alpha) (const_mat 2 6 alpha) in
  exists w' res v',
    create_Delta_14C_dataset mdo ds_site mr mr_14C world0 = (w', Ok res) /\
    lookup "Soil" (variables res) = Some v' /\
    stock_like mdo ds_site mr mr_14C "Soil" v'.
Proof.
  intros mdo mr mr_14C.
  destruct (create_Delta_14C_dataset mdo ds_site mr mr_14C world0)
    as [w' [res|e]] eqn:E; [|exfalso; vm_compute in E; discriminate].
  destruct (create_Delta_14C_dataset_stock_variables mdo ds_site mr mr_14C world0 w' res
              "Soil" (series 500) E) as [v' Hv'].
  - cbn. tauto.
  - intros H. cbv in H. repeat (destruct H as [H|H]; [discriminate|]). exact H.
  - reflexivity.
  - exists w', res, v'. split; [reflexivity | exact Hv'].
Defined.

Lemma nan_div_days : (F64.nan / days_per_month)%f64 = F64.nan.
Proof. vm_compute. reflexivity. Qed.

Lemma daily_nan_row (n : nat) :
  map (fun x => (x / days_per_month)%f64) (nan_row n) = nan_row n.
Proof. unfold nan_row. rewrite map_repeat, nan_div_days. reflexivity. Qed.

Lemma daily2_inv (mdo : ModelDataObject) (mr mr_14C : ModelRun)
    (flux : ModelRun -> matrix) (xs : BgcVariable matrix * BgcVariable matrix) :
  daily2 mdo mr mr_14C flux = Ok xs ->
  v_unit (fst xs) = "g/d" /\
  (exists rows,
      v_data (fst xs) = nan_row (length (pool_names (model_structure mdo))) :: rows) /\
  (exists rows,
      v_data (snd xs) = nan_row (length (pool_names (model_structure mdo))) :: rows).
Proof.
  unfold daily2, monthly2, nan_first.
  destruct (forallb _ _); [|discriminate]. cbn [rbind].
  destruct (forallb _ _); [|discriminate]. cbn [rbind].
  unfold convert. cbn [v_unit v_data].
  replace (String.eqb unit_monthly unit_monthly && String.eqb "g/d" "g/d") with true
    by reflexivity.
  cbn [rbind]. intros H. injection H as <-. cbn [fst snd v_unit v_data].
  unfold over2. cbn [map]. rewrite daily_nan_row.
  split; [reflexivity|]. split; eexists; reflexivity.
Qed.

Lemma daily3_inv (mdo : ModelDataObject) (mr mr_14C : ModelRun)
    (Fs : BgcVariable (list matrix) * BgcVariable (list matrix)) :
  daily3 mdo mr mr_14C = Ok Fs ->
  v_unit (fst Fs) = "g/d" /\
  (exists mats,
      v_data (fst Fs) = nan_mat (length (pool_names (model_structure mdo))) :: mats) /\
  (exists mats,
      v_data (snd Fs) = nan_mat (length (pool_names (model_structure mdo))) :: mats).
Proof.
  unfold daily3, monthly3, nan_first3.
  destruct (forallb _ _); [|discriminate]. cbn [rbind].
  destruct (forallb _ _); [|discriminate]. cbn [rbind].
  unfold convert. cbn [v_unit v_data].
  replace (String.eqb unit_monthly unit_monthly && String.eqb "g/d" "g/d") with true
    by reflexivity.
  cbn [rbind]. intros H. injection H as <-. cbn [fst snd v_unit v_data].
  unfold over3, over2. cbn [map].
  replace (map (map (fun x => (x / days_per_month)%f64))
               (nan_mat (length (pool_names (model_structure mdo)))))
    with (nan_mat (length (pool_names (model_structure mdo)))).
  2:{ unfold nan_mat. rewrite map_repeat, daily_nan_row. reflexivity. }
  split; [reflexivity|]. split; eexists; reflexivity.
Qed.

Lemma column_nan_head (nr n : nat) (rows : matrix) (C : vector) :
  column nr (nan_row n :: rows) = Ok C -> exists rest, C = F64.nan :: rest.
Proof.
  unfold column. cbn [mapR].
  match goal with
  | |- context [@nth_error ?T (nan_row n) nr] =>
      destruct (@nth_error T (nan_row n) nr) as [x|] eqn:E; [|discriminate]
  end.
  apply nth_error_In, repeat_spec in E. subst x. cbn [rbind].
  match goal with |- context [mapR ?g rows] => destruct (mapR g rows) as [cs|e] end; [|discriminate]. cbn [rbind].
  intros H. injection H as <-. eexists. reflexivity.
Qed.

Lemma column3_nan_head (i j n : nat) (mats : list matrix) (C : vector) :
  column3 i j (nan_mat n :: mats) = Ok C -> exists rest, C = F64.nan :: rest.
Proof.
  unfold column3. cbn [mapR].
  match goal with
  | |- context [@nth_error ?T (nan_mat n) i] =>
      destruct (@nth_error T (nan_mat n) i) as [row|] eqn:E; [|discriminate]
  end.
  apply nth_error_In, repeat_spec in E. subst row.
  match goal with
  | |- context [@nth_error ?T (nan_row n) j] =>
      destruct (@nth_error T (nan_row n) j) as [x|] eqn:E; [|discriminate]
  end.
  apply nth_error_In, repeat_spec in E. subst x. cbn [rbind].
  match goal with |- context [mapR ?g mats] => destruct (mapR g mats) as [cs|e] end; [|discriminate]. cbn [rbind].
  intros H. injection H as <-. eexists. reflexivity.
Qed.

Lemma vec_op_head (f : float -> float -> float) (x y : float) (xs ys D : vector) :
  vec_op f (x :: xs) (y :: ys) = Ok D -> exists rest, D = f x y :: rest.
Proof.
  unfold vec_op, broadcastR.
  destruct (Nat.eqb _ _).
  - cbn [zipWithR rbind].
    match goal with |- context [zipWithR ?g xs ys] => destruct (zipWithR g xs ys) as [cs|e] end; [|discriminate]. cbn [rbind].
    intros H. injection H as <-. eexists. reflexivity.
  - destruct xs as [|x' xs].
    + cbn [mapR rbind]. match goal with |- context [mapR ?g ys] => destruct (mapR g ys) as [cs|e] end; [|discriminate]. cbn [rbind].
      intros H. injection H as <-. eexists. reflexivity.
    + destruct ys as [|y' ys]; [|discriminate].
      cbn [mapR rbind]. match goal with |- context [mapR ?g xs] => destruct (mapR g xs) as [cs|e] end; [|discriminate]. cbn [rbind].
      intros H. injection H as <-. eexists. reflexivity.
Qed.

Lemma F_Delta_14C_arr_nan_head (xs ys D : vector) :
  F_Delta_14C_arr (F64.nan :: xs) ys = Ok D ->
  ys <> [] ->
  exists rest, D = F64.nan :: rest.
Proof.
  destruct ys as [|y ys]; [congruence|]. intros H _.
  destruct (vec_op_head _ _ _ _ _ _ H) as [rest ->].
  exists rest. rewrite F_Delta_14C_nan_C12; reflexivity.
Qed.
Section FluxVariables.

Variables (mdo : ModelDataObject) (ds : Dataset).

Let pools := pool_names (model_structure mdo).

Let has_flux (k : string) (dv : dict DataArray) : Prop :=
  exists da, lookup k dv = Some da /\ flux_like (to_variable da).

Lemma add_variable_has_flux (dv dv' : dict DataArray) (name : string) (rest : vector) :
  add_variable ds dv name {| v_data := F64.nan :: rest; v_unit := "g/d" |} = Ok dv' ->
  (forall k, has_flux k dv -> has_flux k dv') /\
  (In name (keys (variables ds)) -> has_flux name dv').
Proof.
  intros Ha. destruct (add_variable_inv _ _ _ _ _ Ha) as [Hother [Hnone Hnew]].
  assert (Hk : In name (keys (variables ds)) -> has_flux name dv').
  { intros Hin. apply lookup_In_keys in Hin. destruct Hin as [v Hv].
    destruct (Hnew v Hv) as [var [Hl [Hd [_ Hu]]]].
    exists var. split; [exact Hl|]. split; [exact Hu|].
    exists rest. exact Hd. }
  split; [|exact Hk].
  intros k [da [Hl Hf]]. destruct (string_dec k name) as [->|Hne].
  - destruct (lookup name (variables ds)) as [v|] eqn:Hv.
    + apply Hk. apply lookup_In_keys. exists v. exact Hv.
    + rewrite (Hnone eq_refl). exists da. auto.
  - exists da. split; [|exact Hf]. rewrite (Hother k Hne). exact Hl.
Qed.

Lemma save_flux2_has_flux (name : string -> string) (xs xs_14C : BgcVariable matrix)
    (n : nat) s x w w' s' :
  v_unit xs = "g/d" ->
  (exists rows, v_data xs = nan_row n :: rows) ->
  (exists rows, v_data xs_14C = nan_row n :: rows) ->
  save_flux2 ds name xs xs_14C s x w = (w', Ok s') ->
  (forall k, has_flux k s -> has_flux k s') /\
  (In (name (snd x)) (keys (variables ds)) -> has_flux (name (snd x)) s').
Proof.
  destruct x as [nr p]. cbn [snd]. intros Hu [rows Hr] [rows' Hr'] H.
  destruct (save_flux2_inv _ _ _ _ _ _ _ _ _ _ H) as (C12 & C14 & D & E1 & E2 & E3 & Ha).
  rewrite Hr in E1. rewrite Hr' in E2.
  destruct (column_nan_head _ _ _ _ E1) as [r1 ->].
  destruct (column_nan_head _ _ _ _ E2) as [r2 ->].
  destruct (F_Delta_14C_arr_nan_head _ _ _ E3 ltac:(discriminate)) as [rest ->].
  rewrite Hu in Ha. exact (add_variable_has_flux _ _ _ _ Ha).
Qed.

Lemma save_internal_has_flux (Fs Fs_14C : BgcVariable (list matrix)) (n : nat)
    s x w w' s' :
  v_unit Fs = "g/d" ->
  (exists mats, v_data Fs = nan_mat n :: mats) ->
  (exists mats, v_data Fs_14C = nan_mat n :: mats) ->
  save_internal mdo ds Fs Fs_14C s x w = (w', Ok s') ->
  (forall k, has_flux k s -> has_flux k s') /\
  (forall pt, In pt pools ->
              In (snd x ++ "_to_" ++ pt) (keys (variables ds)) ->
              has_flux (snd x ++ "_to_" ++ pt) s').
Proof.
  destruct x as [pnr_from pn_from]. cbn [snd]. intros Hu [mats Hm] [mats' Hm'].
  unfold save_internal. intros H.
  assert (Hstep :
    forall s0 (x : nat * string) w0 w0' s0',
      (let '(pnr_to, pn_to) := x in
       lift (C12 <- column3 pnr_to pnr_from (v_data Fs) ;;
             C14 <- column3 pnr_to pnr_from (v_data Fs_14C) ;;
             D <- F_Delta_14C_arr C12 C14 ;;
             add_variable ds s0 (pn_from ++ "_to_" ++ pn_to)
               {| v_data := D; v_unit := v_unit Fs |})%res) w0 = (w0', Ok s0') ->
      (forall k, has_flux k s0 -> has_flux k s0') /\
      (In (pn_from ++ "_to_" ++ snd x) (keys (variables ds)) ->
       has_flux (pn_from ++ "_to_" ++ snd x) s0')).
  { intros s0 [pnr_to pn_to] w0 w0' s0'. unfold lift. cbn [snd].
    rewrite Hm, Hm'.
    destruct (column3 pnr_to pnr_from (nan_mat n :: mats)) as [C12|e] eqn:E1;
      [|discriminate].
    cbn [rbind].
    destruct (column3 pnr_to pnr_from (nan_mat n :: mats')) as [C14|e] eqn:E2;
      [|discriminate].
    cbn [rbind].
    destruct (F_Delta_14C_arr C12 C14) as [D|e] eqn:E3; [|discriminate]. cbn [rbind].
    intros H0. injection H0 as _ Ha.
    destruct (column3_nan_head _ _ _ _ _ E1) as [r1 ->].
    destruct (column3_nan_head _ _ _ _ _ E2) as [r2 ->].
    destruct (F_Delta_14C_arr_nan_head _ _ _ E3 ltac:(discriminate)) as [rest ->].
    rewrite Hu in Ha. exact (add_variable_has_flux _ _ _ _ Ha). }
  split.
  - intros k Hk.
    refine (foldM_invariant _ (has_flux k) _ _ _ _ _ _ H Hk).
    intros s0 x0 w0 w0' s0' _ H0. exact (proj1 (Hstep s0 x0 w0 w0' s0' H0) k).
  - intros pt Hpt Hin. apply enumerate_In in Hpt. destruct Hpt as [i Hi].
    refine (foldM_establish _ (has_flux (pn_from ++ "_to_" ++ pt)) _ (i, pt) Hi _ _
              _ _ _ _ H).
    + intros s0 w0 w0' s0' H0. exact (proj2 (Hstep s0 (i, pt) w0 w0' s0' H0) Hin).
    + intros s0 x0 w0 w0' s0' _ H0. exact (proj1 (Hstep s0 x0 w0 w0' s0' H0) _).
Qed.

End FluxVariables.

(** X12.  The flux variables of the result.  When
    [create_Delta_14C_dataset] returns, every flux name it offers
    ([NPP_to_<pool>], [<pool>_to_<pool>], [<pool>_to_RH]) that names a
    variable of the given dataset names a variable of the result which
    carries [g/d] under [units] and whose series begins with a missing value:
    there is no flux before the first time step.  The daily rates are those
    of [convert]. *)
Theorem create_Delta_14C_dataset_flux_variables (mdo : ModelDataObject)
    (ds : Dataset) (mr mr_14C : ModelRun) (w w' : World) (res : Dataset)
    (name : string) :
  create_Delta_14C_dataset mdo ds mr mr_14C w = (w', Ok res) ->
  In name (flux_names (pool_names (model_structure mdo))) ->
  In name (keys (variables ds)) ->
  exists v', lookup name (variables res) = Some v' /\ flux_like v'.
Proof.
  intros H Hin Hk.
  destruct (create_Delta_14C_dataset_inv _ _ _ _ _ _ _ H)
    as (w1 & dv1 & us & w2 & dv2 & Fs & w3 & dv3 & rs & dv4 &
        E1 & D1 & E2 & D2 & E3 & D3 & E4 & E5).
  destruct (daily2_inv _ _ _ _ _ D1) as [U1 [R1 R1']].
  destruct (daily3_inv _ _ _ _ D2) as [U2 [R2 R2']].
  destruct (daily2_inv _ _ _ _ _ D3) as [U3 [R3 R3']].
  pose (P := fun dv : dict DataArray =>
               exists da, lookup name dv = Some da /\ flux_like (to_variable da)).
  assert (K2 : forall s x w0 w0' s',
             save_flux2 ds (fun pool_name => "NPP_to_" ++ pool_name) (fst us) (snd us)
                        s x w0 = (w0', Ok s') ->
             (P s -> P s') /\
             (name = "NPP_to_" ++ snd x -> P s')).
  { intros s x w0 w0' s' H0.
    destruct (save_flux2_has_flux ds _ _ _ _ _ _ _ _ _ U1 R1 R1' H0) as [Ha Hb].
    split; [exact (Ha name)|]. intros ->. apply Hb. exact Hk. }
  assert (K3 : forall s x w0 w0' s',
             save_internal mdo ds (fst Fs) (snd Fs) s x w0 = (w0', Ok s') ->
             (P s -> P s') /\
             (forall pt, In pt (pool_names (model_structure mdo)) ->
                         name = snd x ++ "_to_" ++ pt -> P s')).
  { intros s x w0 w0' s' H0.
    destruct (save_internal_has_flux mdo ds _ _ _ _ _ _ _ _ U2 R2 R2' H0) as [Ha Hb].
    split; [exact (Ha name)|]. intros pt Hpt ->. apply (Hb pt Hpt). exact Hk. }
  assert (K4 : forall s x w0 w0' s',
             save_flux2 ds (fun pool_name => pool_name ++ "_to_RH") (fst rs) (snd rs)
                        s x w0 = (w0', Ok s') ->
             (P s -> P s') /\
             (name = snd x ++ "_to_RH" -> P s')).
  { intros s x w0 w0' s' H0.
    destruct (save_flux2_has_flux ds _ _ _ _ _ _ _ _ _ U3 R3 R3' H0) as [Ha Hb].
    split; [exact (Ha name)|]. intros ->. apply Hb. exact Hk. }
  assert (P3 : P dv2 -> P dv3).
  { refine (foldM_invariant _ P _ _ _ _ _ _ E3).
    intros s x w0 w0' s' _ H0. exact (proj1 (K3 _ _ _ _ _ H0)). }
  assert (P4 : P dv3 -> P dv4).
  { refine (foldM_invariant _ P _ _ _ _ _ _ E4).
    intros s x w0 w0' s' _ H0. exact (proj1 (K4 _ _ _ _ _ H0)). }
  assert (HP : P dv4).
  { unfold flux_names in Hin. rewrite !in_app_iff in Hin.
    destruct Hin as [Hin|[Hin|Hin]].
    - apply in_map_iff in Hin. destruct Hin as [p [Hn Hp]].
      apply enumerate_In in Hp. destruct Hp as [i Hi].
      apply P4, P3.
      refine (foldM_establish _ P _ (i, p) Hi _ _ _ _ _ _ E2).
      + intros s w0 w0' s' H0. apply (proj2 (K2 _ _ _ _ _ H0)). symmetry. exact Hn.
      + intros s x w0 w0' s' _ H0. exact (proj1 (K2 _ _ _ _ _ H0)).
    - apply in_flat_map in Hin. destruct Hin as [pf [Hpf Hin]].
      apply in_map_iff in Hin. destruct Hin as [pt [Hn Hpt]].
      apply enumerate_In in Hpf. destruct Hpf as [i Hi].
      apply P4.
      refine (foldM_establish _ P _ (i, pf) Hi _ _ _ _ _ _ E3).
      + intros s w0 w0' s' H0. apply (proj2 (K3 _ _ _ _ _ H0) pt Hpt).
        symmetry. exact Hn.
      + intros s x w0 w0' s' _ H0. exact (proj1 (K3 _ _ _ _ _ H0)).
    - apply in_map_iff in Hin. destruct Hin as [p [Hn Hp]].
      apply enumerate_In in Hp. destruct Hp as [i Hi].
      refine (foldM_establish _ P _ (i, p) Hi _ _ _ _ _ _ E4).
      + intros s w0 w0' s' H0. apply (proj2 (K4 _ _ _ _ _ H0)). symmetry. exact Hn.
      + intros s x w0 w0' s' _ H0. exact (proj1 (K4 _ _ _ _ _ H0)). }
  destruct HP as [da [Hl Hf]].
  exists (to_variable da). split; [|exact Hf].
  exact (new_Dataset_data_var _ _ _ _ name da E5 Hl).
Qed.

Lemma create_Delta_14C_dataset_flux_variables_witness :
  let mdo := {| model_structure := load_model_structure; dataset := ds_site;
                stock_unit := "gC/m2";
                time := {| v_data := arange_times 3; v_unit := "d" |} |} in
  let mr := dmr_run dmr_sample in
  let mr_14C := run_14C mr (const_row 6 alpha) (const_mat 2 6 alpha) in
  exists w' res v',
    create_Delta_14C_dataset mdo ds_site mr mr_14C world0 = (w', Ok res) /\
    lookup "Leaf_to_Litter" (variables res) = Some v' /\
    flux_like v'.
Proof.
  intros mdo mr mr_14C.
  destruct (create_Delta_14C_dataset mdo ds_site mr mr_14C world0)
    as [w' [res|e]] eqn:E; [|exfalso; vm_compute in E; discriminate].
  destruct (create_Delta_14C_dataset_flux_variables mdo ds_site mr mr_14C world0 w' res
              "Leaf_to_Litter" E) as [v' Hv'].
  - cbv. tauto.
  - cbv. tauto.
  - exists w', res, v'. split; [reflexivity | exact Hv'].
Defined.

(** ** The dataset [load_Delta_14C_dataset] returns *)

Lemma load_Delta_14C_dataset_inv (env : Env) (method : string) (w w' : World)
    (res : Dataset) :
  load_Delta_14C_dataset env method w = (w', Ok (NewObject res)) ->
  exists d log,
    variables res = assign "log" (scalar_var (scalar_str log) []) (variables d) /\
    coord_names res = coord_names d /\
    ds_attrs res = ds_attrs d /\
    ((try_body env (input w) method w = (w', Ok d) /\ log = "") \/
     (exists msg,
         try_body env (input w) method w = (w', Raise (DMRError msg)) /\
         handler (input w) = Ok d /\ log = msg)).
Proof.
  unfold load_Delta_14C_dataset.
  unfold bind at 1. unfold get_input at 1.
  destruct (negb (mem method ["discrete"; "continuous"])); [discriminate|].
  unfold bind at 1. unfold lift at 1.
  destruct (getattr (input w) "ens") as [ens|e]; [|discriminate].
  destruct (list_eq_dec Nat.eq_dec (shape (data ens)) [0%nat]) as [He|_].
  { cbv beta iota delta [bind setitem_input ret].
    destruct (setitem (input w) "max_abs_err" empty_var) as [d1|e]; [|discriminate].
    cbn [input].
    destruct (setitem d1 "max_rel_err" empty_var) as [d2|e]; [|discriminate].
    cbn [input].
    destruct (setitem d2 "log" empty_log) as [d3|e]; discriminate. }
  unfold bind at 1. unfold try_except_DMRError. unfold bind at 1.
  destruct (try_body env (input w) method w) as [w1 [d|e]] eqn:Et.
  - cbv beta iota delta [ret bind lift]. rewrite setitem_scalar.
    intros H. injection H as <- <-.
    exists d, "". cbn [variables coord_names ds_attrs]. auto 10.
  - destruct e as [m|m|m|m|m|m|m|m]; try discriminate.
    cbv beta iota delta [ret bind lift str].
    destruct (handler (input w)) as [d|e] eqn:Eh; [|discriminate].
    rewrite setitem_scalar. intros H. injection H as <- <-.
    exists d, m. cbn [variables coord_names ds_attrs].
    repeat (split; [reflexivity|]). right. exists m. auto.
Qed.


Lemma err_var_scalar (err : BgcVariable matrix) (long_name : string) (v : XVariable) :
  err_var err long_name = Ok v ->
  exists m, v = scalar_var (scalar_float m)
                  [("units", v_unit err); ("long_name", long_name)].
Proof.
  unfold err_var. destruct (np_max _) as [m|e]; [|discriminate]. cbn [rbind].
  intros H. injection H as <-. exists m. reflexivity.
Qed.

Lemma try_body_inv (env : Env) (ds : Dataset) (method : string) (w w' : World)
    (d : Dataset) :
  try_body env ds method w = (w', Ok d) ->
  exists mdo mr mr_14C (abs_err rel_err : BgcVariable matrix) w2 d0 m_abs m_rel,
    load_mdo ds = Ok mdo /\
    create_Delta_14C_dataset mdo ds mr mr_14C w2 = (w', Ok d0) /\
    variables d
    = assign "max_rel_err"
        (scalar_var (scalar_float m_rel)
           [("units", v_unit rel_err);
            ("long_name", "max. rel. error on reconstructed stock sizes")])
        (assign "max_abs_err"
           (scalar_var (scalar_float m_abs)
              [("units", v_unit abs_err);
               ("long_name", "max. abs. error on reconstructed stock sizes")])
           (variables d0)) /\
    coord_names d = coord_names d0 /\
    ds_attrs d = ds_attrs d0.
Proof.
  unfold try_body. unfold bind at 1. unfold lift at 1.
  destruct (load_mdo ds) as [mdo|e] eqn:E0; [|discriminate].
  unfold bind at 1.
  match goal with
  | |- (match ?c with _ => _ end) = _ -> _ =>
      destruct c as [w2 [[[[mr mr_14C] abs_err] rel_err]|e]]; [|discriminate]
  end.
  unfold bind at 1.
  destruct (create_Delta_14C_dataset mdo ds mr mr_14C w2) as [w3 [d0|e]] eqn:E1;
    [|discriminate].
  cbv beta iota delta [bind lift].
  destruct (err_var abs_err _) as [va|e] eqn:Ea; [|discriminate].
  destruct (err_var_scalar _ _ _ Ea) as [m_abs ->]. rewrite setitem_scalar.
  destruct (err_var rel_err _) as [vr|e] eqn:Er; [|discriminate].
  destruct (err_var_scalar _ _ _ Er) as [m_rel ->]. rewrite setitem_scalar.
  intros H. injection H as <- <-.
  exists mdo, mr, mr_14C, abs_err, rel_err, w2, d0, m_abs, m_rel.
  cbn [variables coord_names ds_attrs]. auto 10.
Qed.

(** X14.  Every new dataset [load_Delta_14C_dataset] returns carries the
    three bookkeeping variables, each without dimensions: [log], a string,
    and [max_abs_err] and [max_rel_err], floats.  Either the [try] block has
    succeeded and [log] is empty, or it has raised a [DMRError], [log] is its
    message and both errors are NaN. *)
Theorem load_Delta_14C_dataset_bookkeeping (env : Env) (method : string)
    (w w' : World) (res : Dataset) :
  load_Delta_14C_dataset env method w = (w', Ok (NewObject res)) ->
  exists log m_abs a_abs m_rel a_rel,
    lookup "log" (variables res) = Some (scalar_var (scalar_str log) []) /\
    lookup "max_abs_err" (variables res) = Some (scalar_var (scalar_float m_abs) a_abs) /\
    lookup "max_rel_err" (variables res) = Some (scalar_var (scalar_float m_rel) a_rel) /\
    ((log = "" /\ exists d, try_body env (input w) method w = (w', Ok d)) \/
     (try_body env (input w) method w = (w', Raise (DMRError log)) /\
      m_abs = F64.nan /\ m_rel = F64.nan)).
Proof.
  intros H.
  destruct (load_Delta_14C_dataset_inv _ _ _ _ _ H)
    as (d & log & Hv & _ & _ & [[Ht ->]|[msg [Ht [Hh ->]]]]).
  - destruct (try_body_inv _ _ _ _ _ _ Ht)
      as (mdo & mr & mr_14C & abs_err & rel_err & w2 & d0 & m_abs & m_rel &
          _ & _ & Hd & _).
    exists "", m_abs, [("units", v_unit abs_err);
                       ("long_name", "max. abs. error on reconstructed stock sizes")],
      m_rel, [("units", v_unit rel_err);
              ("long_name", "max. rel. error on reconstructed stock sizes")].
    rewrite Hv, Hd.
    split; [apply lookup_assign_same|].
    split; [rewrite !lookup_assign_other by discriminate; apply lookup_assign_same|].
    split; [rewrite lookup_assign_other by discriminate; apply lookup_assign_same|].
    left. split; [reflexivity|]. exists d. exact Ht.
  - unfold handler in Hh.
    destruct (nan_data_vars _ _ _) as [dat|e]; [|discriminate]. cbn [rbind] in Hh.
    destruct (copy_with_data _ _) as [d1|e]; [|discriminate]. cbn [rbind] in Hh.
    rewrite !setitem_scalar in Hh. cbn [rbind] in Hh. injection Hh as <-.
    exists msg, F64.nan, [], F64.nan, [].
    rewrite Hv. cbn [variables].
    split; [apply lookup_assign_same|].
    split; [rewrite !lookup_assign_other by discriminate; apply lookup_assign_same|].
    split; [rewrite lookup_assign_other by discriminate; apply lookup_assign_same|].
    right. auto.
Qed.

Lemma load_Delta_14C_dataset_bookkeeping_witness :
  exists w' res log m_abs a_abs m_rel a_rel,
    load_Delta_14C_dataset (env_sample smr_sample) "discrete" world0
    = (w', Ok (NewObject res)) /\
    lookup "log" (variables res) = Some (scalar_var (scalar_str log) []) /\
    lookup "max_abs_err" (variables res) = Some (scalar_var (scalar_float m_abs) a_abs) /\
    lookup "max_rel_err" (variables res) = Some (scalar_var (scalar_float m_rel) a_rel) /\
    ((log = "" /\
      exists d, try_body (env_sample smr_sample) (input world0) "discrete" world0
                = (w', Ok d)) \/
     (try_body (env_sample smr_sample) (input world0) "discrete" world0
      = (w', Raise (DMRError log)) /\
      m_abs = F64.nan /\ m_rel = F64.nan)).
Proof.
  destruct (load_Delta_14C_dataset (env_sample smr_sample) "discrete" world0)
    as [w' [[|res]|e]] eqn:E;
    [exfalso; vm_compute in E; discriminate | | exfalso; vm_compute in E; discriminate].
  destruct (load_Delta_14C_dataset_bookkeeping (env_sample smr_sample) "discrete"
              world0 w' res E) as (log & m_abs & a_abs & m_rel & a_rel & Hb).
  exists w', res, log, m_abs, a_abs, m_rel, a_rel. split; [reflexivity | exact Hb].
Defined.

(** ** The failure path beyond the data variables *)

Lemma load_Delta_14C_dataset_failure (env : Env) (method : string) (w w1 : World)
    (ens : DataArray) (msg : string) :
  method = "discrete" \/ method = "continuous" ->
  getattr (input w) "ens" = Ok ens ->
  shape (data ens) <> [0%nat] ->
  try_body env (input w) method w = (w1, Raise (DMRError msg)) ->
  load_Delta_14C_dataset env method w
  = (w1, (d <- handler (input w) ;;
          Ok (NewObject
                {| variables := assign "log" (scalar_var (scalar_str msg) []) (variables d);
                   coord_names := coord_names d;
                   ds_attrs := ds_attrs d |}))%res).
Proof.
  intros Hm Hens Hshape Htry. unfold load_Delta_14C_dataset.
  cbv beta iota delta [bind get_input lift ret try_except_DMRError].
  replace (mem method ["discrete"; "continuous"]) with true
    by (destruct Hm; subst; reflexivity).
  cbv beta iota delta [negb]. rewrite Hens.
  destruct (list_eq_dec Nat.eq_dec (shape (data ens)) [0%nat]) as [He|_];
    [contradiction|].
  rewrite Htry. cbv beta iota delta [str].
  destruct (handler (input w)) as [d|e]; [|reflexivity].
  cbv beta iota. rewrite setitem_scalar. reflexivity.
Qed.

Lemma data_vars_of_not_coord (ds : Dataset) (k : string) :
  In k (keys (data_vars_of ds)) -> ~ In k (coord_names ds).
Proof.
  unfold keys, data_vars_of. rewrite in_map_iff. intros [[k' v] [<- H]].
  apply filter_In in H. destruct H as [_ H]. unfold is_coord in H. cbn [fst] in H |- *.
  apply negb_true_iff, mem_false_In in H. exact H.
Qed.

Lemma copy_with_data_inv (ds : Dataset) (dat : dict DataArray) (d : Dataset) :
  copy_with_data ds dat = Ok d ->
  coord_names d = coord_names ds /\
  ds_attrs d = ds_attrs ds /\
  (forall k, In k (keys dat) <-> In k (keys (data_vars_of ds))) /\
  (forall k, lookup k dat = None -> lookup k (variables d) = lookup k (variables ds)).
Proof.
  unfold copy_with_data.
  destruct (subset (keys dat) (keys (data_vars_of ds))) eqn:S1; [|discriminate].
  destruct (subset (keys (data_vars_of ds)) (keys dat)) eqn:S2; [|discriminate].
  cbn [negb].
  match goal with
  | |- context [mapR ?g (variables ds)] =>
      destruct (mapR g (variables ds)) as [vars|e] eqn:E; [|discriminate]
  end.
  cbn [rbind]. intros H. injection H as <-. cbn [coord_names ds_attrs variables].
  split; [reflexivity|]. split; [reflexivity|]. split.
  - intros k. split; intros Hk.
    + exact (proj1 (subset_spec _ _) S1 k Hk).
    + exact (proj1 (subset_spec _ _) S2 k Hk).
  - intros k Hk. clear S1 S2. revert vars E.
    induction (variables ds) as [|[k' v'] l IH]; intros vars E.
    + injection E as <-. reflexivity.
    + cbn [mapR fst snd] in E.
      destruct (lookup k' dat) as [da|] eqn:Hl.
      * destruct (list_eq_dec Nat.eq_dec _ _) as [_|_]; [|discriminate].
        cbn [rbind] in E.
        match type of E with
        | context [mapR ?g l] => destruct (mapR g l) as [vars'|e] eqn:E'; [|discriminate]
        end.
        cbn [rbind] in E. injection E as <-. cbn [lookup].
        destruct (String.eqb k k') eqn:Ek.
        -- apply String.eqb_eq in Ek. subst k'. congruence.
        -- exact (IH vars' eq_refl).
      * cbn [rbind] in E.
        match type of E with
        | context [mapR ?g l] => destruct (mapR g l) as [vars'|e] eqn:E'; [|discriminate]
        end.
        cbn [rbind] in E. injection E as <-. cbn [lookup].
        destruct (String.eqb k k'); [reflexivity | exact (IH vars' eq_refl)].
Qed.

Lemma handler_inv (ds : Dataset) (res : Dataset) :
  handler ds = Ok res ->
  exists dat d,
    nan_data_vars ds (data_vars_of ds) [] = Ok dat /\
    copy_with_data ds dat = Ok d /\
    res = {| variables := assign "max_rel_err" nan_scalar
                            (assign "max_abs_err" nan_scalar (variables d));
             coord_names := coord_names d;
             ds_attrs := ds_attrs d |}.
Proof.
  unfold handler.
  destruct (nan_data_vars ds (data_vars_of ds) []) as [dat|e] eqn:E1; [|discriminate].
  cbn [rbind].
  destruct (copy_with_data ds dat) as [d|e] eqn:E2; [|discriminate]. cbn [rbind].
  rewrite !setitem_scalar. cbn [rbind variables coord_names ds_attrs].
  intros H. injection H as <-. exists dat, d.
  split; [reflexivity|]. split; [exact E2 | reflexivity].
Qed.

(** X15.  On the failure path the result keeps what is not a data variable:
    the coordinate names and the attributes are those of the given dataset,
    and every coordinate variable (but one named like a bookkeeping variable)
    is in the result as it was, values included. *)
Theorem failure_path_keeps_coordinates (env : Env) (method : string)
    (w w1 w' : World) (msg : string) (res : Dataset) :
  try_body env (input w) method w = (w1, Raise (DMRError msg)) ->
  load_Delta_14C_dataset env method w = (w', Ok (NewObject res)) ->
  coord_names res = coord_names (input w) /\
  ds_attrs res = ds_attrs (input w) /\
  forall k,
    In k (coord_names (input w)) ->
    ~ In k ["max_abs_err"; "max_rel_err"; "log"] ->
    lookup k (variables res) = lookup k (variables (input w)).
Proof.
  intros Ht H.
  destruct (load_Delta_14C_dataset_inv _ _ _ _ _ H)
    as (d & log & Hv & Hc & Ha & [[Ht' _]|[msg' [_ [Hh _]]]]); [congruence|].
  destruct (handler_inv _ _ Hh) as (dat & d1 & _ & Hcopy & ->).
  destruct (copy_with_data_inv _ _ _ Hcopy) as (Hc1 & Ha1 & Hkeys & Hsame).
  cbn [variables coord_names ds_attrs] in Hv, Hc, Ha.
  split; [congruence|]. split; [congruence|].
  intros k Hk Hn. rewrite Hv.
  rewrite !lookup_assign_other by (intros ->; apply Hn; simpl; tauto).
  apply Hsame. apply lookup_None_keys. intros Hd. apply Hkeys in Hd.
  exact (data_vars_of_not_coord _ _ Hd Hk).
Qed.

Lemma failure_path_keeps_coordinates_witness :
  exists w' res,
    load_Delta_14C_dataset env_dmr_error "discrete" world0 = (w', Ok (NewObject res)) /\
    coord_names res = ["ens"; "lat"; "lon"; "time"] /\
    ds_attrs res = [("title", "CARDAMOM")] /\
    forall k,
      In k (coord_names ds_site) ->
      ~ In k ["max_abs_err"; "max_rel_err"; "log"] ->
      lookup k (variables res) = lookup k (variables ds_site).
Proof.
  destruct (load_Delta_14C_dataset env_dmr_error "discrete" world0)
    as [w' [[|res]|e]] eqn:E;
    [exfalso; vm_compute in E; discriminate | | exfalso; vm_compute in E; discriminate].
  exists w', res. split; [reflexivity|].
  refine (failure_path_keeps_coordinates env_dmr_error "discrete" world0
            {| input := ds_site; trace := [CallCreateDiscreteModelRun] |} w'
            "Diagonal value of B greater than 1, pool content increases" res _ E).
  vm_compute. reflexivity.
Defined.




Lemma nan_data_vars_string (ds : Dataset) (items : dict XVariable) (k : string)
    (v : XVariable) (shp : list nat) (elems : list string) :
  (forall k' v', In (k', v') items -> lookup k' (variables ds) = Some v') ->
  In (k, v) items ->
  k <> "time" ->
  x_data v = StrArray shp elems ->
  forall acc,
    nan_data_vars ds items acc
    = Raise (TypeError "ufunc 'multiply' did not contain a loop with signature matching types").
Proof.
  intros Hall Hin Hne Hstr.
  induction items as [|[key v0] items IH]; intros acc; [contradiction|].
  cbn [nan_data_vars].
  assert (Hrest : forall k' v', In (k', v') items -> lookup k' (variables ds) = Some v').
  { intros k' v' H'. apply Hall. right. exact H'. }
  destruct (String.eqb key "time") eqn:Et; cbn [negb].
  - apply String.eqb_eq in Et. subst key.
    destruct Hin as [Hin|Hin]; [injection Hin as <- _; congruence|].
    exact (IH Hrest Hin acc).
  - unfold getitem. rewrite (Hall key v0 (or_introl eq_refl)). cbn [rbind].
    unfold nan_times. cbn [data].
    destruct (x_data v0) as [s xs|s xs] eqn:Hd; [|reflexivity].
    cbn [rbind].
    destruct Hin as [Hin|Hin]; [injection Hin as -> ->; congruence|].
    exact (IH Hrest Hin _).
Qed.

(** X17.  The failure path needs numeric data variables.  When the dataset
    holds a string among its data variables, as a dataset does that already
    carries a [log], the handler cannot multiply it by NaN: after a
    [DMRError] in the [try] block the caller gets numpy's [TypeError], not
    the dataset of missing values. *)
Theorem failure_path_refuses_string_variable (env : Env) (method : string)
    (w w1 : World) (ens : DataArray) (msg : string)
    (k : string) (v : XVariable) (shp : list nat) (elems : list string) :
  method = "discrete" \/ method = "continuous" ->
  getattr (input w) "ens" = Ok ens ->
  shape (data ens) <> [0%nat] ->
  NoDup (keys (variables (input w))) ->
  In (k, v) (data_vars_of (input w)) ->
  k <> "time" ->
  x_data v = StrArray shp elems ->
  try_body env (input w) method w = (w1, Raise (DMRError msg)) ->
  load_Delta_14C_dataset env method w
  = (w1, Raise (TypeError "ufunc 'multiply' did not contain a loop with signature matching types")).
Proof.
  intros Hm Hens Hshape Hnd Hin Hne Hstr Htry.
  rewrite (load_Delta_14C_dataset_failure _ _ _ _ _ _ Hm Hens Hshape Htry).
  unfold handler.
  rewrite (nan_data_vars_string (input w) (data_vars_of (input w)) k v shp elems).
  - reflexivity.
  - intros k' v' H'. apply NoDup_lookup; [exact Hnd | exact (data_vars_of_In _ _ _ H')].
  - exact Hin.
  - exact Hne.
  - exact Hstr.
Qed.

Lemma failure_path_refuses_string_variable_witness :
  load_Delta_14C_dataset env_dmr_error "discrete" {| input := ds_with_string; trace := [] |}
  = ({| input := ds_with_string; trace := [CallCreateDiscreteModelRun] |},
     Raise (TypeError "ufunc 'multiply' did not contain a loop with signature matching types")).
Proof.
  apply (failure_path_refuses_string_variable env_dmr_error "discrete"
           {| input := ds_with_string; trace := [] |}
           {| input := ds_with_string; trace := [CallCreateDiscreteModelRun] |}
           {| data := FloatArray [] [fl 1];
              coords := [("ens", xvar [] [] [fl 1]); ("lat", xvar [] [] [fl 50]);
                         ("lon", xvar [] [] [fl 11])];
              dims := []; da_attrs := [] |}
           "Diagonal value of B greater than 1, pool content increases"
           "log" (scalar_var (scalar_str "") []) [] [""]).
  - left. reflexivity.
  - reflexivity.
  - discriminate.
  - cbn. repeat (constructor; [cbn; intros H; repeat (destruct H as [H|H]; [discriminate|]); exact H|]).
    constructor.
  - cbn. tauto.
  - discriminate.
  - reflexivity.
  - vm_compute. reflexivity.
Defined.

(** ** Which collaborators are called *)

Lemma emits_ret {A} (P : call -> Prop) (a : A) : emits P (ret a).
Proof.
  intros w w' r H. injection H as <- _. exists []. rewrite app_nil_r. auto.
Qed.

Lemma emits_raise {A} (P : call -> Prop) (e : exn) : emits P (@raise A e).
Proof.
  intros w w' r H. injection H as <- _. exists []. rewrite app_nil_r. auto.
Qed.

Lemma emits_lift {A} (P : call -> Prop) (x : result A) : emits P (lift x).
Proof.
  intros w w' r H. injection H as <- _. exists []. rewrite app_nil_r. auto.
Qed.

Lemma emits_get_input (P : call -> Prop) : emits P get_input.
Proof.
  intros w w' r H. injection H as <- _. exists []. rewrite app_nil_r. auto.
Qed.

Lemma emits_setitem_input (P : call -> Prop) (name : string) (v : XVariable) :
  emits P (setitem_input name v).
Proof.
  intros w w' r. unfold setitem_input.
  destruct (setitem (input w) name v); intros H; injection H as <- _;
    exists []; rewrite app_nil_r; auto.
Qed.

Lemma emits_ext {A} (P : call -> Prop) (c : call) (x : result A) :
  P c -> emits P (ext c x).
Proof.
  intros Hc w w' r H. injection H as <- _. exists [c]. auto.
Qed.

Lemma emits_bind {A B} (P : call -> Prop) (c : M A) (k : A -> M B) :
  emits P c -> (forall a, emits P (k a)) -> emits P (bind c k).
Proof.
  intros Hc Hk w w' r. unfold bind.
  destruct (c w) as [w1 [a|e]] eqn:E; intros H.
  - destruct (Hc _ _ _ E) as [n1 [T1 F1]].
    destruct (Hk a _ _ _ H) as [n2 [T2 F2]].
    exists (n1 ++ n2)%list. rewrite T2, T1, app_assoc. split; [reflexivity|].
    apply Forall_app. auto.
  - injection H as <- _. exact (Hc _ _ _ E).
Qed.

Lemma emits_foldM {S X} (P : call -> Prop) (f : S -> X -> M S) (l : list X) :
  (forall s x, emits P (f s x)) -> forall s, emits P (foldM f l s).
Proof.
  intros Hf. induction l as [|x l IH]; intros s; cbn [foldM].
  - apply emits_ret.
  - apply emits_bind; [apply Hf | exact IH].
Qed.

Lemma emits_try {A} (P : call -> Prop) (body : M A) (h : exn -> M A) :
  emits P body -> (forall e, emits P (h e)) -> emits P (try_except_DMRError body h).
Proof.
  intros Hb Hh w w' r. unfold try_except_DMRError.
  destruct (body w) as [w1 [a|e]] eqn:E.
  - intros H. injection H as <- <-. exact (Hb _ _ _ E).
  - destruct (Hb _ _ _ E) as [n1 [T1 F1]].
    destruct e; try (intros H; injection H as <- <-; exists n1; auto).
    intros H. destruct (Hh _ _ _ _ H) as [n2 [T2 F2]].
    exists (n1 ++ n2)%list. rewrite T2, T1, app_assoc. split; [reflexivity|].
    apply Forall_app. auto.
Qed.

Lemma emits_create_Delta_14C_dataset (P : call -> Prop) mdo ds mr mr_14C :
  P CallSolve12C -> P CallSolve14C ->
  emits P (create_Delta_14C_dataset mdo ds mr mr_14C).
Proof.
  intros H12 H14. unfold create_Delta_14C_dataset.
  apply emits_bind.
  { apply emits_foldM. intros s [nr name]. unfold save_stock. rewrite solve_both_eq.
    apply emits_bind; [|intros; apply emits_lift].
    apply emits_bind; [apply emits_ext; exact H12|]. intros soln.
    apply emits_bind; [apply emits_ext; exact H14|]. intros soln_14C.
    apply emits_ret. }
  intros dv1. apply emits_bind; [apply emits_lift|]. intros us.
  apply emits_bind.
  { apply emits_foldM. intros s [nr name]. apply emits_lift. }
  intros dv2. apply emits_bind; [apply emits_lift|]. intros Fs.
  apply emits_bind.
  { apply emits_foldM. intros s [nr name]. unfold save_internal.
    apply emits_foldM. intros s0 [nr0 name0]. apply emits_lift. }
  intros dv3. apply emits_bind; [apply emits_lift|]. intros rs.
  apply emits_bind.
  { apply emits_foldM. intros s [nr name]. apply emits_lift. }
  intros dv4. apply emits_lift.
Qed.

Lemma emits_load_dmr_14C (P : call -> Prop) env dmr :
  P CallLoadAtmCurve -> (forall A b, P (CallLinalgSolve A b)) ->
  (forall x0, P (CallTo14COnly x0)) ->
  emits P (load_dmr_14C env dmr).
Proof.
  intros H1 H2 H3. unfold load_dmr_14C.
  apply emits_bind; [apply emits_ext; exact H1|]. intros F.
  apply emits_bind; [apply emits_lift|]. intros us.
  apply emits_bind; [apply emits_lift|]. intros B0.
  apply emits_bind; [apply emits_lift|]. intros A.
  apply emits_bind; [apply emits_lift|]. intros b.
  apply emits_bind; [apply emits_ext; apply H2|]. intros x0.
  apply emits_ext. apply H3.
Qed.

Lemma emits_load_smr_14C (P : call -> Prop) env smr :
  P CallLoadAtmCurve -> (forall A b, P (CallLinalgSolve A b)) ->
  (forall x0, P (CallTo14COnly x0)) ->
  emits P (load_smr_14C env smr).
Proof.
  intros H1 H2 H3. unfold load_smr_14C.
  apply emits_bind; [apply emits_ext; exact H1|]. intros F.
  apply emits_bind; [apply emits_lift|]. intros B0.
  apply emits_bind; [apply emits_lift|]. intros u0.
  apply emits_bind; [apply emits_ext; apply H2|]. intros x0.
  apply emits_ext. apply H3.
Qed.

Lemma emits_try_body env ds method :
  emits (fun c => if String.eqb method "discrete" then c <> CallCreateModelRun
                  else c <> CallCreateDiscreteModelRun)
        (try_body env ds method).
Proof.
  unfold try_body.
  apply emits_bind; [apply emits_lift|]. intros mdo.
  apply emits_bind.
  { destruct (String.eqb method "discrete").
    - apply emits_bind; [apply emits_ext; discriminate|].
      intros [[mr abs_err] rel_err].
      apply emits_bind; [apply emits_load_dmr_14C; intros; discriminate|]. intros mr_14C.
      apply emits_bind; [apply emits_ext; discriminate|]. intros soln.
      apply emits_bind; [apply emits_ext; discriminate|]. intros soln_14C.
      apply emits_ret.
    - apply emits_bind; [apply emits_ext; discriminate|].
      intros [[mr abs_err] rel_err].
      apply emits_bind; [apply emits_load_smr_14C; intros; discriminate|]. intros mr_14C.
      apply emits_bind; [apply emits_ext; discriminate|]. intros soln.
      apply emits_bind; [apply emits_ext; discriminate|]. intros soln_14C.
      apply emits_ret. }
  intros [[[mr mr_14C] abs_err] rel_err].
  apply emits_bind.
  { apply emits_create_Delta_14C_dataset; destruct (String.eqb method "discrete");
      discriminate. }
  intros d0. apply emits_bind; [apply emits_lift|]. intros va.
  apply emits_bind; [apply emits_lift|]. intros d1.
  apply emits_bind; [apply emits_lift|]. intros vr.
  apply emits_lift.
Qed.

(** X18.  The mode selects one reconstruction and never touches the other:
    however the call ends, in mode ['discrete'] the calls made do not include
    [create_model_run], and in any other mode they do not include
    [create_discrete_model_run]. *)
Theorem load_Delta_14C_dataset_mode_dispatch (env : Env) (method : string)
    (w w' : World) (r : result returned) :
  load_Delta_14C_dataset env method w = (w', r) ->
  exists new,
    trace w' = (trace w ++ new)%list /\
    Forall (fun c => if String.eqb method "discrete" then c <> CallCreateModelRun
                     else c <> CallCreateDiscreteModelRun) new.
Proof.
  revert w w' r.
  change (emits (fun c => if String.eqb method "discrete" then c <> CallCreateModelRun
                          else c <> CallCreateDiscreteModelRun)
                (load_Delta_14C_dataset env method)).
  unfold load_Delta_14C_dataset.
  apply emits_bind; [apply emits_get_input|]. intros ds.
  destruct (negb (mem method ["discrete"; "continuous"])); [apply emits_raise|].
  apply emits_bind; [apply emits_lift|]. intros ens.
  destruct (list_eq_dec Nat.eq_dec (shape (data ens)) [0%nat]) as [_|_].
  { apply emits_bind; [apply emits_setitem_input|]. intros _.
    apply emits_bind; [apply emits_setitem_input|]. intros _.
    apply emits_bind; [apply emits_setitem_input|]. intros _.
    apply emits_ret. }
  apply emits_bind.
  { apply emits_try.
    - apply emits_bind; [apply emits_try_body|]. intros d. apply emits_ret.
    - intros e. apply emits_bind; [apply emits_lift|]. intros d. apply emits_ret. }
  intros [d log]. apply emits_bind; [apply emits_lift|]. intros d'. apply emits_ret.
Qed.

Lemma load_Delta_14C_dataset_mode_dispatch_witness :
  exists w' r new,
    load_Delta_14C_dataset (env_sample smr_sample) "continuous" world0 = (w', r) /\
    trace w' = (trace world0 ++ new)%list /\
    Forall (fun c => c <> CallCreateDiscreteModelRun) new.
Proof.
  destruct (load_Delta_14C_dataset (env_sample smr_sample) "continuous" world0)
    as [w' r] eqn:E.
  destruct (load_Delta_14C_dataset_mode_dispatch (env_sample smr_sample) "continuous"
              world0 w' r E) as [new Hnew].
  exists w', r, new. split; [reflexivity | exact Hnew].
Defined.

(** ** The figure *)

Lemma enumerate_nth_In {A} (l : list A) (i : nat) (a : A) :
  nth_error l i = Some a -> In (i, a) (enumerate l).
Proof.
  unfold enumerate.
  assert (G : forall s, nth_error l i = Some a ->
                        In ((s + i)%nat, a) (combine (seq s (length l)) l)).
  { revert i. induction l as [|b l IH]; intros i s H; [destruct i; discriminate|].
    destruct i as [|i]; simpl in H |- *.
    - injection H as <-. left. rewrite Nat.add_0_r. reflexivity.
    - right. replace (s + S i)%nat with (S s + i)%nat by lia. exact (IH i (S s) H). }
  exact (G 0%nat).
Qed.

Lemma enumerate_fst {A} (l : list A) : map fst (enumerate l) = seq 0 (length l).
Proof.
  unfold enumerate. generalize 0%nat.
  induction l as [|a l IH]; intros s; simpl; [reflexivity|].
  rewrite IH. reflexivity.
Qed.

Lemma enumerate_snd_all {A} (l : list A) : map snd (enumerate l) = l.
Proof.
  unfold enumerate. generalize 0%nat.
  induction l as [|a l IH]; intros s; simpl; [reflexivity|].
  rewrite IH. reflexivity.
Qed.

Lemma plot_pool_inv (soln soln_14C : matrix) (times : vector) (nr : nat)
    (pool_name : string) (panel : Panel) :
  plot_pool soln soln_14C times (nr, pool_name) = Ok panel ->
  (nr < nr_axes)%nat /\
  p_axis panel = nr /\ p_title panel = pool_name /\ p_x panel = times /\
  length (p_y panel) = length times /\
  exists C12 C14,
    column nr soln = Ok C12 /\ column nr soln_14C = Ok C14 /\
    F_Delta_14C_arr C12 C14 = Ok (p_y panel).
Proof.
  unfold plot_pool.
  destruct (Nat.leb nr_axes nr) eqn:El; [discriminate|].
  apply Nat.leb_gt in El.
  destruct (column nr soln) as [C12|e] eqn:E1; [|discriminate]. cbn [rbind].
  destruct (column nr soln_14C) as [C14|e] eqn:E2; [|discriminate]. cbn [rbind].
  destruct (F_Delta_14C_arr C12 C14) as [D|e] eqn:E3; [|discriminate]. cbn [rbind].
  unfold ax_plot. destruct (Nat.eqb (length times) (length D)) eqn:Ep; [|discriminate].
  apply Nat.eqb_eq in Ep. cbn [rbind].
  intros H. injection H as <-. cbn [p_axis p_title p_x p_y].
  split; [exact El|]. repeat (split; [first [reflexivity | symmetry; exact Ep]|]).
  exists C12, C14. auto.
Qed.

Lemma plot_pools_raises (soln soln_14C : matrix) (times : vector)
    (items : list (nat * string)) :
  (exists p, In p items /\ (nr_axes <= fst p)%nat) ->
  forall drawn, exists panels e,
    plot_pools soln soln_14C times items drawn = (panels, Raise e).
Proof.
  induction items as [|[nr name] items IH]; intros [p [Hin Hp]] drawn;
    [contradiction|].
  cbn [plot_pools].
  destruct (plot_pool soln soln_14C times (nr, name)) as [panel|e] eqn:E.
  - destruct Hin as [<-|Hin].
    + destruct (plot_pool_inv _ _ _ _ _ _ E) as [Hlt _]. cbn [fst] in Hp. lia.
    + apply IH. exists p. auto.
  - exists drawn, e. reflexivity.
Qed.

Lemma plot_pools_ok (soln soln_14C : matrix) (times : vector)
    (items : list (nat * string)) :
  forall drawn panels,
    plot_pools soln soln_14C times items drawn = (panels, Ok tt) ->
    exists new,
      panels = (drawn ++ new)%list /\
      Forall2 (fun item panel => plot_pool soln soln_14C times item = Ok panel)
              items new.
Proof.
  induction items as [|item items IH]; intros drawn panels H.
  - injection H as <-. exists []. rewrite app_nil_r. auto.
  - cbn [plot_pools] in H.
    destruct (plot_pool soln soln_14C times item) as [panel|e] eqn:E; [|discriminate].
    destruct (IH _ _ H) as [new [-> HF]].
    exists (panel :: new). rewrite <- app_assoc. split; [reflexivity|].
    constructor; assumption.
Qed.

(** X19.  The figure has six axes.  For a model structure with more than six
    pools [plot_Delta_14C_in_time] never gets to show the figure: it ends
    with an exception, whatever the solutions are. *)
Theorem plot_Delta_14C_in_time_six_axes (ms : ModelStructure) (soln soln_14C : matrix) :
  (6 < length (pool_names ms))%nat ->
  exists panels e, plot_Delta_14C_in_time ms soln soln_14C = (panels, Raise e).
Proof.
  intros H. unfold plot_Delta_14C_in_time. apply plot_pools_raises.
  destruct (nth_error (pool_names ms) 6) as [a|] eqn:E.
  - exists (6%nat, a). split; [exact (enumerate_nth_In _ _ _ E)|]. exact (Nat.le_refl 6).
  - apply nth_error_None in E. lia.
Qed.

Lemma plot_Delta_14C_in_time_six_axes_witness :
  exists panels e,
    plot_Delta_14C_in_time ms_seven_pools (const_mat 3 7 (fl 10)) (const_mat 3 7 alpha)
    = (panels, Raise e).
Proof.
  apply (plot_Delta_14C_in_time_six_axes ms_seven_pools
           (const_mat 3 7 (fl 10)) (const_mat 3 7 alpha)).
  cbn. lia.
Defined.

(** X20.  What the figure shows.  When [plot_Delta_14C_in_time] gets to show
    the figure, the model has at most six pools and there is one panel for
    every pool, in the order of the pools on the axes [0, 1, ...], each
    titled with its pool's name.  Every panel plots the diagnostic
    [F_Delta_14C] of its pool's column in the two solutions against
    [t_conv(0), t_conv(1), ...], one point for every row of the solution. *)
Theorem plot_Delta_14C_in_time_panels (ms : ModelStructure) (soln soln_14C : matrix)
    (panels : list Panel) :
  plot_Delta_14C_in_time ms soln soln_14C = (panels, Ok tt) ->
  (length (pool_names ms) <= 6)%nat /\
  map p_title panels = pool_names ms /\
  map p_axis panels = seq 0 (length (pool_names ms)) /\
  forall panel,
    In panel panels ->
    p_x panel = t_conv_steps (length soln) /\
    length (p_y panel) = length soln /\
    exists C12 C14,
      column (p_axis panel) soln = Ok C12 /\
      column (p_axis panel) soln_14C = Ok C14 /\
      F_Delta_14C_arr C12 C14 = Ok (p_y panel).
Proof.
  intros H. split.
  { destruct (Nat.le_gt_cases (length (pool_names ms)) 6) as [Hle|Hgt]; [exact Hle|].
    exfalso.
    destruct (nth_error (pool_names ms) 6) as [a|] eqn:E.
    - destruct (plot_pools_raises soln soln_14C (t_conv_steps (length soln))
                  (enumerate (pool_names ms))
                  (ex_intro _ (6%nat, a)
                     (conj (enumerate_nth_In _ _ _ E) (Nat.le_refl 6))) [])
        as [panels' [e He]].
      unfold plot_Delta_14C_in_time in H. congruence.
    - apply nth_error_None in E. lia. }
  unfold plot_Delta_14C_in_time in H.
  destruct (plot_pools_ok _ _ _ _ _ _ H) as [new [-> HF]]. clear H. cbn [app].
  rewrite <- (enumerate_snd_all (pool_names ms)) at 1.
  rewrite <- (enumerate_fst (pool_names ms)).
  induction HF as [|[nr name] panel items new Hp HF IH].
  - split; [reflexivity|]. split; [reflexivity|]. intros panel0 [].
  - destruct (plot_pool_inv _ _ _ _ _ _ Hp) as (_ & Ha & Ht & Hx & Hy & HC).
    destruct IH as (IH1 & IH2 & IH3).
    cbn [map fst snd]. split; [congruence|]. split; [congruence|].
    intros panel' [<-|Hin]; [|exact (IH3 panel' Hin)].
    split; [exact Hx|]. split.
    + rewrite Hy. unfold t_conv_steps. rewrite length_map, length_seq. reflexivity.
    + rewrite Ha. exact HC.
Qed.

Lemma plot_Delta_14C_in_time_panels_witness :
  exists panels,
    plot_Delta_14C_in_time load_model_structure (const_mat 3 6 (fl 10))
                           (const_mat 3 6 alpha)
    = (panels, Ok tt) /\
    (length (pool_names load_model_structure) <= 6)%nat /\
    map p_title panels = pool_names load_model_structure /\
    map p_axis panels = seq 0 (length (pool_names load_model_structure)) /\
    forall panel,
      In panel panels ->
      p_x panel = t_conv_steps (length (const_mat 3 6 (fl 10))) /\
      length (p_y panel) = length (const_mat 3 6 (fl 10)) /\
      exists C12 C14,
        column (p_axis panel) (const_mat 3 6 (fl 10)) = Ok C12 /\
        column (p_axis panel) (const_mat 3 6 alpha) = Ok C14 /\
        F_Delta_14C_arr C12 C14 = Ok (p_y panel).
Proof.
  destruct (plot_Delta_14C_in_time load_model_structure (const_mat 3 6 (fl 10))
              (const_mat 3 6 alpha)) as [panels [[]|e]] eqn:E;
    [|exfalso; vm_compute in E; discriminate].
  exists panels. split; [reflexivity|].
  exact (plot_Delta_14C_in_time_panels load_model_structure (const_mat 3 6 (fl 10))
           (const_mat 3 6 alpha) panels E).
Defined.

(** ** From the model structure to the result *)

Lemma offered_names_in_result (mdo : ModelDataObject) (ds : Dataset)
    (mr mr_14C : ModelRun) (w w' : World) (res : Dataset) (name : string) :
  create_Delta_14C_dataset mdo ds mr mr_14C w = (w', Ok res) ->
  In name (candidate_names (pool_names (model_structure mdo))) ->
  In name (keys (variables ds)) ->
  In name (keys (variables res)).
Proof.
  intros H Hc Hk.
  destruct (create_Delta_14C_dataset_inv _ _ _ _ _ _ _ H)
    as (w1 & dv1 & us & w2 & dv2 & Fs & w3 & dv3 & rs & dv4 &
        E1 & _ & E2 & _ & E3 & _ & E4 & E5).
  pose proof (foldM_keys ds _ (fun x => [snd x])
                (save_stock_keys mdo ds mr mr_14C) _ _ _ _ _ E1) as K1.
  pose proof (foldM_keys ds _ (fun x => ["NPP_to_" ++ snd x])
                (save_flux2_keys ds _ (fst us) (snd us)) _ _ _ _ _ E2) as K2.
  pose proof (foldM_keys ds _
                (fun x => map (fun pt => snd x ++ "_to_" ++ pt)
                              (pool_names (model_structure mdo)))
                (save_internal_keys mdo ds (fst Fs) (snd Fs)) _ _ _ _ _ E3) as K3.
  pose proof (foldM_keys ds _ (fun x => [snd x ++ "_to_RH"])
                (save_flux2_keys ds _ (fst rs) (snd rs)) _ _ _ _ _ E4) as K4.
  apply (new_Dataset_keys _ _ _ _ E5). left.
  rewrite K4, K3, K2, K1. apply candidate_names_In in Hc. tauto.
Qed.

Lemma load_mdo_inv (ds : Dataset) (mdo : ModelDataObject) :
  load_mdo ds = Ok mdo ->
  model_structure mdo = load_model_structure /\ dataset mdo = ds /\
  stock_unit mdo = "gC/m2".
Proof.
  unfold load_mdo.
  destruct (getattr ds "time") as [t|e]; [|discriminate]. cbn [rbind].
  destruct (len t) as [n|e]; [|discriminate]. cbn [rbind].
  intros H. injection H as <-. auto.
Qed.

Lemma structure_variables_offered (name : string) :
  In name (structure_variables load_model_structure) ->
  In name (candidate_names (pool_names load_model_structure)).
Proof.
  assert (S : subset (structure_variables load_model_structure)
                     (candidate_names (pool_names load_model_structure)) = true)
    by (vm_compute; reflexivity).
  exact (proj1 (subset_spec _ _) S name).
Qed.

(** X21.  The names in [load_model_structure] follow the naming that
    [create_Delta_14C_dataset] searches by: for a model data object built by
    [load_mdo], every stock and flux variable the model structure declares
    that is a variable of the dataset is a variable of the result. *)
Theorem declared_variables_reach_the_result (ds : Dataset) (mdo : ModelDataObject)
    (mr mr_14C : ModelRun) (w w' : World) (res : Dataset) (name : string) :
  load_mdo ds = Ok mdo ->
  create_Delta_14C_dataset mdo ds mr mr_14C w = (w', Ok res) ->
  In name (structure_variables load_model_structure) ->
  In name (keys (variables ds)) ->
  In name (keys (variables res)).
Proof.
  intros Hm H Hs Hk. destruct (load_mdo_inv _ _ Hm) as [Hms _].
  apply (offered_names_in_result mdo ds mr mr_14C w w' res name H); [|exact Hk].
  rewrite Hms. exact (structure_variables_offered name Hs).
Qed.

Lemma declared_variables_reach_the_result_witness :
  let mr := dmr_run dmr_sample in
  let mr_14C := run_14C mr (const_row 6 alpha) (const_mat 2 6 alpha) in
  exists mdo w' res,
    load_mdo ds_site = Ok mdo /\
    create_Delta_14C_dataset mdo ds_site mr mr_14C world0 = (w', Ok res) /\
    In "Soil_to_RH" (keys (variables res)).
Proof.
  intros mr mr_14C.
  destruct (load_mdo ds_site) as [mdo|e] eqn:Em; [|exfalso; vm_compute in Em; discriminate].
  destruct (create_Delta_14C_dataset mdo ds_site mr mr_14C world0)
    as [w' [res|e]] eqn:E.
  2:{ exfalso. vm_compute in Em. injection Em as <-. vm_compute in E. discriminate. }
  exists mdo, w', res.
  split; [first [exact Em | reflexivity]|]. split; [first [exact E | reflexivity]|].
  apply (declared_variables_reach_the_result ds_site mdo mr mr_14C world0 w' res
           "Soil_to_RH" Em E).
  - cbv. tauto.
  - cbv. tauto.
Defined.

(** ** The calls of a successful discrete run *)

(** X22.  When the [try] block succeeds in mode ['discrete'], the calls it
    has made are, in this order: the reconstruction of the discrete run, the
    three calls of [load_dmr_14C], [solve] of the 12C and of the 14C run, and
    then both [solve]s once more for each of the six pools: each solution
    is computed seven times. *)
Theorem discrete_success_calls (env : Env) (ds : Dataset) (w w' : World) (d : Dataset) :
  try_body env ds "discrete" w = (w', Ok d) ->
  exists A b x0,
    trace w'
    = (trace w
       ++ [CallCreateDiscreteModelRun; CallLoadAtmCurve; CallLinalgSolve A b;
           CallTo14COnly x0; CallSolve12C; CallSolve14C]
       ++ concat (repeat [CallSolve12C; CallSolve14C] 6))%list.
Proof.
  unfold try_body. unfold bind at 1. unfold lift at 1.
  destruct (load_mdo ds) as [mdo|e] eqn:E0; [|discriminate].
  destruct (load_mdo_inv _ _ E0) as [Hms _].
  replace (String.eqb "discrete" "discrete") with true by reflexivity.
  unfold bind at 1. unfold bind at 1. unfold ext at 1.
  destruct (create_discrete_model_run env mdo) as [[[mr abs_err] rel_err]|e];
    [|discriminate].
  unfold bind at 1.
  destruct (load_dmr_14C env mr _) as [w1 [mr_14C|e]] eqn:E1; [|discriminate].
  destruct (load_dmr_14C_inv _ _ _ _ _ E1)
    as (F & raw & B0 & A & b & x0 & _ & _ & _ & _ & _ & _ & _ & T1 & _).
  cbn [trace] in T1.
  unfold bind at 1. unfold ext at 1.
  destruct (solve mr) as [soln|e]; [|discriminate].
  unfold bind at 1. unfold ext at 1.
  destruct (solve mr_14C) as [soln_14C|e]; [|discriminate].
  unfold ret at 1. cbn [input trace].
  unfold bind at 1.
  destruct (create_Delta_14C_dataset mdo ds mr mr_14C _) as [w3 [d0|e]] eqn:E2;
    [|discriminate].
  pose proof (create_Delta_14C_dataset_trace _ _ _ _ _ _ _ E2) as T2.
  cbn [trace] in T2. rewrite Hms in T2.
  cbv beta iota delta [bind lift].
  destruct (err_var abs_err _) as [va|e]; [|discriminate].
  destruct (setitem d0 "max_abs_err" va) as [d1|e]; [|discriminate].
  destruct (err_var rel_err _) as [vr|e]; [|discriminate].
  intros H. injection H as <- _.
  exists A, b, x0. rewrite T2, T1. rewrite <- !app_assoc. reflexivity.
Qed.

Lemma discrete_success_calls_witness :
  exists w' d A b x0,
    try_body (env_sample smr_sample) ds_site "discrete" world0 = (w', Ok d) /\
    trace w'
    = (trace world0
       ++ [CallCreateDiscreteModelRun; CallLoadAtmCurve; CallLinalgSolve A b;
           CallTo14COnly x0; CallSolve12C; CallSolve14C]
       ++ concat (repeat [CallSolve12C; CallSolve14C] 6))%list.
Proof.
  destruct (try_body (env_sample smr_sample) ds_site "discrete" world0)
    as [w' [d|e]] eqn:E; [|exfalso; vm_compute in E; discriminate].
  destruct (discrete_success_calls (env_sample smr_sample) ds_site world0 w' d E)
    as (A & b & x0 & HT).
  exists w', d, A, b, x0. split; [reflexivity | exact HT].
Defined.

(** ** What the failure result depends on *)

(** X23.  On the failure path nothing of the attempt survives but the
    message: two calls on the same dataset whose [try] blocks raise a
    [DMRError] with the same message end alike, with the same exception or
    with equal datasets, whatever the mode and the collaborators were and
    however far each attempt got. *)
Theorem failure_result_depends_on_message_only (env env' : Env)
    (method method' : string) (ds : Dataset) (t t' : list call) (w1 w1' : World)
    (ens : DataArray) (msg : string) :
  method = "discrete" \/ method = "continuous" ->
  method' = "discrete" \/ method' = "continuous" ->
  getattr ds "ens" = Ok ens ->
  shape (data ens) <> [0%nat] ->
  try_body env ds method {| input := ds; trace := t |} = (w1, Raise (DMRError msg)) ->
  try_body env' ds method' {| input := ds; trace := t' |} = (w1', Raise (DMRError msg)) ->
  snd (load_Delta_14C_dataset env method {| input := ds; trace := t |})
  = snd (load_Delta_14C_dataset env' method' {| input := ds; trace := t' |}).
Proof.
  intros Hm Hm' Hens Hshape Ht Ht'.
  rewrite (load_Delta_14C_dataset_failure env method {| input := ds; trace := t |}
             w1 ens msg Hm Hens Hshape Ht).
  rewrite (load_Delta_14C_dataset_failure env' method' {| input := ds; trace := t' |}
             w1' ens msg Hm' Hens Hshape Ht').
  reflexivity.
Qed.

Lemma failure_result_depends_on_message_only_witness :
  snd (load_Delta_14C_dataset env_dmr_error "discrete" {| input := ds_site; trace := [] |})
  = snd (load_Delta_14C_dataset env_dmr_error_late "discrete"
           {| input := ds_site; trace := [] |}).
Proof.
  eapply (failure_result_depends_on_message_only env_dmr_error env_dmr_error_late
            "discrete" "discrete" ds_site [] []
            {| input := ds_site; trace := [CallCreateDiscreteModelRun] |} _
            {| data := FloatArray [] [fl 1];
               coords := [("ens", xvar [] [] [fl 1]); ("lat", xvar [] [] [fl 50]);
                          ("lon", xvar [] [] [fl 11])];
               dims := []; da_attrs := [] |}
            "Diagonal value of B greater than 1, pool content increases").
  - left. reflexivity.
  - left. reflexivity.
  - reflexivity.
  - discriminate.
  - vm_compute. reflexivity.
  - vm_compute. reflexivity.
Defined.

(** ** The length of a new variable *)

Lemma forallb_filter_same {A} (f : A -> bool) (l : list A) :
  forallb f (filter f l) = true.
Proof.
  apply forallb_forall. intros x Hx. apply filter_In in Hx. tauto.
Qed.

(** X24.  [add_variable] takes the length of a series from the dataset, not
    from the new data: when the dataset's variable lies on one dimension, and
    the dataset has a coordinate on that dimension, new data of another
    length are refused with [ValueError]. *)
Theorem add_variable_checks_length (ds : Dataset) (data_vars : dict DataArray)
    (var_name_ds : string) (new_var : BgcVariable vector) (v : XVariable)
    (dim k : string) (c : XVariable) (n : nat) :
  lookup var_name_ds (variables ds) = Some v ->
  x_dims v = [dim] ->
  In (k, c) (coords_of ds) ->
  x_dims c = [dim] ->
  shape (x_data c) = [n] ->
  length (v_data new_var) <> n ->
  add_variable ds data_vars var_name_ds new_var
  = Raise (ValueError "conflicting sizes for dimension").
Proof.
  intros Hv Hd Hc Hcd Hcs Hlen. unfold add_variable.
  replace (mem var_name_ds (keys (variables ds))) with true.
  2:{ symmetry. apply mem_In, lookup_In_keys. exists v. exact Hv. }
  unfold getitem. rewrite Hv. cbn [rbind da_attrs coords dims].
  unfold new_DataArray. cbn [array1 shape length]. rewrite Hd. cbn [length Nat.eqb negb].
  rewrite forallb_filter_same. cbn [negb].
  destruct (agree _ _) eqn:Ea; [|reflexivity].
  exfalso. apply Hlen.
  apply (proj1 (agree_spec _ _) Ea dim (length (v_data new_var)) n).
  - left. reflexivity.
  - unfold sizes. apply in_flat_map. exists (k, c). split.
    + apply filter_In. split; [exact Hc|]. cbn [snd]. rewrite Hcd.
      unfold subset, mem. cbn. rewrite String.eqb_refl. reflexivity.
    + unfold var_sizes. cbn [snd]. rewrite Hcd, Hcs. left. reflexivity.
Qed.

Lemma add_variable_checks_length_witness :
  add_variable ds_site [] "Leaf" {| v_data := [fl 1; fl 2]; v_unit := "gC/m2" |}
  = Raise (ValueError "conflicting sizes for dimension").
Proof.
  apply (add_variable_checks_length ds_site [] "Leaf"
           {| v_data := [fl 1; fl 2]; v_unit := "gC/m2" |}
           (series 10) "time" "time" (xvar ["time"] [3%nat] [fl 0; fl 31; fl 59]) 3).
  - reflexivity.
  - reflexivity.
  - cbn. tauto.
  - reflexivity.
  - reflexivity.
  - discriminate.
Defined.
